(** * CSV visualization dashboard: data pipeline and chart-descriptor synthesis

    A shallow embedding of [src/utils/CSVVisualizationDashboard.tsx]:
    the sampler, the schema analysis (numeric and geographic columns),
    the per-plot-type series synthesis and the view-state machine,
    together with the part of the JavaScript runtime these rely on
    (primitive values, coercions, property order of ordinary objects).

    JavaScript numbers are IEEE 754 binary64 values and are modelled by
    Rocq's primitive floats.  Strings are modelled by [string]; the model
    covers code units below 128 (ASCII). *)

From Stdlib Require Import Floats ZArith List String Ascii Bool Arith Lia.
From Stdlib Require Import Sorted.
Import ListNotations.

Open Scope string_scope.
Open Scope list_scope.
Open Scope nat_scope.

Abbreviation len := (@Datatypes.length _).

(* ================================================================== *)
(** * Part I: the embedding *)
(* ================================================================== *)

(** ** The JavaScript runtime fragment used by the dashboard *)
Module JS.

(** *** Characters and strings *)

Definition code (c : ascii) : nat := nat_of_ascii c.

(** [StrWhiteSpaceChar] restricted to ASCII: TAB, LF, VT, FF, CR, SP. *)
Definition is_space (c : ascii) : bool :=
  let n := code c in ((9 <=? n) && (n <=? 13)) || (n =? 32).

Definition is_digit (c : ascii) : bool :=
  let n := code c in (48 <=? n) && (n <=? 57).

Definition digit_val (c : ascii) : Z := Z.of_nat (code c - 48).

(** Value of a digit in a radix up to 16, when [c] is one. *)
Definition radix_digit (radix : Z) (c : ascii) : option Z :=
  let n := code c in
  let v :=
    if (48 <=? n) && (n <=? 57) then Some (Z.of_nat (n - 48))
    else if (97 <=? n) && (n <=? 102) then Some (Z.of_nat (n - 87))
    else if (65 <=? n) && (n <=? 70) then Some (Z.of_nat (n - 55))
    else None in
  match v with
  | Some d => if (d <? radix)%Z then Some d else None
  | None => None
  end.

Fixpoint trim_start (s : string) : string :=
  match s with
  | String c s' => if is_space c then trim_start s' else s
  | EmptyString => s
  end.

Fixpoint rev_string (s acc : string) : string :=
  match s with
  | String c s' => rev_string s' (String c acc)
  | EmptyString => acc
  end.

Definition trim_end (s : string) : string :=
  rev_string (trim_start (rev_string s "")) "".

Definition trim (s : string) : string := trim_end (trim_start s).

(** [String.prototype.toLowerCase] on ASCII letters; other code units are
    kept.  No character outside ASCII lower-cases to one of the letters
    the column heuristics look for. *)
Definition lower_char (c : ascii) : ascii :=
  let n := code c in
  if (65 <=? n) && (n <=? 90) then ascii_of_nat (n + 32) else c.

Fixpoint toLowerCase (s : string) : string :=
  match s with
  | String c s' => String (lower_char c) (toLowerCase s')
  | EmptyString => EmptyString
  end.

(** [String.prototype.includes]. *)
Fixpoint includes (s sub : string) : bool :=
  prefix sub s ||
  match s with
  | String _ s' => includes s' sub
  | EmptyString => false
  end.

(** *** Numbers *)

Definition number := float.

Definition float_of_Z (z : Z) : float :=
  SF2Prim (binary_normalize prec emax z 0 false).

Definition float_of_nat (n : nat) : float := float_of_Z (Z.of_nat n).

(** The binary64 value nearest to [(-1)^neg * m * 10^e] (ties to even),
    for [0 <= m]. *)
Definition float_of_decimal (neg : bool) (m e : Z) : float :=
  match m with
  | Z0 => if neg then neg_zero else PrimFloat.zero
  | Zpos p =>
      if (0 <=? e)%Z
      then SF2Prim (binary_normalize prec emax
                      (cond_Zopp neg (m * 10 ^ e)) 0 false)
      else SF2Prim (SFdiv prec emax (S754_finite neg p 0)
                      (S754_finite false (Z.to_pos (10 ^ (- e))) 0))
  | Zneg _ => nan
  end.

Fixpoint digits_value (radix : Z) (ds : list Z) (acc : Z) : Z :=
  match ds with
  | [] => acc
  | d :: ds' => digits_value radix ds' (acc * radix + d)
  end.

(** Number of decimal digits of a positive integer ([fuel] bounds it). *)
Fixpoint count_digits (fuel : nat) (z : Z) : Z :=
  match fuel with
  | O => 0
  | S f => if (z <? 10)%Z then 1 else (1 + count_digits f (z / 10))%Z
  end.

Definition decimal_length (z : Z) : Z :=
  count_digits (S (Z.to_nat (Z.log2 z))) z.

(** The value of a decimal literal with mantissa digits [ds] (integer and
    fraction part together) scaled by [10^e].  Literals far outside the
    binary64 range are rounded without building the power of ten. *)
Definition decimal_literal_value (neg : bool) (ds : list Z) (e : Z) : float :=
  let m := digits_value 10 ds 0 in
  if (m =? 0)%Z then (if neg then neg_zero else PrimFloat.zero)
  else
    let magnitude := (decimal_length m + e)%Z in
    if (400 <? magnitude)%Z then (if neg then neg_infinity else infinity)
    else if (magnitude <? -400)%Z then (if neg then neg_zero else PrimFloat.zero)
    else float_of_decimal neg m e.

Fixpoint take_digits (s : string) : list Z * string :=
  match s with
  | String c s' =>
      if is_digit c
      then let (ds, r) := take_digits s' in (digit_val c :: ds, r)
      else ([], s)
  | EmptyString => ([], s)
  end.

Fixpoint take_radix_digits (radix : Z) (s : string) : list Z * string :=
  match s with
  | String c s' =>
      match radix_digit radix c with
      | Some d => let (ds, r) := take_radix_digits radix s' in (d :: ds, r)
      | None => ([], s)
      end
  | EmptyString => ([], s)
  end.

Definition take_sign (s : string) : bool * string :=
  match s with
  | String "-" s' => (true, s')
  | String "+" s' => (false, s')
  | _ => (false, s)
  end.

Definition strip_prefix (p s : string) : option string :=
  if prefix p s
  then Some (substring (String.length p) (String.length s - String.length p) s)
  else None.

(** [ExponentPart]: [e] or [E], an optional sign, at least one digit.
    Returns the exponent and the rest, or [(0, s)] when there is none. *)
Definition take_exponent (s : string) : Z * string :=
  match s with
  | String c s' =>
      if (code c =? 101) || (code c =? 69) then
        let (neg, s'') := take_sign s' in
        match take_digits s'' with
        | ([], _) => (0%Z, s)
        | (ds, r) => (cond_Zopp neg (digits_value 10 ds 0), r)
        end
      else (0%Z, s)
  | EmptyString => (0%Z, s)
  end.

(** The longest prefix of [s] that is a [StrDecimalLiteral], with its
    value, and the rest of [s]; [None] when no prefix is one. *)
Definition scan_decimal (s : string) : option (float * string) :=
  let (neg, s1) := take_sign s in
  match strip_prefix "Infinity" s1 with
  | Some r => Some (if neg then neg_infinity else infinity, r)
  | None =>
      let (ip, s2) := take_digits s1 in
      let '(fp, s3, ok) :=
        match s2 with
        | String "." s2' =>
            let (fp, s3) := take_digits s2' in
            match ip, fp with
            | [], [] => ([], s2, false)
            | _, _ => (fp, s3, true)
            end
        | _ => ([], s2, match ip with [] => false | _ => true end)
        end in
      if ok then
        let (ex, s4) := take_exponent s3 in
        Some (decimal_literal_value neg (ip ++ fp) (ex - Z.of_nat (len fp)), s4)
      else None
  end.

(** [NonDecimalIntegerLiteral]: [0x], [0o], [0b] and digits, no sign. *)
Definition scan_nondecimal (s : string) : option (float * string) :=
  match s with
  | String "0" (String c s') =>
      let n := code c in
      let radix :=
        if (n =? 120) || (n =? 88) then Some 16%Z
        else if (n =? 111) || (n =? 79) then Some 8%Z
        else if (n =? 98) || (n =? 66) then Some 2%Z
        else None in
      match radix with
      | Some r =>
          match take_radix_digits r s' with
          | ([], _) => None
          | (ds, rest) => Some (float_of_Z (digits_value r ds 0), rest)
          end
      | None => None
      end
  | _ => None
  end.

(** [StringToNumber]. *)
Definition StringToNumber (s : string) : float :=
  let t := trim s in
  match t with
  | EmptyString => PrimFloat.zero
  | _ =>
      match scan_nondecimal t with
      | Some (v, EmptyString) => v
      | _ =>
          match scan_decimal t with
          | Some (v, EmptyString) => v
          | _ => nan
          end
      end
  end.

(** The global [parseFloat] applied to a string. *)
Definition parseFloat_string (s : string) : float :=
  match scan_decimal (trim_start s) with
  | Some (v, _) => v
  | None => nan
  end.

(** *** [Number::toString] (radix 10) *)

(** A positive finite float as the fraction [num / den]. *)
Definition float_fraction (x : float) : Z * Z :=
  match Prim2SF x with
  | S754_finite _ m e =>
      if (0 <=? e)%Z then (Zpos m * 2 ^ e, 1)%Z else (Zpos m, 2 ^ (- e))%Z
  | _ => (0, 1)%Z
  end.

Fixpoint leading_zeros (fuel : nat) (num den j : Z) : Z :=
  match fuel with
  | O => j
  | S f =>
      if (den <=? num * 10)%Z then j
      else leading_zeros f (num * 10)%Z den (j + 1)%Z
  end.

(** The [n] with [10^(n-1) <= num/den < 10^n]. *)
Definition decimal_point (num den : Z) : Z :=
  if (den <=? num)%Z then decimal_length (num / den)
  else (- leading_zeros 400 num den 0)%Z.

(** A candidate digit string [s] of [k] digits placed at [n], that is the
    value [s * 10^(n-k)], kept when it reads back as [x]. *)
Definition candidate (x : float) (k n s : Z) : list (Z * Z) :=
  if ((10 ^ (k - 1) <=? s) && (s <? 10 ^ k))%Z
     && PrimFloat.eqb (float_of_decimal false s (n - k)) x
  then [(s, n)] else [].

Definition candidates_at (x : float) (num den k n : Z) : list (Z * Z) :=
  let (tn, td) :=
    if (0 <=? k - n)%Z then (num * 10 ^ (k - n), den)%Z
    else (num, den * 10 ^ (n - k))%Z in
  let lo := (tn / td)%Z in
  candidate x k n lo ++ candidate x k n (lo + 1)%Z.

(** [|s * 10^(n-k) - num/den|] as a fraction over a common denominator. *)
Definition distance (num den k : Z) (c : Z * Z) : Z * Z :=
  let (s, n) := c in
  let (vn, vd) :=
    if (0 <=? n - k)%Z then (s * 10 ^ (n - k), 1)%Z
    else (s, 10 ^ (k - n))%Z in
  (Z.abs (vn * den - num * vd), vd * den)%Z.

Definition closer (num den k : Z) (a b : Z * Z) : Z * Z :=
  let (an, ad) := distance num den k a in
  let (bn, bd) := distance num den k b in
  match (an * bd ?= bn * ad)%Z with
  | Lt => a
  | Gt => b
  | Eq => if Z.even (fst a) then a else b
  end.

Definition closest (num den k : Z) (cs : list (Z * Z)) : option (Z * Z) :=
  match cs with
  | [] => None
  | c :: cs' => Some (fold_left (closer num den k) cs' c)
  end.

(** The shortest digit string that reads back as [x]: the least [k], and
    among the strings of that length the one closest to [x]. *)
Fixpoint shortest_digits (fuel : nat) (x : float) (num den n k : Z)
  : Z * Z * Z :=
  match fuel with
  | O => (n, k, 0%Z)
  | S f =>
      match closest num den k
              (candidates_at x num den k n ++
               candidates_at x num den k (n + 1)%Z) with
      | Some (s, n') => (n', k, s)
      | None => shortest_digits f x num den n (k + 1)%Z
      end
  end.

Definition digit_char (d : Z) : ascii := ascii_of_nat (48 + Z.to_nat d).

Fixpoint digits_string (fuel : nat) (z : Z) (acc : string) : string :=
  match fuel with
  | O => acc
  | S f =>
      let acc' := String (digit_char (z mod 10)) acc in
      if (z <? 10)%Z then acc' else digits_string f (z / 10)%Z acc'
  end.

(** Decimal digits of a non-negative integer. *)
Definition Z_to_string (z : Z) : string :=
  digits_string (S (Z.to_nat (Z.log2 z))) z "".

Fixpoint zeros (n : nat) : string :=
  match n with
  | O => ""
  | S n' => String "0" (zeros n')
  end.

Definition format_digits (n k s : Z) : string :=
  let ds := Z_to_string s in
  if ((-5 <=? n) && (n <=? 21))%Z then
    if (k <=? n)%Z then (ds ++ zeros (Z.to_nat (n - k)))%string
    else if (0 <? n)%Z then
      (substring 0 (Z.to_nat n) ds ++ "." ++
       substring (Z.to_nat n) (Z.to_nat (k - n)) ds)%string
    else ("0." ++ zeros (Z.to_nat (- n)) ++ ds)%string
  else
    let e := (n - 1)%Z in
    let sign := if (0 <=? e)%Z then "+" else "-" in
    let ex := Z_to_string (Z.abs e) in
    if (k =? 1)%Z then (ds ++ "e" ++ sign ++ ex)%string
    else (substring 0 1 ds ++ "." ++ substring 1 (Z.to_nat (k - 1)) ds
          ++ "e" ++ sign ++ ex)%string.

Definition positive_to_string (x : float) : string :=
  if is_infinity x then "Infinity"
  else
    let (num, den) := float_fraction x in
    let '(n, k, s) := shortest_digits 17 x num den (decimal_point num den) 1 in
    format_digits n k s.

Definition NumberToString (x : float) : string :=
  if is_nan x then "NaN"
  else if is_zero x then "0"
  else if PrimFloat.ltb x PrimFloat.zero
       then ("-" ++ positive_to_string (PrimFloat.opp x))%string
       else positive_to_string x.

(** *** Primitive values

    The primitive values a parsed CSV cell can hold: [PapaParse] with
    [dynamicTyping] yields numbers, booleans, strings and [null], and
    reading an absent property gives [undefined].  The [Date] objects
    the parser builds for ISO date-time cells and the array it stores
    for surplus fields are not modelled. *)
Inductive value : Type :=
| VUndefined
| VNull
| VBool (b : bool)
| VNum (x : float)
| VStr (s : string).

Definition ToNumber (v : value) : float :=
  match v with
  | VUndefined => nan
  | VNull => PrimFloat.zero
  | VBool b => if b then PrimFloat.one else PrimFloat.zero
  | VNum x => x
  | VStr s => StringToNumber s
  end.

Definition ToString (v : value) : string :=
  match v with
  | VUndefined => "undefined"
  | VNull => "null"
  | VBool b => if b then "true" else "false"
  | VNum x => NumberToString x
  | VStr s => s
  end.

(** Truthiness of a number: neither [NaN] nor a zero. *)
Definition truthy_number (x : float) : bool := negb (is_nan x || is_zero x).

Definition truthy_string (s : string) : bool := negb (s =? "")%string.

Definition ToBoolean (v : value) : bool :=
  match v with
  | VUndefined | VNull => false
  | VBool b => b
  | VNum x => truthy_number x
  | VStr s => truthy_string s
  end.

(** [typeof v === "number"]. *)
Definition typeof_number (v : value) : bool :=
  match v with VNum _ => true | _ => false end.

(** [v != null]. *)
Definition not_nullish (v : value) : bool :=
  match v with VUndefined | VNull => false | _ => true end.

(** The globals [isNaN], [isFinite] (which coerce) and [parseFloat]. *)
Definition isNaN (v : value) : bool := is_nan (ToNumber v).
Definition isFinite (v : value) : bool := is_finite (ToNumber v).
Definition parseFloat (v : value) : float := parseFloat_string (ToString v).

(** [Number.isFinite] on a number (it does not coerce). *)
Definition Number_isFinite (x : float) : bool := is_finite x.

(** [a + b]: concatenation as soon as one side is a string. *)
Definition plus (a b : value) : value :=
  match a, b with
  | VStr _, _ | _, VStr _ => VStr (ToString a ++ ToString b)
  | _, _ => VNum (ToNumber a + ToNumber b)
  end.

(** [a / b]. *)
Definition divide (a b : value) : float := (ToNumber a / ToNumber b)%float.

Definition is_pos_zero (x : float) : bool := is_zero x && negb (get_sign x).
Definition is_neg_zero (x : float) : bool := is_zero x && get_sign x.

(** One step of [Math.max] and of [Math.min]: [NaN] is absorbing and
    [+0] counts as larger than [-0]. *)
Definition max_step (highest x : float) : float :=
  if is_nan highest || is_nan x then nan
  else if is_pos_zero x && is_neg_zero highest then x
  else if (highest <? x)%float then x else highest.

Definition min_step (lowest x : float) : float :=
  if is_nan lowest || is_nan x then nan
  else if is_neg_zero x && is_pos_zero lowest then x
  else if (x <? lowest)%float then x else lowest.

Definition Math_max (vs : list value) : float :=
  fold_left max_step (map ToNumber vs) neg_infinity.

Definition Math_min (vs : list value) : float :=
  fold_left min_step (map ToNumber vs) infinity.

(** *** Ordinary objects

    An object is the list of its own enumerable string-keyed properties
    in the order [Object.keys] and [Object.entries] report them: the
    array indices in ascending numeric order, then the other keys in
    order of creation. *)
Definition object (V : Type) : Type := list (string * V).

Fixpoint all_digits (s : string) : bool :=
  match s with
  | String c s' => is_digit c && all_digits s'
  | EmptyString => true
  end.

Fixpoint string_digits (s : string) : list Z :=
  match s with
  | String c s' => digit_val c :: string_digits s'
  | EmptyString => []
  end.

(** The array index a property key denotes, if any: a canonical numeric
    string below [2^32 - 1]. *)
Definition array_index (k : string) : option Z :=
  match k with
  | EmptyString => None
  | String c rest =>
      if all_digits k && (negb (code c =? 48) || (rest =? "")%string) then
        let v := digits_value 10 (string_digits k) 0 in
        if (v <? 2 ^ 32 - 1)%Z then Some v else None
      else None
  end.

Section Objects.
Context {V : Type}.

Fixpoint get_own (o : object V) (k : string) : option V :=
  match o with
  | [] => None
  | (k', v) :: o' => if (k' =? k)%string then Some v else get_own o' k
  end.

Fixpoint update (o : object V) (k : string) (v : V) : object V :=
  match o with
  | [] => []
  | (k', v') :: o' =>
      if (k' =? k)%string then (k', v) :: o' else (k', v') :: update o' k v
  end.

(** Place a new array-index key after the smaller indices. *)
Fixpoint insert_index (o : object V) (i : Z) (k : string) (v : V)
  : object V :=
  match o with
  | [] => [(k, v)]
  | (k', v') :: o' =>
      match array_index k' with
      | Some j =>
          if (j <? i)%Z then (k', v') :: insert_index o' i k v
          else (k, v) :: o
      | None => (k, v) :: o
      end
  end.

(** [o[k] = v] on an object whose property [k], if any, is its own. *)
Definition set_property (o : object V) (k : string) (v : V) : object V :=
  match get_own o k with
  | Some _ => update o k v
  | None =>
      match array_index k with
      | Some i => insert_index o i k v
      | None => o ++ [(k, v)]
      end
  end.

Definition keys (o : object V) : list string := map fst o.
Definition entries (o : object V) : list (string * V) := o.

(** The key order of an object: indices ascending, then the rest. *)
Fixpoint ordered_from (lower : Z) (ks : list string) : Prop :=
  match ks with
  | [] => True
  | k :: ks' =>
      match array_index k with
      | Some i => (lower <= i)%Z /\ ordered_from i ks'
      | None => Forall (fun k' => array_index k' = None) ks'
      end
  end.

Definition wf_object (o : object V) : Prop :=
  NoDup (keys o) /\ ordered_from 0 (keys o).
End Objects.

(** Names every object literal inherits from [Object.prototype]. *)
Definition prototype_names : list string :=
  [ "constructor"; "__defineGetter__"; "__defineSetter__"; "hasOwnProperty";
    "__lookupGetter__"; "__lookupSetter__"; "isPrototypeOf";
    "propertyIsEnumerable"; "toString"; "valueOf"; "__proto__";
    "toLocaleString" ].

Definition inherited (k : string) : bool :=
  existsb (String.eqb k) prototype_names.

(** [Array.prototype.join]. *)
Fixpoint join (sep : string) (l : list string) : string :=
  match l with
  | [] => ""
  | [s] => s
  | s :: l' => (s ++ sep ++ join sep l')%string
  end.

End JS.

(** ** The sampler *)
Module Sampler.
Section Sampler.
Context {A : Type}.

(** [for (let i = 0; i < data.length; i += step) sampledData.push(data[i])],
    one iteration per unit of [fuel]; [None] when the fuel runs out. *)
Fixpoint sample_loop (fuel : nat) (data : list A) (step i : nat)
         (sampledData : list A) : option (list A) :=
  match fuel with
  | O => None
  | S fuel' =>
      if i <? len data then
        match nth_error data i with
        | Some x => sample_loop fuel' data step (i + step) (sampledData ++ [x])
        | None => None
        end
      else Some sampledData
  end.

(** [sampleData(data, maxPoints)], for a bound that is a natural number
    (every call uses the default, 2000).  With [maxPoints = 0] the step
    is [Infinity]: the loop body runs once, then [slice(0, 0)]. *)
Definition sampleData (data : list A) (maxPoints : nat) : option (list A) :=
  if len data <=? maxPoints then Some data
  else
    match maxPoints with
    | O => Some (firstn maxPoints (firstn 1 data))
    | S _ =>
        let step := len data / maxPoints in
        match sample_loop (S (len data)) data step 0 [] with
        | Some sampledData => Some (firstn maxPoints sampledData)
        | None => None
        end
    end.
End Sampler.

(** The default of the [maxPoints] parameter. *)
Definition MAX_POINTS : nat := 2000.

End Sampler.

(** ** Schema analysis *)
Module Schema.
Import JS.

(** A parsed CSV row. *)
Definition record : Type := object value.

(** [d[key]] on a row.  Rows are read at column names; the members a row
    inherits from [Object.prototype] are not part of the model. *)
Definition prop (d : record) (key : string) : value :=
  match get_own d key with
  | Some v => v
  | None => VUndefined
  end.

(** [typeof value === "number" ||
     (!isNaN(Number.parseFloat(value)) && isFinite(value))]. *)
Definition is_numeric (v : value) : bool :=
  typeof_number v || (negb (is_nan (parseFloat v)) && isFinite v).

(** The numeric keys of a row, as [loadData] and [numericColumns] filter
    them. *)
Definition numeric_keys (d : record) : list string :=
  filter (fun key => is_numeric (prop d key)) (keys d).

Definition numericColumns (csvData : list record) : list string :=
  match csvData with
  | [] => []
  | d0 :: _ => numeric_keys d0
  end.

(** [geoColumns]: each side is a column name or [null]. *)
Record GeoColumns : Type := { lat : option string; lon : option string }.

Definition is_lat_name (col : string) : bool :=
  includes (toLowerCase col) "lat" || includes (toLowerCase col) "latitude"
  || (toLowerCase col =? "y")%string.

Definition is_lon_name (col : string) : bool :=
  includes (toLowerCase col) "lon" || includes (toLowerCase col) "lng"
  || includes (toLowerCase col) "longitude"
  || (toLowerCase col =? "x")%string.

(** [col || null] on the result of [Array.prototype.find]. *)
Definition or_null (col : option string) : option string :=
  match col with
  | Some c => if truthy_string c then Some c else None
  | None => None
  end.

Definition geoColumns (csvData : list record) : GeoColumns :=
  match csvData with
  | [] => {| lat := None; lon := None |}
  | d0 :: _ =>
      let columns := keys d0 in
      {| lat := or_null (find is_lat_name columns);
         lon := or_null (find is_lon_name columns) |}
  end.

(** Truthiness of one side of [geoColumns]. *)
Definition resolved (col : option string) : bool :=
  match col with
  | Some c => truthy_string c
  | None => false
  end.

(** The guard [geoColumns.lat && geoColumns.lon] of every consumer. *)
Definition geo_available (g : GeoColumns) : bool :=
  resolved (lat g) && resolved (lon g).

End Schema.

(** ** Chart-descriptor synthesis *)
Module Synth.
Import JS Schema.

Fixpoint map_index {A B : Type} (f : A -> nat -> B) (l : list A) (index : nat)
  : list B :=
  match l with
  | [] => []
  | a :: l' => f a index :: map_index f l' (S index)
  end.

(** [csvData.map((row, index) => ({ ...row, index: index + 1 }))]. *)
Definition with_index (row : record) (index : nat) : record :=
  set_property row "index" (VNum (float_of_nat (index + 1))).

Definition chartData (csvData : list record) : list record :=
  map_index with_index csvData 0.

(** [xyValid]: the pairs [[d[xAxis], Number(d[yAxis])]] with a finite
    second component. *)
Definition xyValid (chartData : list record) (xAxis yAxis : string)
  : list (value * float) :=
  filter (fun p => Number_isFinite (snd p))
         (map (fun d => (prop d xAxis, ToNumber (prop d yAxis))) chartData).

(** [Number(d[yAxis]) || 0]. *)
Definition or_zero (x : float) : float :=
  if truthy_number x then x else PrimFloat.zero.

(** The reducer of the pie aggregation.  The accumulator is an object
    literal; a label that names a member of [Object.prototype] reads
    that member instead of a running total, which is outside the model
    ([None]). *)
Definition pie_reducer (xAxis yAxis : string)
           (acc : option (object float)) (d : record)
  : option (object float) :=
  match acc with
  | None => None
  | Some acc =>
      let label := ToString (prop d xAxis) in
      let value := or_zero (ToNumber (prop d yAxis)) in
      if inherited label then None
      else
        match get_own acc label with
        | Some total =>
            if truthy_number total
            then Some (set_property acc label (total + value)%float)
            else Some (set_property acc label value)
        | None => Some (set_property acc label value)
        end
  end.

Definition pieData (chartData : list record) (xAxis yAxis : string)
  : option (object float) :=
  fold_left (pie_reducer xAxis yAxis) chartData (Some []).

(** [Object.entries(pieData).slice(0, 8)]. *)
Definition pieEntries (chartData : list record) (xAxis yAxis : string)
  : option (list (string * float)) :=
  option_map (fun o => firstn 8 (entries o)) (pieData chartData xAxis yAxis).

(** The filter of the geograph case. *)
Definition geo_valid (latCol lonCol : string) (d : record) : bool :=
  not_nullish (prop d latCol) && not_nullish (prop d lonCol)
  && negb (isNaN (prop d latCol)) && negb (isNaN (prop d lonCol)).

Definition validGeoData (chartData : list record) (latCol lonCol : string)
  : list record :=
  filter (geo_valid latCol lonCol) chartData.

(** [values.reduce((a, b) => a + b, 0) / values.length]. *)
Definition center (values : list value) : float :=
  divide (fold_left plus values (VNum PrimFloat.zero))
         (VNum (float_of_nat (len values))).

(** [Math.max(...values) - Math.min(...values)]. *)
Definition range (values : list value) : float :=
  (Math_max values - Math_min values)%float.

Definition zoom_of (maxRange : float) : Z :=
  if (maxRange <? 1)%float then 8
  else if (maxRange <? 5)%float then 6
  else if (maxRange <? 20)%float then 4
  else if (maxRange <? 50)%float then 3
  else 2.

(** The hover text of a map point. *)
Definition geo_text (latCol lonCol : string) (d : record) : string :=
  let info :=
    join "<br>"
      (map (fun key => (key ++ ": " ++ ToString (prop d key))%string)
         (filter (fun key => negb (key =? latCol)%string
                             && negb (key =? lonCol)%string) (keys d))) in
  ("Lat: " ++ ToString (prop d latCol) ++ "<br>Lon: "
   ++ ToString (prop d lonCol) ++ "<br>" ++ info)%string.

(** The data handed to the rendering engine, without the styling that is
    copied from the configuration. *)
Inductive Trace : Type :=
| Cartesian (type mode fill : string) (x : list value) (y : list float)
| PieTrace (values : list float) (labels : list string)
| ScatterPolar (r : list value) (theta : list string)
| ScatterMapbox (lats lons : list value) (text : list string).

Record Mapbox : Type :=
  { center_lat : float; center_lon : float; zoom : Z }.

Record Layout : Type :=
  { xaxis : option string;   (* the axis title, when the axis is present *)
    yaxis : option string;
    polar : bool;
    mapbox : option Mapbox }.

Record Descriptor : Type := { data : list Trace; layout : Layout }.

Definition cartesian_layout (plotType xAxis yAxis : string) : Layout :=
  if negb (plotType =? "pie")%string && negb (plotType =? "geograph")%string
  then {| xaxis := Some xAxis; yaxis := Some yAxis;
          polar := false; mapbox := None |}
  else {| xaxis := None; yaxis := None; polar := false; mapbox := None |}.

Definition geo_mapbox (valid : list record) (latCol lonCol : string)
  : Mapbox :=
  let lats := map (fun d => prop d latCol) valid in
  let lons := map (fun d => prop d lonCol) valid in
  let latRange := range lats in
  let lonRange := range lons in
  let maxRange := Math_max [VNum latRange; VNum lonRange] in
  {| center_lat := center lats; center_lon := center lons;
     zoom := zoom_of maxRange |}.

(** [renderPlotlyChart]: the [data] and [layout] passed to
    [Plotly.newPlot]. *)
Definition renderPlotlyChart (plotType : string) (chartData : list record)
           (xAxis yAxis : string) (geo : GeoColumns) : option Descriptor :=
  let layout := cartesian_layout plotType xAxis yAxis in
  let xy := xyValid chartData xAxis yAxis in
  let series type mode fill :=
    Some {| data := [Cartesian type mode fill (map fst xy) (map snd xy)];
            layout := layout |} in
  if (plotType =? "line")%string then series "scatter" "lines+markers" ""
  else if (plotType =? "bar")%string then series "bar" "" ""
  else if (plotType =? "area")%string then series "scatter" "lines" "tozeroy"
  else if (plotType =? "scatter")%string then series "scatter" "markers" ""
  else if (plotType =? "pie")%string then
    match pieEntries chartData xAxis yAxis with
    | Some es =>
        Some {| data := [PieTrace (map snd es) (map fst es)];
                layout := layout |}
    | None => None
    end
  else if (plotType =? "radar")%string then
    let radarData := firstn 6 chartData in
    Some {| data := [ScatterPolar (map (fun d => prop d yAxis) radarData)
                       (map (fun d => ToString (prop d xAxis)) radarData)];
            layout := {| xaxis := xaxis layout; yaxis := yaxis layout;
                         polar := true; mapbox := None |} |}
  else if (plotType =? "geograph")%string then
    match lat geo, lon geo with
    | Some latCol, Some lonCol =>
        if geo_available geo then
          let valid := validGeoData chartData latCol lonCol in
          Some {| data := [ScatterMapbox
                             (map (fun d => prop d latCol) valid)
                             (map (fun d => prop d lonCol) valid)
                             (map (geo_text latCol lonCol) valid)];
                  layout := {| xaxis := None; yaxis := None; polar := false;
                               mapbox := Some (geo_mapbox valid latCol lonCol) |} |}
        else Some {| data := []; layout := layout |}
    | _, _ => Some {| data := []; layout := layout |}
    end
  else Some {| data := []; layout := layout |}.

End Synth.

(** ** The view-state machine *)
Module View.
Import JS Schema Synth.

(** What a rejected promise carries: an [Error] with its message, or any
    other value. *)
Inductive Thrown : Type :=
| ErrorObject (message : string)
| OtherValue.

(** The outcome of one fetch of the CSV file, as the transport and the
    CSV parser (both external) report it. *)
Inductive Outcome : Type :=
| FetchRejected (e : Thrown)            (* [fetch] rejects *)
| NotOk (status : nat)                  (* [response.ok] is false *)
| TextRejected (e : Thrown)             (* [response.text()] rejects *)
| ParseComplete (rows : list record) (errors : list string)
                                         (* the [complete] callback *)
| ParseError (e : Thrown).              (* the [error] callback *)

(** The promise [fetchCSVData] returns: rejected ([inl]) or resolved
    with [results.data] ([inr]).  Entries of [results.errors] are logged
    as warnings only. *)
Definition fetchCSVData (o : Outcome) : Thrown + list record :=
  match o with
  | FetchRejected e => inl e
  | NotOk status =>
      inl (ErrorObject ("HTTP error! status: "
                        ++ NumberToString (float_of_nat status)))
  | TextRejected e => inl e
  | ParseComplete rows _ => inr rows
  | ParseError e => inl e
  end.

(** [err instanceof Error ? err.message : fallback]. *)
Definition message_of (err : Thrown) (fallback : string) : string :=
  match err with
  | ErrorObject message => message
  | OtherValue => fallback
  end.

Record State : Type :=
  { plotType : string;
    csvData : list record;
    loading : bool;
    error : option string;
    xAxis : string;
    yAxis : string;
    isFullscreen : bool;
    showSettings : bool;
    isZoomedIn : bool }.

(** The state of the first render, for the [initialPlotType] prop. *)
Definition initial (initialPlotType : string) : State :=
  {| plotType := initialPlotType; csvData := []; loading := true;
     error := None; xAxis := ""; yAxis := "";
     isFullscreen := false; showSettings := false; isZoomedIn := false |}.

Definition setPlotType (s : State) (v : string) : State :=
  {| plotType := v; csvData := csvData s; loading := loading s;
     error := error s; xAxis := xAxis s; yAxis := yAxis s;
     isFullscreen := isFullscreen s; showSettings := showSettings s;
     isZoomedIn := isZoomedIn s |}.

Definition setCsvData (s : State) (v : list record) : State :=
  {| plotType := plotType s; csvData := v; loading := loading s;
     error := error s; xAxis := xAxis s; yAxis := yAxis s;
     isFullscreen := isFullscreen s; showSettings := showSettings s;
     isZoomedIn := isZoomedIn s |}.

Definition setLoading (s : State) (v : bool) : State :=
  {| plotType := plotType s; csvData := csvData s; loading := v;
     error := error s; xAxis := xAxis s; yAxis := yAxis s;
     isFullscreen := isFullscreen s; showSettings := showSettings s;
     isZoomedIn := isZoomedIn s |}.

Definition setError (s : State) (v : option string) : State :=
  {| plotType := plotType s; csvData := csvData s; loading := loading s;
     error := v; xAxis := xAxis s; yAxis := yAxis s;
     isFullscreen := isFullscreen s; showSettings := showSettings s;
     isZoomedIn := isZoomedIn s |}.

Definition setXAxis (s : State) (v : string) : State :=
  {| plotType := plotType s; csvData := csvData s; loading := loading s;
     error := error s; xAxis := v; yAxis := yAxis s;
     isFullscreen := isFullscreen s; showSettings := showSettings s;
     isZoomedIn := isZoomedIn s |}.

Definition setYAxis (s : State) (v : string) : State :=
  {| plotType := plotType s; csvData := csvData s; loading := loading s;
     error := error s; xAxis := xAxis s; yAxis := v;
     isFullscreen := isFullscreen s; showSettings := showSettings s;
     isZoomedIn := isZoomedIn s |}.

Definition setIsFullscreen (s : State) (v : bool) : State :=
  {| plotType := plotType s; csvData := csvData s; loading := loading s;
     error := error s; xAxis := xAxis s; yAxis := yAxis s;
     isFullscreen := v; showSettings := showSettings s;
     isZoomedIn := isZoomedIn s |}.

Definition setShowSettings (s : State) (v : bool) : State :=
  {| plotType := plotType s; csvData := csvData s; loading := loading s;
     error := error s; xAxis := xAxis s; yAxis := yAxis s;
     isFullscreen := isFullscreen s; showSettings := v;
     isZoomedIn := isZoomedIn s |}.

Definition setIsZoomedIn (s : State) (v : bool) : State :=
  {| plotType := plotType s; csvData := csvData s; loading := loading s;
     error := error s; xAxis := xAxis s; yAxis := yAxis s;
     isFullscreen := isFullscreen s; showSettings := showSettings s;
     isZoomedIn := v |}.

(** The synchronous prefix of [fetchCSVData]. *)
Definition fetch_start (s : State) : State :=
  setError (setLoading s true) None.

(** The default axis selection of [loadData].  The axes it tests are
    those of the render that started the load ([render]); the setters
    act on the current state [s]. *)
Definition seed_axes (render s : State) (sampledData : list record) : State :=
  match sampledData with
  | [] => s
  | d0 :: _ =>
      let numericCols := numeric_keys d0 in
      let s1 :=
        if (0 <? len numericCols) && negb (truthy_string (xAxis render))
        then setXAxis s (nth 0 numericCols "") else s in
      if (1 <? len numericCols) && negb (truthy_string (yAxis render))
      then setYAxis s1 (nth 1 numericCols "")
      else if (len numericCols =? 1) && negb (truthy_string (yAxis render))
           then setYAxis s1 (nth 0 numericCols "")
           else s1
  end.

(** [loadData], run once when the component mounts, for a fetch that
    ends with outcome [o]. *)
Definition loadData (s : State) (o : Outcome) : State :=
  let s0 := fetch_start s in
  let s1 :=
    match fetchCSVData o with
    | inr rows =>
        match Sampler.sampleData rows Sampler.MAX_POINTS with
        | Some sampledData =>
            seed_axes s (setCsvData s0 sampledData) sampledData
        | None => s0
        end
    | inl err => setError s0 (Some (message_of err "Failed to load CSV data"))
    end in
  setLoading s1 false.

(** [handleRefresh], for a fetch that ends with outcome [o]. *)
Definition handleRefresh (s : State) (o : Outcome) : State :=
  let s0 := fetch_start (setLoading s true) in
  let s1 :=
    match fetchCSVData o with
    | inr rows =>
        match Sampler.sampleData rows Sampler.MAX_POINTS with
        | Some sampledData => setError (setCsvData s0 sampledData) None
        | None => s0
        end
    | inl err => setError s0 (Some (message_of err "Failed to refresh data"))
    end in
  setLoading s1 false.

(** Which of the five screens the component returns. *)
Inductive Phase : Type :=
| Loading
| Error (message : string)
| Empty
| NoNumericData
| Ready.

(** [if (error)]: the message, when there is a non-empty one. *)
Definition error_shown (s : State) : option string :=
  match error s with
  | Some message => if truthy_string message then Some message else None
  | None => None
  end.

Definition phase (s : State) : Phase :=
  if loading s then Loading
  else
    match error_shown s with
    | Some message => Error message
    | None =>
        if len (csvData s) =? 0 then Empty
        else if (len (numericColumns (csvData s)) =? 0)
                && negb (plotType s =? "geograph")%string
             then NoNumericData else Ready
    end.

Definition CHART_TYPES : list string :=
  ["line"; "bar"; "area"; "scatter"; "pie"; "radar"; "geograph"].

(** Whether the screen of a phase carries the refresh (or retry) button. *)
Definition has_refresh (p : Phase) : bool :=
  match p with
  | Error _ | Empty | Ready => true
  | Loading | NoNumericData => false
  end.

Definition is_ready (s : State) : bool :=
  match phase s with Ready => true | _ => false end.

(** The options of the two axis selectors. *)
Definition x_options (s : State) : list string :=
  "index" :: numericColumns (csvData s).
Definition y_options (s : State) : list string :=
  numericColumns (csvData s).

(** The actions the rendered screen offers, and the relayout events of
    the rendering engine. *)
Inductive step : State -> State -> Prop :=
| step_refresh s o :
    has_refresh (phase s) = true -> step s (handleRefresh s o)
| step_plot_type s v :
    is_ready s = true -> In v CHART_TYPES -> step s (setPlotType s v)
| step_x_axis s v :
    is_ready s = true -> (plotType s =? "geograph")%string = false ->
    In v (x_options s) -> step s (setXAxis s v)
| step_y_axis s v :
    is_ready s = true -> (plotType s =? "geograph")%string = false ->
    In v (y_options s) -> step s (setYAxis s v)
| step_fullscreen s :
    is_ready s = true -> step s (setIsFullscreen s (negb (isFullscreen s)))
| step_settings s :
    is_ready s = true -> step s (setShowSettings s (negb (showSettings s)))
| step_relayout s (has_range : bool) :
    is_ready s = true -> step s (setIsZoomedIn s has_range)
| step_zoom_out s :
    is_ready s = true -> isZoomedIn s = true -> step s (setIsZoomedIn s false).

Inductive reachable (initialPlotType : string) : State -> Prop :=
| reach_mount o : reachable initialPlotType (loadData (initial initialPlotType) o)
| reach_step s s' :
    reachable initialPlotType s -> step s s' -> reachable initialPlotType s'.

(** The effect that redraws the chart: the descriptor handed to the
    engine, if the effect draws at all.  The chart container exists on
    the ready screen only. *)
Definition chart_effect (s : State) : option Descriptor :=
  let geo := geoColumns (csvData s) in
  let rows := chartData (csvData s) in
  if is_ready s && (0 <? len rows) then
    if (plotType s =? "geograph")%string then
      if geo_available geo
      then renderPlotlyChart (plotType s) rows (xAxis s) (yAxis s) geo
      else None
    else if truthy_string (xAxis s) && truthy_string (yAxis s)
         then renderPlotlyChart (plotType s) rows (xAxis s) (yAxis s) geo
         else None
  else None.

(** The text shown in place of the chart, if any. *)
Definition placeholder (s : State) : option string :=
  let geo := geoColumns (csvData s) in
  if (truthy_string (xAxis s) && truthy_string (yAxis s))
     || ((plotType s =? "geograph")%string && geo_available geo)
  then None
  else if (plotType s =? "geograph")%string
       then Some "Geographic data not available - need latitude and longitude columns"
       else Some "Please select both X and Y axes to display the chart".

(** The warning of the settings panel. *)
Definition settings_geo_warning (s : State) : bool :=
  showSettings s && (plotType s =? "geograph")%string
  && negb (geo_available (geoColumns (csvData s))).

(** The footer entry "Geographic data available". *)
Definition footer_geo_available (s : State) : bool :=
  (plotType s =? "geograph")%string
  && geo_available (geoColumns (csvData s)).

End View.

(** ** Stride sampling as the specification words it *)
Module SamplerSpec.
Section SamplerSpec.
Context {A : Type}.

(** How many indices [0, stride, 2 * stride, ...] lie below [n]. *)
Definition stride_count (n stride : nat) : nat := (n + stride - 1) / stride.

(** The indices [0, stride, 2 * stride, ...] below [n]. *)
Definition stride_indices (n stride : nat) : list nat :=
  map (fun k => k * stride) (seq 0 (stride_count n stride)).

(** The records of [D] at the given indices, in that order. *)
Definition at_indices (D : list A) (indices : list nat) : list A :=
  flat_map (fun i => match nth_error D i with
                     | Some x => [x]
                     | None => []
                     end) indices.

(** [out] lists the records of [D] found at [indices]. *)
Definition picks (D out : list A) (indices : list nat) : Prop :=
  Forall2 (fun x i => nth_error D i = Some x) out indices.
End SamplerSpec.
End SamplerSpec.

(** ** The view-state rules as the specification words them *)
Module ViewSpec.
Import JS Schema View.

(** The rule for a fetch that delivered rows: zero records give [Empty];
    otherwise no numeric column and a plot type other than geograph give
    [NoNumericData]; otherwise [Ready]. *)
Definition data_phase (plotType : string) (rows : list record) : Phase :=
  if len rows =? 0 then Empty
  else if (len (numericColumns rows) =? 0)
          && negb (plotType =? "geograph")%string
       then NoNumericData else Ready.

(** An axis is unset, or names a numeric column of the current dataset
    or the pseudo-column ["index"]. *)
Definition in_axis_domain (s : State) (axis : string) : Prop :=
  axis = "" \/ In axis ("index" :: numericColumns (csvData s)).

Definition axes_valid (s : State) : Prop :=
  in_axis_domain s (xAxis s) /\ in_axis_domain s (yAxis s).

(** The states reached by steps that leave the numeric columns of the
    dataset as they are. *)
Inductive reachable_stable (initialPlotType : string) : State -> Prop :=
| stable_mount o :
    reachable_stable initialPlotType (loadData (initial initialPlotType) o)
| stable_step s s' :
    reachable_stable initialPlotType s -> step s s' ->
    numericColumns (csvData s') = numericColumns (csvData s) ->
    reachable_stable initialPlotType s'.

End ViewSpec.

(** ** The pie aggregation as the specification words it *)
Module PieSpec.
Import JS Schema Synth.
Open Scope float_scope.

(** The label and the value a row contributes: the string form of its
    x value, and its y value coerced to a number, 0 when that fails. *)
Definition pie_pair (xAxis yAxis : string) (d : record) : string * float :=
  (ToString (prop d xAxis), or_zero (ToNumber (prop d yAxis))).

Definition pie_pairs (rows : list record) (xAxis yAxis : string)
  : list (string * float) :=
  map (pie_pair xAxis yAxis) rows.

(** The distinct labels, in first-encountered order. *)
Fixpoint distinct (labels : list string) : list string :=
  match labels with
  | [] => []
  | l :: rest => l :: filter (fun l' => negb (l' =? l)%string) (distinct rest)
  end.

(** The sum of the values of a label, in row order. *)
Definition group_sum (label : string) (pairs : list (string * float)) : float :=
  fold_left PrimFloat.add
            (map snd (filter (fun p => (fst p =? label)%string) pairs)) 0.

Definition pie_groups (pairs : list (string * float)) : list (string * float) :=
  map (fun l => (l, group_sum l pairs)) (distinct (map fst pairs)).

(** The first 8 groups in first-encountered order. *)
Definition first_seen_entries (rows : list record) (xAxis yAxis : string)
  : list (string * float) :=
  firstn 8 (pie_groups (pie_pairs rows xAxis yAxis)).

(** A label that is no array index. *)
Definition plain_key (k : string) : bool :=
  match array_index k with
  | None => true
  | Some _ => false
  end.

(** What the accumulator of the reducer holds once the rows
    contributing [pairs] are folded in. *)
Definition pie_invariant (pairs : list (string * float)) (acc : object float)
  : Prop :=
  wf_object acc
  /\ (forall label,
        get_own acc label
        = if existsb (String.eqb label) (map fst pairs)
          then Some (group_sum label pairs) else None)
  /\ filter plain_key (keys acc) = filter plain_key (distinct (map fst pairs))
  /\ (forall label, is_nan (group_sum label pairs) = false).

End PieSpec.

(** ** Sample inputs used to exercise the model *)
Module Samples.
Import JS Schema View.
Open Scope float_scope.

Definition sales_rows : list record :=
  [ [("month", VStr "Jan"); ("sales", VNum 100)];
    [("month", VStr "Feb"); ("sales", VNum 120)] ].

Definition abc_rows : list record :=
  [ [("a", VStr "north"); ("b", VNum 1.5); ("c", VNum 7)] ].

Definition lat_only_rows : list record := [ [("lat_only", VNum 48.5)] ].

Definition weather_rows : list record :=
  [ [("Latitude", VNum 48.5); ("Longitude", VNum 2.25); ("Temp", VNum 21)] ].

(** A row whose [y] cell is empty: the parser delivers [null]. *)
Definition gap_rows : list record :=
  [ [("x", VNum 1); ("y", VNull)]; [("x", VNum 2); ("y", VNum 5)] ].

(** A latitude written with a sign stays a string through the parser. *)
Definition signed_geo_rows : list record :=
  [ [("lat", VStr "+40.5"); ("lon", VNum (-74))];
    [("lat", VNum 41.5); ("lon", VNum (-73))] ].

Definition no_fix_rows : list record :=
  [ [("lat", VNull); ("lon", VNull); ("city", VStr "Oslo")] ].

Definition letters_rows : list record :=
  [ [("k", VStr "A"); ("v", VNum 1)]; [("k", VStr "A"); ("v", VNum 2)];
    [("k", VStr "B"); ("v", VNum 3)]; [("k", VStr "C"); ("v", VNum 4)];
    [("k", VStr "C"); ("v", VNum 5)]; [("k", VStr "C"); ("v", VNum 6)] ].

(** Nine groups whose labels are the numbers 9 down to 1. *)
Definition countdown_rows : list record :=
  map (fun x => [("k", VNum x); ("v", VNum 1)]) [9; 8; 7; 6; 5; 4; 3; 2; 1].

Definition indexed_rows : list record :=
  [ [("index", VNum 42); ("v", VNum 7)] ].

Definition ab_rows : list record :=
  [ [("a", VNum 1); ("b", VNum 2)] ].

Definition cd_rows : list record :=
  [ [("c", VNum 3); ("d", VNum 4)] ].

End Samples.

(** ** Measures of a descriptor *)
Module Measures.
Import JS Schema Synth.

(** The number of points a series hands to the rendering engine. *)
Definition trace_points (t : Trace) : nat :=
  match t with
  | Cartesian _ _ _ x _ => len x
  | PieTrace values _ => len values
  | ScatterPolar r _ => len r
  | ScatterMapbox lats _ _ => len lats
  end.

End Measures.

(** ** Further sample inputs *)
Module MoreSamples.
Import JS Schema View.
Open Scope float_scope.

Definition names_rows : list record :=
  [ [("name", VStr "Ada"); ("lat", VNull); ("lon", VNull)] ].

Definition seven_rows : list record :=
  map (fun x => [("t", VNum x); ("v", VStr "n/a")]) [1; 2; 3; 4; 5; 6; 7].

End MoreSamples.

(** ** The footer of the ready screen *)
Module Footer.
Import View.

(** [csvData.length >= 2000 ? "(sampled)" : ""]: whether the record
    count is followed by the word "(sampled)". *)
Definition footer_sampled (s : State) : bool := 2000 <=? len (csvData s).

End Footer.

(* ================================================================== *)
(** * Part II: properties *)
(* ================================================================== *)

(** Case analysis on every conditional of the goal. *)
Ltac case_ifs :=
  repeat match goal with
         | |- context [if ?b then _ else _] => destruct b
         end.

(** ** The sampler *)
Module SamplerTheory.
Import Sampler SamplerSpec.

Section Loop.
Context {A : Type}.
Implicit Types (data acc : list A) (step fuel i : nat).

Lemma stride_count_0 step : 0 < step -> stride_count 0 step = 0.
Proof.
  intros Hs. unfold stride_count. apply Nat.div_small. lia.
Qed.

Lemma stride_count_S m step :
  0 < step -> 0 < m ->
  stride_count m step = S (stride_count (m - step) step).
Proof.
  intros Hs Hm. unfold stride_count.
  destruct (le_lt_dec m step) as [Hle | Hgt].
  - replace (m - step) with 0 by lia.
    replace (m + step - 1) with ((m - 1) + 1 * step) by lia.
    rewrite Nat.div_add by lia.
    rewrite (Nat.div_small (m - 1)) by lia.
    rewrite (Nat.div_small (0 + step - 1)) by lia. reflexivity.
  - replace (m + step - 1) with ((m - step + step - 1) + 1 * step) by lia.
    rewrite Nat.div_add by lia. lia.
Qed.

Lemma stride_count_bounds n step :
  0 < step -> 0 < n ->
  0 < stride_count n step /\ (stride_count n step - 1) * step < n.
Proof.
  intros Hs Hn. unfold stride_count.
  pose proof (Nat.div_mod_eq (n + step - 1) step) as E.
  pose proof (Nat.mod_upper_bound (n + step - 1) step) as U.
  set (q := (n + step - 1) / step) in *.
  set (r := (n + step - 1) mod step) in *.
  assert (0 < q) by (destruct q; [ nia | lia ]).
  split; [ assumption | nia ].
Qed.

(** Indices [i, i + step, ...] as a shifted multiple table. *)
Lemma shifted_indices i step c :
  map (fun k => i + k * step) (seq 0 (S c)) =
  i :: map (fun k => i + step + k * step) (seq 0 c).
Proof.
  cbn [seq map]. f_equal; [ lia | ].
  rewrite <- seq_shift, map_map. apply map_ext. intros k. lia.
Qed.

(** The loop visits [i, i + step, ...] while below [len data]; fuel
    above the distance to the end is always enough. *)
Lemma sample_loop_closed fuel : forall data step i acc,
  0 < step -> len data - i < fuel ->
  sample_loop fuel data step i acc =
  Some (acc ++ at_indices data
                 (map (fun k => i + k * step)
                      (seq 0 (stride_count (len data - i) step)))).
Proof.
  induction fuel as [| fuel IH]; intros data step i acc Hs Hf; [ lia | ].
  cbn [sample_loop].
  destruct (i <? len data) eqn:Hi.
  - apply Nat.ltb_lt in Hi.
    destruct (nth_error data i) as [x |] eqn:Hx.
    2:{ apply nth_error_None in Hx. lia. }
    rewrite IH by lia.
    rewrite (stride_count_S (len data - i) step) by lia.
    rewrite shifted_indices.
    replace (len data - i - step) with (len data - (i + step)) by lia.
    unfold at_indices at 2. cbn [flat_map]. rewrite Hx.
    rewrite <- app_assoc. reflexivity.
  - apply Nat.ltb_ge in Hi.
    replace (len data - i) with 0 by lia.
    rewrite stride_count_0 by assumption.
    cbn. rewrite app_nil_r. reflexivity.
Qed.

Lemma sampleData_small data maxPoints :
  len data <= maxPoints -> sampleData data maxPoints = Some data.
Proof.
  intros H. unfold sampleData.
  apply Nat.leb_le in H. rewrite H. reflexivity.
Qed.

Lemma sampleData_large data maxPoints :
  0 < maxPoints -> maxPoints < len data ->
  sampleData data maxPoints =
  Some (firstn maxPoints
          (at_indices data (stride_indices (len data) (len data / maxPoints)))).
Proof.
  intros Hm Hlt. unfold sampleData.
  destruct (len data <=? maxPoints) eqn:E;
    [ apply Nat.leb_le in E; lia | ].
  destruct maxPoints as [| m]; [ lia | ].
  assert (Hstep : 0 < len data / S m).
  { apply Nat.div_str_pos. lia. }
  rewrite sample_loop_closed by lia.
  rewrite Nat.sub_0_r. cbn [app]. reflexivity.
Qed.

Lemma picks_at_indices data indices :
  Forall (fun i => i < len data) indices ->
  picks data (at_indices data indices) indices.
Proof.
  unfold picks, at_indices.
  induction 1 as [| i indices Hi _ IH]; cbn [flat_map]; [ constructor | ].
  destruct (nth_error data i) as [x |] eqn:Hx.
  - cbn [app]. constructor; assumption.
  - apply nth_error_None in Hx. lia.
Qed.

Lemma picks_firstn data out indices n :
  picks data out indices -> picks data (firstn n out) (firstn n indices).
Proof.
  unfold picks. intros H. revert n.
  induction H as [| x i out indices Hx _ IH]; intros [| n]; cbn [firstn];
    constructor; auto.
Qed.

Lemma picks_length data out indices :
  picks data out indices -> len out = len indices.
Proof. unfold picks. induction 1; cbn; congruence. Qed.

Lemma picks_all data : picks data data (seq 0 (len data)).
Proof.
  unfold picks.
  enough (G : forall pre, Forall2 (fun x i => nth_error (pre ++ data) i = Some x)
                            data (seq (len pre) (len data))).
  { apply (G []). }
  induction data as [| x data IH]; intros pre; cbn [Datatypes.length seq];
    constructor.
  - rewrite nth_error_app2 by lia. rewrite Nat.sub_diag. reflexivity.
  - specialize (IH (pre ++ [x])).
    rewrite <- app_assoc, length_app in IH. cbn in IH.
    rewrite Nat.add_1_r in IH. exact IH.
Qed.

Lemma stride_indices_in_range n step :
  0 < step -> Forall (fun i => i < n) (stride_indices n step).
Proof.
  intros Hs. unfold stride_indices.
  apply Forall_forall. intros i Hi.
  apply in_map_iff in Hi. destruct Hi as [k [<- Hk]].
  apply in_seq in Hk.
  destruct n as [| n]; [ rewrite stride_count_0 in Hk by assumption; lia | ].
  destruct (stride_count_bounds (S n) step) as [Hc Hb]; [ lia | lia | ].
  nia.
Qed.
End Loop.

Lemma multiples_sorted step : 0 < step ->
  forall c a, StronglySorted lt (map (fun k => k * step) (seq a c)).
Proof.
  intros Hs. induction c as [| c IH]; intros a; cbn [seq map]; constructor.
  - apply IH.
  - apply Forall_forall. intros i Hi.
    apply in_map_iff in Hi. destruct Hi as [k [<- Hk]].
    apply in_seq in Hk. nia.
Qed.

Lemma firstn_sorted (l : list nat) : StronglySorted lt l ->
  forall n, StronglySorted lt (firstn n l).
Proof.
  induction 1 as [| x l _ IH Hx]; intros [| n]; cbn [firstn];
    constructor; auto.
  apply Forall_forall. intros y Hy.
  rewrite Forall_forall in Hx. apply Hx.
  rewrite <- (firstn_skipn n l). apply in_or_app. left. exact Hy.
Qed.

Lemma sampleData_head (A : Type) (D : list A) (maxPoints : nat) :
  0 < maxPoints ->
  exists out, sampleData D maxPoints = Some out /\ hd_error out = hd_error D.
Proof.
  intros Hm.
  destruct (le_lt_dec (len D) maxPoints) as [Hle | Hgt].
  - exists D. split; [ apply sampleData_small; assumption | reflexivity ].
  - eexists. split; [ apply sampleData_large; assumption | ].
    assert (Hstride : 0 < len D / maxPoints) by (apply Nat.div_str_pos; lia).
    unfold stride_indices.
    destruct (stride_count_bounds (len D) (len D / maxPoints)) as [Hc _];
      [ lia | lia | ].
    destruct (stride_count (len D) (len D / maxPoints)) as [| c]; [ lia | ].
    destruct maxPoints as [| m]; [ lia | ].
    destruct D as [| x D]; [ cbn in Hgt; lia | ].
    reflexivity.
Qed.

(** C1.  For every dataset [D] and every [maxPoints > 0] the sampler
    returns a result [out]; it is [D] itself when [len D <= maxPoints];
    otherwise it holds the records at the indices [0, stride,
    2 * stride, ...] for [stride = floor (len D / maxPoints)], cut to the
    first [maxPoints].  In every case [out] has at most [maxPoints]
    records, lists the records of [D] at strictly increasing indices
    that start with index 0, and sampling [out] again with the same
    bound gives [out] back.  A dataset of 5000 records sampled to 2000
    has stride 2 and yields exactly 2000 records. *)
Theorem sampleData_correct (A : Type) (D : list A) (maxPoints : nat) :
  0 < maxPoints ->
  exists out,
    sampleData D maxPoints = Some out
    /\ (len D <= maxPoints -> out = D)
    /\ (maxPoints < len D ->
        out = firstn maxPoints
                (at_indices D (stride_indices (len D) (len D / maxPoints)))
        /\ picks D out
             (firstn maxPoints (stride_indices (len D) (len D / maxPoints))))
    /\ len out <= maxPoints
    /\ (exists indices,
           picks D out indices /\ StronglySorted lt indices
           /\ (D <> [] -> hd_error indices = Some 0))
    /\ sampleData out maxPoints = Some out
    /\ (len D = 5000 -> maxPoints = 2000 ->
        len D / maxPoints = 2 /\ len out = 2000).
Proof.
  intros Hm.
  destruct (le_lt_dec (len D) maxPoints) as [Hle | Hgt].
  - exists D. split; [ apply sampleData_small; assumption | ].
    split; [ reflexivity | ].
    split; [ lia | ].
    split; [ assumption | ].
    split.
    { exists (seq 0 (len D)). split; [ apply picks_all | ]. split.
      - replace (seq 0 (len D)) with (map (fun k => k * 1) (seq 0 (len D))).
        + apply multiples_sorted. lia.
        + rewrite <- (map_id (seq 0 (len D))) at 2.
          apply map_ext. intros k. lia.
      - destruct D; [ congruence | reflexivity ]. }
    split; [ apply sampleData_small; assumption | lia ].
  - set (stride := len D / maxPoints).
    assert (Hstride : 0 < stride) by (apply Nat.div_str_pos; lia).
    set (indices := firstn maxPoints (stride_indices (len D) stride)).
    set (out := firstn maxPoints (at_indices D (stride_indices (len D) stride))).
    assert (Hpicks : picks D out indices).
    { apply picks_firstn, picks_at_indices, stride_indices_in_range.
      assumption. }
    assert (Hlen : len out <= maxPoints) by apply firstn_le_length.
    exists out. split; [ apply sampleData_large; assumption | ].
    split; [ lia | ].
    split; [ intros _; split; [ reflexivity | exact Hpicks ] | ].
    split; [ exact Hlen | ].
    split.
    { exists indices. split; [ exact Hpicks | ]. split.
      - apply firstn_sorted, multiples_sorted. assumption.
      - intros _. subst indices. unfold stride_indices.
        destruct (stride_count_bounds (len D) stride) as [Hc _]; [ lia | lia | ].
        destruct (stride_count (len D) stride) as [| c]; [ lia | ].
        destruct maxPoints; [ lia | reflexivity ]. }
    split; [ apply sampleData_small; assumption | ].
    intros H5000 H2000.
    assert (Hs2 : stride = 2) by (subst stride; rewrite H5000, H2000; reflexivity).
    split; [ exact Hs2 | ].
    rewrite (picks_length _ _ _ Hpicks). subst indices.
    rewrite length_firstn. unfold stride_indices.
    rewrite length_map, length_seq, Hs2, H5000, H2000. reflexivity.
Qed.

Lemma sampleData_correct_witness :
  0 < 2 /\
  exists out,
    sampleData [10; 11; 12; 13; 14] 2 = Some out
    /\ (len [10; 11; 12; 13; 14] <= 2 -> out = [10; 11; 12; 13; 14])
    /\ (2 < len [10; 11; 12; 13; 14] ->
        out = firstn 2
                (at_indices [10; 11; 12; 13; 14]
                   (stride_indices (len [10; 11; 12; 13; 14])
                      (len [10; 11; 12; 13; 14] / 2)))
        /\ picks [10; 11; 12; 13; 14] out
             (firstn 2 (stride_indices (len [10; 11; 12; 13; 14])
                          (len [10; 11; 12; 13; 14] / 2))))
    /\ len out <= 2
    /\ (exists indices,
           picks [10; 11; 12; 13; 14] out indices /\ StronglySorted lt indices
           /\ ([10; 11; 12; 13; 14] <> [] -> hd_error indices = Some 0))
    /\ sampleData out 2 = Some out
    /\ (len [10; 11; 12; 13; 14] = 5000 -> 2 = 2000 ->
        len [10; 11; 12; 13; 14] / 2 = 2 /\ len out = 2000).
Proof.
  split; [ lia | apply (sampleData_correct nat [10; 11; 12; 13; 14] 2); lia ].
Defined.

(** The sampler on concrete inputs. *)
Example sampleData_five_to_two :
  sampleData [10; 11; 12; 13; 14] 2 = Some [10; 12].
Proof. reflexivity. Qed.

Example sampleData_5000_to_2000 :
  option_map (fun out => (len out, firstn 3 out, nth 1999 out 0))
             (sampleData (seq 0 5000) 2000)
  = Some (2000, [0; 2; 4], 3998).
Proof. vm_compute. reflexivity. Qed.

End SamplerTheory.

(** ** Default axis selection *)
Module AxisTheory.
Import JS Schema View.

Lemma loadData_success (s : State) (rows : list record) (errors : list string) :
  rows <> [] ->
  exists d0 rest,
    hd_error rows = Some d0
    /\ loadData s (ParseComplete rows errors)
       = setLoading (seed_axes s (setCsvData (fetch_start s) (d0 :: rest))
                                (d0 :: rest)) false.
Proof.
  intros Hne. unfold loadData, fetchCSVData.
  destruct (SamplerTheory.sampleData_head _ rows Sampler.MAX_POINTS)
    as [out [-> Hhd]]; [ unfold Sampler.MAX_POINTS; lia | ].
  destruct rows as [| d0 rows]; [ congruence | ].
  destruct out as [| d0' out]; [ discriminate | ].
  injection Hhd as ->. exists d0, out. split; reflexivity.
Qed.

Lemma is_numeric_number (x : float) : is_numeric (VNum x) = true.
Proof. reflexivity. Qed.

Lemma seed_axes_csvData render s sampled :
  csvData (seed_axes render s sampled) = csvData s.
Proof.
  unfold seed_axes. destruct sampled; [ reflexivity | ].
  case_ifs;
    reflexivity.
Qed.

(** What [loadData], the load at mount, does: when it delivers a
    non-empty dataset while both axes are unset, the default selection
    sets [xAxis] to the first numeric column if there is one, sets
    [yAxis] to the second numeric column if there is one, and with
    exactly one numeric column sets both axes to it.  So the columns
    [month: text, sales: number] give ["sales"] on both axes and
    [a: text, b: number, c: number] give [b] and [c]. *)
Theorem default_axis_selection
        (s : State) (rows : list record) (errors : list string) :
  xAxis s = "" -> yAxis s = "" -> rows <> [] ->
  numericColumns (csvData (loadData s (ParseComplete rows errors)))
  = numericColumns rows
  /\ (forall c, nth_error (numericColumns rows) 0 = Some c ->
                xAxis (loadData s (ParseComplete rows errors)) = c)
  /\ (forall c, nth_error (numericColumns rows) 1 = Some c ->
                yAxis (loadData s (ParseComplete rows errors)) = c)
  /\ (forall c, numericColumns rows = [c] ->
                xAxis (loadData s (ParseComplete rows errors)) = c
                /\ yAxis (loadData s (ParseComplete rows errors)) = c)
  /\ (forall t x rest,
         is_numeric (VStr t) = false ->
         rows = [("month", VStr t); ("sales", VNum x)] :: rest ->
         xAxis (loadData s (ParseComplete rows errors)) = "sales"
         /\ yAxis (loadData s (ParseComplete rows errors)) = "sales")
  /\ (forall t x y rest,
         is_numeric (VStr t) = false ->
         rows = [("a", VStr t); ("b", VNum x); ("c", VNum y)] :: rest ->
         xAxis (loadData s (ParseComplete rows errors)) = "b"
         /\ yAxis (loadData s (ParseComplete rows errors)) = "c").
Proof.
  intros Hx Hy Hne.
  destruct (loadData_success s rows errors Hne) as [d0 [rest [Hhd ->]]].
  destruct rows as [| r0 rows]; [ congruence | ].
  injection Hhd as ->.
  assert (Hseed :
    forall cols, numeric_keys d0 = cols ->
      (forall c, nth_error cols 0 = Some c ->
         xAxis (setLoading (seed_axes s (setCsvData (fetch_start s) (d0 :: rest))
                                      (d0 :: rest)) false) = c)
      /\ (forall c, nth_error cols 1 = Some c ->
         yAxis (setLoading (seed_axes s (setCsvData (fetch_start s) (d0 :: rest))
                                      (d0 :: rest)) false) = c)
      /\ (forall c, cols = [c] ->
         yAxis (setLoading (seed_axes s (setCsvData (fetch_start s) (d0 :: rest))
                                      (d0 :: rest)) false) = c)).
  { intros cols Hcols. unfold seed_axes. rewrite Hcols, Hx, Hy.
    destruct cols as [| c1 [| c2 cols]]; cbn.
    - repeat split; intros c H; discriminate.
    - repeat split; intros c H; try discriminate; congruence.
    - repeat split; intros c H; try discriminate; congruence. }
  cbn [numericColumns].
  split.
  { cbn [setLoading csvData]. rewrite seed_axes_csvData. reflexivity. }
  destruct (Hseed _ eq_refl) as [H0 [H1 H2]].
  split; [ exact H0 | ].
  split; [ exact H1 | ].
  split.
  { intros c Hc. split; [ apply H0; rewrite Hc; reflexivity | apply H2, Hc ]. }
  split.
  - intros t x rest' Ht E. injection E as -> ->.
    assert (Hk : numeric_keys [("month", VStr t); ("sales", VNum x)] = ["sales"]).
    { unfold numeric_keys. cbn [keys map fst filter].
      change (prop _ "month") with (VStr t).
      change (prop _ "sales") with (VNum x).
      rewrite Ht, is_numeric_number. reflexivity. }
    destruct (Hseed _ Hk) as [G0 [_ G2]].
    split; [ apply G0; reflexivity | apply G2; reflexivity ].
  - intros t x y rest' Ht E. injection E as -> ->.
    assert (Hk : numeric_keys [("a", VStr t); ("b", VNum x); ("c", VNum y)]
                 = ["b"; "c"]).
    { unfold numeric_keys. cbn [keys map fst filter].
      change (prop _ "a") with (VStr t).
      change (prop _ "b") with (VNum x).
      change (prop _ "c") with (VNum y).
      rewrite Ht, !is_numeric_number. reflexivity. }
    destruct (Hseed _ Hk) as [G0 [G1 _]].
    split; [ apply G0; reflexivity | apply G1; reflexivity ].
Qed.

Lemma default_axis_selection_witness :
  xAxis (initial "line") = "" /\ yAxis (initial "line") = ""
  /\ Samples.sales_rows <> []
  /\ numericColumns
       (csvData (loadData (initial "line") (ParseComplete Samples.sales_rows [])))
     = numericColumns Samples.sales_rows
  /\ (forall c, nth_error (numericColumns Samples.sales_rows) 0 = Some c ->
        xAxis (loadData (initial "line") (ParseComplete Samples.sales_rows [])) = c)
  /\ (forall c, nth_error (numericColumns Samples.sales_rows) 1 = Some c ->
        yAxis (loadData (initial "line") (ParseComplete Samples.sales_rows [])) = c)
  /\ (forall c, numericColumns Samples.sales_rows = [c] ->
        xAxis (loadData (initial "line") (ParseComplete Samples.sales_rows [])) = c
        /\ yAxis (loadData (initial "line") (ParseComplete Samples.sales_rows [])) = c)
  /\ (forall t x rest,
         is_numeric (VStr t) = false ->
         Samples.sales_rows = [("month", VStr t); ("sales", VNum x)] :: rest ->
         xAxis (loadData (initial "line") (ParseComplete Samples.sales_rows []))
         = "sales"
         /\ yAxis (loadData (initial "line") (ParseComplete Samples.sales_rows []))
            = "sales")
  /\ (forall t x y rest,
         is_numeric (VStr t) = false ->
         Samples.sales_rows
         = [("a", VStr t); ("b", VNum x); ("c", VNum y)] :: rest ->
         xAxis (loadData (initial "line") (ParseComplete Samples.sales_rows []))
         = "b"
         /\ yAxis (loadData (initial "line") (ParseComplete Samples.sales_rows []))
            = "c").
Proof.
  split; [ reflexivity | ].
  split; [ reflexivity | ].
  split; [ discriminate | ].
  apply (default_axis_selection (initial "line") Samples.sales_rows []);
    [ reflexivity | reflexivity | discriminate ].
Defined.

(** The two sample datasets of the specification, evaluated. *)
Example default_axes_month_sales :
  let s := loadData (initial "line") (ParseComplete Samples.sales_rows []) in
  numericColumns (csvData s) = ["sales"] /\ xAxis s = "sales" /\ yAxis s = "sales".
Proof. vm_compute. repeat split. Qed.

Example default_axes_a_b_c :
  let s := loadData (initial "line") (ParseComplete Samples.abc_rows []) in
  numericColumns (csvData s) = ["b"; "c"] /\ xAxis s = "b" /\ yAxis s = "c".
Proof. vm_compute. repeat split. Qed.

(** C2.  The defaults are chosen by [loadData] only: [handleRefresh],
    the sibling that also installs a dataset, chooses none.  When the
    first load fails (HTTP 503), or delivers no rows, and a retry then
    delivers the dataset [month: text, sales: number], the component
    reaches the ready screen with the numeric column ["sales"], both
    axes still unset and no chart drawn, where the first load of the
    same dataset sets both axes to ["sales"]. *)
Theorem axes_unset_after_retry :
  reachable "line"
    (handleRefresh (loadData (initial "line") (NotOk 503))
                   (ParseComplete Samples.sales_rows []))
  /\ phase (handleRefresh (loadData (initial "line") (NotOk 503))
                          (ParseComplete Samples.sales_rows [])) = Ready
  /\ numericColumns
       (csvData (handleRefresh (loadData (initial "line") (NotOk 503))
                               (ParseComplete Samples.sales_rows [])))
     = ["sales"]
  /\ xAxis (handleRefresh (loadData (initial "line") (NotOk 503))
                          (ParseComplete Samples.sales_rows [])) = ""
  /\ yAxis (handleRefresh (loadData (initial "line") (NotOk 503))
                          (ParseComplete Samples.sales_rows [])) = ""
  /\ chart_effect (handleRefresh (loadData (initial "line") (NotOk 503))
                                 (ParseComplete Samples.sales_rows [])) = None
  /\ phase (handleRefresh (loadData (initial "line") (ParseComplete [] []))
                          (ParseComplete Samples.sales_rows [])) = Ready
  /\ xAxis (handleRefresh (loadData (initial "line") (ParseComplete [] []))
                          (ParseComplete Samples.sales_rows [])) = ""
  /\ yAxis (handleRefresh (loadData (initial "line") (ParseComplete [] []))
                          (ParseComplete Samples.sales_rows [])) = ""
  /\ xAxis (loadData (initial "line") (ParseComplete Samples.sales_rows []))
     = "sales"
  /\ yAxis (loadData (initial "line") (ParseComplete Samples.sales_rows []))
     = "sales".
Proof.
  split.
  { apply (reach_step "line" (loadData (initial "line") (NotOk 503)));
      [ apply reach_mount | apply step_refresh; reflexivity ]. }
  vm_compute. repeat split.
Qed.

End AxisTheory.

(** ** Geographic columns *)
Module GeoColumnsTheory.
Import JS Schema.

Lemma lat_name_nonempty col : is_lat_name col = true -> truthy_string col = true.
Proof. destruct col; [ discriminate | reflexivity ]. Qed.

Lemma lon_name_nonempty col : is_lon_name col = true -> truthy_string col = true.
Proof. destruct col; [ discriminate | reflexivity ]. Qed.

Lemma or_null_find (test : string -> bool) (columns : list string) :
  (forall col, test col = true -> truthy_string col = true) ->
  or_null (find test columns) = find test columns.
Proof.
  intros Htest. destruct (find test columns) as [c |] eqn:E; [ | reflexivity ].
  apply find_some in E. destruct E as [_ E]. cbn. rewrite (Htest c E).
  reflexivity.
Qed.

Lemma resolved_find (test : string -> bool) (columns : list string) :
  (forall col, test col = true -> truthy_string col = true) ->
  resolved (find test columns) = true <-> exists c, find test columns = Some c.
Proof.
  intros Htest. destruct (find test columns) as [c |] eqn:E; cbn.
  - apply find_some in E. destruct E as [_ E]. rewrite (Htest c E).
    split; [ eauto | reflexivity ].
  - split; [ discriminate | intros [c H]; discriminate ].
Qed.

(** C8, the claim as stated fails: for the single column ["lat_only"]
    the derived value has a latitude column and no longitude column. *)
Lemma geoColumns_one_sided :
  lat (geoColumns Samples.lat_only_rows) = Some "lat_only"
  /\ lon (geoColumns Samples.lat_only_rows) = None.
Proof. split; reflexivity. Qed.

(** C8, amended.  Each side of [geoColumns] is resolved on its own: it is
    the first column whose name matches the side's heuristics, or [null]
    (both are [null] for an empty dataset), so the value can be
    one-sided.  Geography counts as available exactly when both sides
    are resolved.  The columns ["lat_only"] give a latitude column only,
    hence no geography; ["Latitude", "Longitude", "Temp"] give the pair
    (Latitude, Longitude). *)
Theorem geoColumns_sides (csvData : list record) :
  (csvData = [] ->
   lat (geoColumns csvData) = None /\ lon (geoColumns csvData) = None)
  /\ (forall d0 rest, csvData = d0 :: rest ->
        lat (geoColumns csvData) = find is_lat_name (keys d0)
        /\ lon (geoColumns csvData) = find is_lon_name (keys d0))
  /\ (geo_available (geoColumns csvData) = true <->
      exists a b, lat (geoColumns csvData) = Some a
                  /\ lon (geoColumns csvData) = Some b)
  /\ (forall v rest, csvData = [("lat_only", v)] :: rest ->
        lat (geoColumns csvData) = Some "lat_only"
        /\ lon (geoColumns csvData) = None
        /\ geo_available (geoColumns csvData) = false)
  /\ (forall v1 v2 v3 rest,
        csvData = [("Latitude", v1); ("Longitude", v2); ("Temp", v3)] :: rest ->
        lat (geoColumns csvData) = Some "Latitude"
        /\ lon (geoColumns csvData) = Some "Longitude"
        /\ geo_available (geoColumns csvData) = true).
Proof.
  split; [ intros ->; split; reflexivity | ].
  split.
  { intros d0 rest ->. cbn [geoColumns lat lon].
    split; apply or_null_find;
      [ apply lat_name_nonempty | apply lon_name_nonempty ]. }
  split.
  { unfold geo_available. destruct csvData as [| d0 rest]; cbn [geoColumns lat lon].
    - cbn. split; [ discriminate | intros [a [b [H _]]]; discriminate ].
    - rewrite !or_null_find
        by first [ apply lat_name_nonempty | apply lon_name_nonempty ].
      rewrite andb_true_iff.
      rewrite (resolved_find is_lat_name) by apply lat_name_nonempty.
      rewrite (resolved_find is_lon_name) by apply lon_name_nonempty.
      split.
      + intros [[a Ha] [b Hb]]. eauto.
      + intros [a [b [Ha Hb]]]. eauto. }
  split.
  - intros v rest ->. repeat split.
  - intros v1 v2 v3 rest ->. repeat split.
Qed.

Example geoColumns_weather :
  geoColumns Samples.weather_rows
  = {| lat := Some "Latitude"; lon := Some "Longitude" |}.
Proof. reflexivity. Qed.

(** A column is taken for a latitude as soon as its name contains
    ["lat"], wherever. *)
Example population_is_a_latitude : is_lat_name "Population" = true.
Proof. reflexivity. Qed.

End GeoColumnsTheory.

(** ** The view-state machine *)
Module ViewTheory.
Import JS Schema View ViewSpec.

Lemma sampled_rows (rows : list record) :
  exists sampled,
    Sampler.sampleData rows Sampler.MAX_POINTS = Some sampled
    /\ numericColumns sampled = numericColumns rows
    /\ (len sampled =? 0) = (len rows =? 0).
Proof.
  destruct (SamplerTheory.sampleData_head _ rows Sampler.MAX_POINTS)
    as [out [E Hhd]]; [ unfold Sampler.MAX_POINTS; lia | ].
  exists out. split; [ exact E | ].
  destruct rows as [| r rows], out as [| r' out]; try discriminate.
  - split; reflexivity.
  - injection Hhd as ->. split; reflexivity.
Qed.

Lemma seed_axes_frame render s sampled :
  plotType (seed_axes render s sampled) = plotType s
  /\ csvData (seed_axes render s sampled) = csvData s
  /\ loading (seed_axes render s sampled) = loading s
  /\ error (seed_axes render s sampled) = error s.
Proof.
  unfold seed_axes. destruct sampled; [ repeat split | ].
  case_ifs;
    repeat split.
Qed.

Lemma phase_no_error s :
  loading s = false -> error s = None ->
  phase s = data_phase (plotType s) (csvData s).
Proof.
  intros Hl He. unfold phase, error_shown, data_phase. rewrite Hl, He.
  reflexivity.
Qed.

Lemma phase_error s message :
  loading s = false -> error s = Some message ->
  truthy_string message = true -> phase s = Error message.
Proof.
  intros Hl He Hm. unfold phase, error_shown. rewrite Hl, He, Hm.
  reflexivity.
Qed.

Lemma data_phase_sampled plotType rows sampled :
  numericColumns sampled = numericColumns rows ->
  (len sampled =? 0) = (len rows =? 0) ->
  data_phase plotType sampled = data_phase plotType rows.
Proof. intros Hn Hl. unfold data_phase. rewrite Hn, Hl. reflexivity. Qed.

Lemma loadData_rows s o rows :
  fetchCSVData o = inr rows ->
  exists sampled,
    Sampler.sampleData rows Sampler.MAX_POINTS = Some sampled
    /\ numericColumns sampled = numericColumns rows
    /\ (len sampled =? 0) = (len rows =? 0)
    /\ loadData s o
       = setLoading (seed_axes s (setCsvData (fetch_start s) sampled) sampled)
                    false.
Proof.
  intros Ho. destruct (sampled_rows rows) as [sampled [E [Hn Hl]]].
  exists sampled. repeat split; try assumption.
  unfold loadData. rewrite Ho, E. reflexivity.
Qed.

Lemma handleRefresh_rows s o rows :
  fetchCSVData o = inr rows ->
  exists sampled,
    Sampler.sampleData rows Sampler.MAX_POINTS = Some sampled
    /\ numericColumns sampled = numericColumns rows
    /\ (len sampled =? 0) = (len rows =? 0)
    /\ handleRefresh s o
       = setLoading
           (setError (setCsvData (fetch_start (setLoading s true)) sampled) None)
           false.
Proof.
  intros Ho. destruct (sampled_rows rows) as [sampled [E [Hn Hl]]].
  exists sampled. repeat split; try assumption.
  unfold handleRefresh. rewrite Ho, E. reflexivity.
Qed.

(** C7, the claim as stated fails: a payload the parser reports errors
    for is not an error of the view (the rows it delivers decide), and a
    rejection whose message is empty shows no error screen. *)
Lemma parse_errors_are_not_failures :
  phase (loadData (initial "line")
           (ParseComplete Samples.sales_rows ["Quoted field unterminated"]))
  = Ready
  /\ phase (loadData (initial "line")
              (ParseComplete [] ["Unable to auto-detect delimiting character"]))
     = Empty
  /\ phase (loadData (initial "line") (FetchRejected (ErrorObject ""))) = Empty.
Proof. repeat split. Qed.

(** C7, amended.  After a fetch attempt, by the initial load or by a
    refresh, the screen is decided in this order.  A rejected fetch (the
    transport throws, the HTTP status is not a success, the body cannot
    be read, or the parser calls its error callback) gives [Error] with
    the error's message, or with a fixed text when the rejection is not
    an [Error], provided that message is not empty; a non-success status
    always has a non-empty message.  Otherwise the rows decide, whether
    or not the parser reported errors for them: zero rows give [Empty],
    no numeric column with a plot type other than geograph gives
    [NoNumericData], anything else gives [Ready]. *)
Theorem phase_after_fetch (s : State) (o : Outcome) :
  (forall err, fetchCSVData o = inl err ->
     (truthy_string (message_of err "Failed to load CSV data") = true ->
      phase (loadData s o) = Error (message_of err "Failed to load CSV data"))
     /\ (truthy_string (message_of err "Failed to refresh data") = true ->
      phase (handleRefresh s o)
      = Error (message_of err "Failed to refresh data")))
  /\ (forall rows, fetchCSVData o = inr rows ->
        phase (loadData s o) = data_phase (plotType s) rows
        /\ phase (handleRefresh s o) = data_phase (plotType s) rows)
  /\ (forall status, o = NotOk status ->
        exists message,
          fetchCSVData o = inl (ErrorObject message)
          /\ truthy_string message = true)
  /\ (forall e, o = FetchRejected e \/ o = TextRejected e \/ o = ParseError e ->
        fetchCSVData o = inl e)
  /\ (forall rows errors, o = ParseComplete rows errors ->
        fetchCSVData o = inr rows)
  /\ (forall plotType rows,
        (rows = [] -> data_phase plotType rows = Empty)
        /\ (rows <> [] -> numericColumns rows = [] ->
            plotType <> "geograph" -> data_phase plotType rows = NoNumericData)
        /\ (rows <> [] -> numericColumns rows <> [] ->
            data_phase plotType rows = Ready)
        /\ (rows <> [] -> plotType = "geograph" ->
            data_phase plotType rows = Ready)).
Proof.
  split.
  { intros err Ho. split; intros Hm.
    - apply phase_error; [ reflexivity | | exact Hm ].
      unfold loadData. rewrite Ho. reflexivity.
    - apply phase_error; [ reflexivity | | exact Hm ].
      unfold handleRefresh. rewrite Ho. reflexivity. }
  split.
  { intros rows Ho. split.
    - destruct (loadData_rows s o rows Ho) as [sampled [_ [Hn [Hl ->]]]].
      rewrite phase_no_error.
      + cbn [setLoading plotType csvData].
        destruct (seed_axes_frame s (setCsvData (fetch_start s) sampled) sampled)
          as [-> [-> _]].
        apply data_phase_sampled; assumption.
      + reflexivity.
      + cbn [setLoading error].
        destruct (seed_axes_frame s (setCsvData (fetch_start s) sampled) sampled)
          as [_ [_ [_ ->]]].
        reflexivity.
    - destruct (handleRefresh_rows s o rows Ho) as [sampled [_ [Hn [Hl ->]]]].
      rewrite phase_no_error by reflexivity.
      apply data_phase_sampled; assumption. }
  split.
  { intros status ->. eexists. split; reflexivity. }
  split.
  { intros e [-> | [-> | ->]]; reflexivity. }
  split.
  { intros rows errors ->. reflexivity. }
  intros pt rows. unfold data_phase. repeat split.
  - intros ->. reflexivity.
  - intros Hr Hn Hp. destruct rows; [ congruence | ]. rewrite Hn.
    apply String.eqb_neq in Hp. cbn. rewrite Hp. reflexivity.
  - intros Hr Hn. destruct rows; [ congruence | ].
    destruct (numericColumns (_ :: _)); [ congruence | reflexivity ].
  - intros Hr ->. destruct rows; [ congruence | ]. cbn.
    rewrite andb_false_r. reflexivity.
Qed.

Example phase_after_http_404 :
  phase (loadData (initial "line") (NotOk 404))
  = Error "HTTP error! status: 404".
Proof. vm_compute. reflexivity. Qed.

Example phase_after_failed_refresh :
  let s := loadData (initial "line") (ParseComplete Samples.sales_rows []) in
  phase (handleRefresh s (FetchRejected (ErrorObject "Failed to fetch")))
  = Error "Failed to fetch"
  /\ phase (handleRefresh s (TextRejected OtherValue))
     = Error "Failed to refresh data".
Proof. vm_compute. split; reflexivity. Qed.

Example phase_no_numeric_data :
  phase (loadData (initial "bar")
           (ParseComplete [[("name", VStr "Ada"); ("city", VStr "Paris")]] []))
  = NoNumericData
  /\ phase (loadData (initial "geograph")
              (ParseComplete [[("name", VStr "Ada"); ("city", VStr "Paris")]] []))
     = Ready.
Proof. vm_compute. split; reflexivity. Qed.

End ViewTheory.

(** ** The axis selection across transitions *)
Module AxesTheory.
Import JS Schema View ViewSpec.

Lemma handleRefresh_axes s o :
  xAxis (handleRefresh s o) = xAxis s /\ yAxis (handleRefresh s o) = yAxis s.
Proof.
  unfold handleRefresh. destruct (fetchCSVData o) as [err | rows].
  - split; reflexivity.
  - destruct (Sampler.sampleData rows Sampler.MAX_POINTS); split; reflexivity.
Qed.

Lemma seed_axes_valid render s d0 rest :
  csvData s = d0 :: rest -> axes_valid s ->
  axes_valid (seed_axes render s (d0 :: rest)).
Proof.
  intros Hd [Hx Hy]. unfold seed_axes.
  assert (Hnth : forall i, i < len (numeric_keys d0) ->
            forall s', csvData s' = d0 :: rest ->
            in_axis_domain s' (nth i (numeric_keys d0) "")).
  { intros i Hi s' Hs'. right. right. rewrite Hs'. cbn [numericColumns].
    apply nth_In. exact Hi. }
  destruct ((0 <? len (numeric_keys d0)) && negb (truthy_string (xAxis render)))
    eqn:E0.
  - apply andb_true_iff in E0. destruct E0 as [E0 _]. apply Nat.ltb_lt in E0.
    destruct ((1 <? len (numeric_keys d0)) && negb (truthy_string (yAxis render)))
      eqn:E1.
    + apply andb_true_iff in E1. destruct E1 as [E1 _]. apply Nat.ltb_lt in E1.
      split; [ apply (Hnth 0 E0) | apply (Hnth 1 E1) ]; exact Hd.
    + destruct ((len (numeric_keys d0) =? 1) && negb (truthy_string (yAxis render))).
      * split; apply (Hnth 0 E0); exact Hd.
      * split; [ apply (Hnth 0 E0); exact Hd | exact Hy ].
  - destruct ((1 <? len (numeric_keys d0)) && negb (truthy_string (yAxis render)))
      eqn:E1.
    + apply andb_true_iff in E1. destruct E1 as [E1 _]. apply Nat.ltb_lt in E1.
      split; [ exact Hx | apply (Hnth 1 E1); exact Hd ].
    + destruct ((len (numeric_keys d0) =? 1) && negb (truthy_string (yAxis render)))
        eqn:E2.
      * apply andb_true_iff in E2. destruct E2 as [E2 _]. apply Nat.eqb_eq in E2.
        split; [ exact Hx | apply (Hnth 0); [ lia | exact Hd ] ].
      * split; assumption.
Qed.

Lemma loadData_axes_valid initialPlotType o :
  axes_valid (loadData (initial initialPlotType) o).
Proof.
  unfold loadData. destruct (fetchCSVData o) as [err | rows].
  - split; left; reflexivity.
  - destruct (Sampler.sampleData rows Sampler.MAX_POINTS) as [sampled |].
    + destruct sampled as [| d0 rest].
      * split; left; reflexivity.
      * destruct (seed_axes_valid (initial initialPlotType)
                    (setCsvData (fetch_start (initial initialPlotType)) (d0 :: rest))
                    d0 rest) as [Hx Hy].
        { reflexivity. }
        { split; left; reflexivity. }
        split; [ exact Hx | exact Hy ].
    + split; left; reflexivity.
Qed.

Lemma step_axes_valid s s' :
  step s s' ->
  numericColumns (csvData s') = numericColumns (csvData s) ->
  axes_valid s -> axes_valid s'.
Proof.
  intros Hstep Hcols [Hx Hy].
  unfold axes_valid, in_axis_domain in *. rewrite Hcols.
  destruct Hstep as [s o _ | s v _ _ | s v _ _ Hv | s v _ _ Hv
                     | s _ | s _ | s b _ | s _ _];
    [ | cbn in * .. ].
  - destruct (handleRefresh_axes s o) as [-> ->]. split; assumption.
  - split; assumption.
  - split; [ right; exact Hv | assumption ].
  - split; [ assumption | right; right; exact Hv ].
  - split; assumption.
  - split; assumption.
  - split; assumption.
  - split; assumption.
Qed.

(** C9, the claim as stated fails: after loading the columns [a], [b]
    and refreshing to a dataset with the columns [c], [d], the state is
    reachable, the axes still name [a] and [b], and neither is a numeric
    column of the current dataset. *)
Lemma stale_axes_after_refresh :
  exists s,
    reachable "line" s
    /\ xAxis s = "a" /\ yAxis s = "b"
    /\ "index" :: numericColumns (csvData s) = ["index"; "c"; "d"]
    /\ ~ In (xAxis s) ("index" :: numericColumns (csvData s))
    /\ ~ In (yAxis s) ("index" :: numericColumns (csvData s)).
Proof.
  exists (handleRefresh
            (loadData (initial "line") (ParseComplete Samples.ab_rows []))
            (ParseComplete Samples.cd_rows [])).
  split.
  - eapply reach_step; [ apply reach_mount | ].
    apply step_refresh. reflexivity.
  - split; [ reflexivity | ]. split; [ reflexivity | ].
    split; [ reflexivity | ].
    split; cbn; intros H; decompose [or] H; try discriminate; assumption.
Qed.

(** C9, amended.  After the initial load each axis is unset or names a
    member of [numericColumns] together with ["index"], and this is kept
    by every transition that leaves the numeric columns of the dataset
    as they are: all user actions, and every refresh that fails or
    delivers the same numeric columns.  A refresh never changes the
    axes, so one that replaces the numeric columns leaves them as they
    were; every other transition keeps the dataset. *)
Theorem axes_valid_while_columns_stable (initialPlotType : string) :
  (forall o, axes_valid (loadData (initial initialPlotType) o))
  /\ (forall s s',
        step s s' ->
        numericColumns (csvData s') = numericColumns (csvData s) ->
        axes_valid s -> axes_valid s')
  /\ (forall s, reachable_stable initialPlotType s -> axes_valid s)
  /\ (forall s o,
        xAxis (handleRefresh s o) = xAxis s
        /\ yAxis (handleRefresh s o) = yAxis s)
  /\ (forall s s',
        step s s' ->
        csvData s' = csvData s
        \/ exists o rows, fetchCSVData o = inr rows /\ s' = handleRefresh s o).
Proof.
  split; [ apply loadData_axes_valid | ].
  split; [ apply step_axes_valid | ].
  split.
  { induction 1 as [o | s s' _ IH Hstep Hcols].
    - apply loadData_axes_valid.
    - exact (step_axes_valid s s' Hstep Hcols IH). }
  split; [ apply handleRefresh_axes | ].
  intros s s' Hstep.
  destruct Hstep as [s o _ | s v _ _ | s v _ _ _ | s v _ _ _
                     | s _ | s _ | s b _ | s _ _];
    try (left; reflexivity).
  unfold handleRefresh. destruct (fetchCSVData o) as [err | rows] eqn:E.
  - left. reflexivity.
  - right. exists o, rows. split; [ exact E | ].
    unfold handleRefresh. rewrite E. reflexivity.
Qed.

Example axes_survive_a_user_selection :
  let s := loadData (initial "line") (ParseComplete Samples.abc_rows []) in
  step s (setXAxis s "index")
  /\ xAxis (setXAxis s "index") = "index"
  /\ In "index" (x_options (setXAxis s "index")).
Proof.
  cbv zeta. split; [ | split; [ reflexivity | left; reflexivity ] ].
  apply step_x_axis; [ reflexivity | reflexivity | left; reflexivity ].
Qed.

End AxesTheory.

(** ** Own properties of objects *)
Module ObjectTheory.
Import JS.

Section Properties.
Context {V : Type}.
Implicit Types (o : object V) (k : string) (v : V).

Lemma get_own_app o1 o2 k :
  get_own (o1 ++ o2) k =
  match get_own o1 k with
  | Some v => Some v
  | None => get_own o2 k
  end.
Proof.
  induction o1 as [| [k' v'] o1 IH]; cbn [app get_own]; [ reflexivity | ].
  destruct (k' =? k)%string; [ reflexivity | exact IH ].
Qed.

Lemma get_own_update_same o k v :
  get_own o k <> None -> get_own (update o k v) k = Some v.
Proof.
  induction o as [| [k' v'] o IH]; cbn [get_own update]; [ congruence | ].
  destruct (k' =? k)%string eqn:E; cbn [get_own]; rewrite E; auto.
Qed.

Lemma get_own_update_other o k v k' :
  k' <> k -> get_own (update o k v) k' = get_own o k'.
Proof.
  intros Hne. induction o as [| [k0 v0] o IH]; cbn [get_own update];
    [ reflexivity | ].
  destruct (k0 =? k)%string eqn:E; cbn [get_own].
  - apply String.eqb_eq in E. subst k0.
    apply not_eq_sym, String.eqb_neq in Hne. rewrite Hne. reflexivity.
  - rewrite IH. reflexivity.
Qed.

Lemma get_own_insert_same o i k v :
  get_own o k = None -> get_own (insert_index o i k v) k = Some v.
Proof.
  induction o as [| [k' v'] o IH]; cbn [get_own insert_index]; intros H.
  - rewrite String.eqb_refl. reflexivity.
  - destruct (k' =? k)%string eqn:E; [ discriminate | ].
    destruct (array_index k') as [j |].
    + destruct (j <? i)%Z; cbn [get_own].
      * rewrite E. apply IH, H.
      * rewrite String.eqb_refl. reflexivity.
    + cbn [get_own]. rewrite String.eqb_refl. reflexivity.
Qed.

Lemma get_own_insert_other o i k v k' :
  k' <> k -> get_own (insert_index o i k v) k' = get_own o k'.
Proof.
  intros Hne. apply not_eq_sym, String.eqb_neq in Hne.
  induction o as [| [k0 v0] o IH]; cbn [get_own insert_index].
  - rewrite Hne. reflexivity.
  - destruct (array_index k0) as [j |].
    + destruct (j <? i)%Z; cbn [get_own].
      * rewrite IH. reflexivity.
      * rewrite Hne. reflexivity.
    + cbn [get_own]. rewrite Hne. reflexivity.
Qed.

Lemma get_own_set_same o k v : get_own (set_property o k v) k = Some v.
Proof.
  unfold set_property. destruct (get_own o k) as [x |] eqn:E.
  - apply get_own_update_same. congruence.
  - destruct (array_index k) as [i |].
    + apply get_own_insert_same, E.
    + rewrite get_own_app, E. cbn. rewrite String.eqb_refl. reflexivity.
Qed.

Lemma get_own_set_other o k v k' :
  k' <> k -> get_own (set_property o k v) k' = get_own o k'.
Proof.
  intros Hne. unfold set_property. destruct (get_own o k) as [x |] eqn:E.
  - apply get_own_update_other, Hne.
  - destruct (array_index k) as [i |].
    + apply get_own_insert_other, Hne.
    + rewrite get_own_app. destruct (get_own o k'); [ reflexivity | ].
      cbn. apply not_eq_sym, String.eqb_neq in Hne. rewrite Hne. reflexivity.
Qed.

Lemma keys_update o k v : keys (update o k v) = keys o.
Proof.
  induction o as [| [k' v'] o IH]; cbn [update keys map]; [ reflexivity | ].
  destruct (k' =? k)%string; cbn [map fst]; [ reflexivity | ].
  f_equal. exact IH.
Qed.

Lemma get_own_In o k : get_own o k <> None <-> In k (keys o).
Proof.
  induction o as [| [k' v'] o IH]; cbn [get_own keys map fst In].
  - split; [ congruence | tauto ].
  - destruct (k' =? k)%string eqn:E.
    + apply String.eqb_eq in E. split; [ auto | congruence ].
    + apply String.eqb_neq in E. rewrite IH. unfold keys. tauto.
Qed.

(** Setting a key that is no array index: the value is replaced in
    place, or the key is added after all others. *)
Lemma set_property_plain o k v :
  array_index k = None ->
  (get_own o k = None -> set_property o k v = o ++ [(k, v)])
  /\ (get_own o k <> None -> keys (set_property o k v) = keys o).
Proof.
  intros Hk. unfold set_property. split; intros H.
  - rewrite H, Hk. reflexivity.
  - destruct (get_own o k); [ apply keys_update | congruence ].
Qed.

Lemma keys_app o1 o2 : keys (o1 ++ o2) = keys o1 ++ keys o2.
Proof. apply map_app. Qed.

Lemma In_keys_insert o i k v k' :
  In k' (keys (insert_index o i k v)) <-> k' = k \/ In k' (keys o).
Proof.
  induction o as [| [k0 v0] o IH]; cbn [insert_index keys map fst In].
  - intuition congruence.
  - destruct (array_index k0) as [j |].
    + destruct (j <? i)%Z; cbn [map fst In].
      * fold (keys (insert_index o i k v)). rewrite IH. fold (keys o).
        intuition congruence.
      * intuition congruence.
    + cbn [map fst In]. intuition congruence.
Qed.

Lemma NoDup_keys_insert o i k v :
  ~ In k (keys o) -> NoDup (keys o) -> NoDup (keys (insert_index o i k v)).
Proof.
  induction o as [| [k0 v0] o IH]; cbn [insert_index keys map fst];
    intros Hk Hnd.
  - constructor; [ intros [] | constructor ].
  - assert (Hcons : NoDup (k :: k0 :: map fst o)) by (constructor; assumption).
    destruct (array_index k0) as [j |]; [ | exact Hcons ].
    destruct (j <? i)%Z; [ | exact Hcons ].
    cbn [map fst]. inversion Hnd as [| ? ? Hk0 Hnd']; subst.
    cbn [In] in Hk. constructor.
    + fold (keys (insert_index o i k v)). rewrite In_keys_insert.
      intros [-> | H]; [ tauto | exact (Hk0 H) ].
    + apply IH; [ tauto | exact Hnd' ].
Qed.

Lemma plain_keys_insert o i k v :
  array_index k = Some i ->
  filter PieSpec.plain_key (keys (insert_index o i k v))
  = filter PieSpec.plain_key (keys o).
Proof.
  intros Hk.
  assert (Hp : PieSpec.plain_key k = false)
    by (unfold PieSpec.plain_key; rewrite Hk; reflexivity).
  induction o as [| [k0 v0] o IH]; cbn [insert_index keys map fst filter].
  - rewrite Hp. reflexivity.
  - destruct (array_index k0) as [j |] eqn:E.
    + destruct (j <? i)%Z; cbn [map fst filter].
      * fold (keys (insert_index o i k v)). rewrite IH. reflexivity.
      * rewrite Hp. reflexivity.
    + cbn [map fst filter]. rewrite Hp. reflexivity.
Qed.

Lemma ordered_insert o i k v :
  array_index k = Some i ->
  forall lower, (lower <= i)%Z -> ordered_from lower (keys o) ->
  ordered_from lower (keys (insert_index o i k v)).
Proof.
  intros Hk.
  induction o as [| [k0 v0] o IH]; intros lower Hl Ho;
    cbn [insert_index keys map fst].
  - cbn [ordered_from]. rewrite Hk. split; [ exact Hl | exact I ].
  - cbn [keys map fst ordered_from] in Ho.
    destruct (array_index k0) as [j |] eqn:E.
    + destruct Ho as [Hj Ho]. destruct (j <? i)%Z eqn:Hji.
      * cbn [map fst ordered_from]. rewrite E. split; [ exact Hj | ].
        apply IH; [ apply Z.ltb_lt in Hji; lia | exact Ho ].
      * cbn [map fst ordered_from]. rewrite Hk, E. apply Z.ltb_ge in Hji.
        repeat split; assumption.
    + cbn [map fst ordered_from]. rewrite Hk, E. split; [ exact Hl | exact Ho ].
Qed.

Lemma ordered_app_plain (ks : list string) k :
  array_index k = None ->
  forall lower, ordered_from lower ks -> ordered_from lower (ks ++ [k]).
Proof.
  intros Hk. induction ks as [| k0 ks IH]; intros lower Ho; cbn [app ordered_from].
  - rewrite Hk. constructor.
  - cbn [ordered_from] in Ho. destruct (array_index k0) as [j |].
    + destruct Ho as [Hj Ho]. split; [ exact Hj | apply IH, Ho ].
    + apply Forall_app. split; [ exact Ho | repeat constructor; exact Hk ].
Qed.

Lemma digits_value_nonneg (ds : list Z) : forall acc,
  (0 <= acc)%Z -> Forall (fun d => (0 <= d)%Z) ds ->
  (0 <= digits_value 10 ds acc)%Z.
Proof.
  induction ds as [| d ds IH]; intros acc Ha Hd; cbn [digits_value];
    [ exact Ha | ].
  inversion Hd; subst. apply IH; [ lia | assumption ].
Qed.

Lemma string_digits_nonneg (k : string) :
  Forall (fun d => (0 <= d)%Z) (string_digits k).
Proof.
  induction k as [| c k IH]; cbn [string_digits]; constructor;
    [ unfold digit_val; lia | exact IH ].
Qed.

Lemma array_index_nonneg k i : array_index k = Some i -> (0 <= i)%Z.
Proof.
  unfold array_index. destruct k as [| c rest]; [ discriminate | ].
  destruct (_ && _); [ | discriminate ].
  destruct (_ <? _)%Z; [ | discriminate ].
  intros H. injection H as <-.
  apply (digits_value_nonneg (string_digits (String c rest)) 0%Z);
    [ lia | apply string_digits_nonneg ].
Qed.

Lemma wf_set_property o k v : wf_object o -> wf_object (set_property o k v).
Proof.
  intros [Hnd Hord]. unfold wf_object, set_property.
  destruct (get_own o k) as [x |] eqn:E.
  - rewrite keys_update. split; assumption.
  - assert (Hk : ~ In k (keys o)).
    { intros H. apply get_own_In in H. congruence. }
    destruct (array_index k) as [i |] eqn:Ek.
    + split; [ apply NoDup_keys_insert; assumption | ].
      apply ordered_insert; [ exact Ek | | exact Hord ].
      apply (array_index_nonneg k i Ek).
    + rewrite keys_app. cbn [keys map fst]. split.
      * apply NoDup_app. repeat split; try assumption.
        -- constructor; [ intros [] | constructor ].
        -- intros a Ha [<- | []]. exact (Hk Ha).
      * apply ordered_app_plain; assumption.
Qed.

(** An object is determined by its keys and the values found at them. *)
Lemma object_from_lookup o (f : string -> V) :
  NoDup (keys o) ->
  (forall k, In k (keys o) -> get_own o k = Some (f k)) ->
  o = map (fun k => (k, f k)) (keys o).
Proof.
  induction o as [| [k0 v0] o IH]; cbn [keys map fst]; intros Hnd Hf;
    [ reflexivity | ].
  inversion Hnd as [| ? ? Hk0 Hnd']; subst. f_equal.
  - specialize (Hf k0 (or_introl eq_refl)). cbn [get_own] in Hf.
    rewrite String.eqb_refl in Hf. congruence.
  - apply IH; [ exact Hnd' | ]. intros k Hk.
    specialize (Hf k (or_intror Hk)). cbn [get_own] in Hf.
    destruct (k0 =? k)%string eqn:E; [ | exact Hf ].
    apply String.eqb_eq in E. subst k0. contradiction.
Qed.
End Properties.

End ObjectTheory.

(** ** The rows handed to the synthesizer *)
Module ChartDataTheory.
Import JS Schema Synth ObjectTheory.

Lemma map_index_length {A B : Type} (f : A -> nat -> B) (l : list A) :
  forall k, len (map_index f l k) = len l.
Proof. induction l as [| a l IH]; intros k; cbn; [ | rewrite IH ]; reflexivity. Qed.

Lemma map_index_nth {A B : Type} (f : A -> nat -> B) (l : list A) :
  forall k i, nth_error (map_index f l k) i
              = option_map (fun a => f a (k + i)) (nth_error l i).
Proof.
  induction l as [| a l IH]; intros k [| i]; cbn [map_index nth_error option_map];
    try reflexivity.
  - rewrite Nat.add_0_r. reflexivity.
  - rewrite IH. replace (S k + i) with (k + S i) by lia. reflexivity.
Qed.

(** C10, the claim as stated fails: a row that has a field ["index"] of
    its own keeps its number of fields and loses the value of that
    field. *)
Lemma chartData_overwrites_index :
  Samples.indexed_rows = [ [("index", VNum 42); ("v", VNum 7)] ]
  /\ chartData Samples.indexed_rows = [ [("index", VNum 1); ("v", VNum 7)] ].
Proof. split; reflexivity. Qed.

(** C10, amended.  The rows handed to the synthesizer are the sampled
    rows, one for one and in order, each with the field ["index"] set to
    its 1-based position: the field is added after all others when the
    row has no field of that name, and its value is replaced in place
    when the row has one.  Every other field of every row is
    unchanged. *)
Theorem chartData_index (csvData : list record) :
  len (chartData csvData) = len csvData
  /\ forall i row,
       nth_error csvData i = Some row ->
       exists row',
         nth_error (chartData csvData) i = Some row'
         /\ prop row' "index" = VNum (float_of_nat (i + 1))
         /\ (forall key, key <> "index" -> get_own row' key = get_own row key)
         /\ (get_own row "index" = None ->
             row' = row ++ [("index", VNum (float_of_nat (i + 1)))])
         /\ (get_own row "index" <> None -> keys row' = keys row).
Proof.
  unfold chartData. split; [ apply map_index_length | ].
  intros i row Hrow. rewrite map_index_nth, Hrow. cbn [option_map Nat.add].
  eexists. split; [ reflexivity | ]. unfold with_index.
  split; [ unfold prop; rewrite get_own_set_same; reflexivity | ].
  split; [ intros key Hkey; apply get_own_set_other, Hkey | ].
  apply set_property_plain. reflexivity.
Qed.

Example chartData_positions :
  map (fun row => prop row "index") (chartData Samples.sales_rows)
  = [VNum 1; VNum 2].
Proof. reflexivity. Qed.

Example chartData_adds_last :
  chartData Samples.ab_rows
  = [ [("a", VNum 1); ("b", VNum 2); ("index", VNum 1)] ].
Proof. reflexivity. Qed.

End ChartDataTheory.

(** ** Facts on binary64 arithmetic *)
Module FloatFacts.
Open Scope float_scope.

Lemma SFcompare_le_lt_trans (a b c : spec_float) :
  SFleb a b = true -> SFltb b c = true -> SFltb a c = true.
Proof.
  unfold SFleb, SFltb.
  destruct a as [sa | sa | | sa ma ea], b as [sb | sb | | sb mb eb],
           c as [sc | sc | | sc mc ec];
    cbn [SFcompare]; try discriminate;
    try (destruct sa, sb, sc; intros; first [ reflexivity | discriminate ]);
    try (destruct sa, sb; intros; first [ reflexivity | discriminate ]);
    try (destruct sb, sc; intros; first [ reflexivity | discriminate ]);
    try (destruct sa, sc; intros; first [ reflexivity | discriminate ]).
  change (Pos.compare_cont Eq ma mb) with (Pos.compare ma mb).
  change (Pos.compare_cont Eq mb mc) with (Pos.compare mb mc).
  change (Pos.compare_cont Eq ma mc) with (Pos.compare ma mc).
  destruct sa, sb, sc; try (intros; first [ reflexivity | discriminate ]);
    destruct (Z.compare_spec ea eb), (Z.compare_spec eb ec),
             (Z.compare_spec ea ec);
    try (intros; first [ reflexivity | discriminate | lia ]);
    destruct (Pos.compare_spec ma mb), (Pos.compare_spec mb mc),
             (Pos.compare_spec ma mc);
    cbn [CompOpp]; intros; first [ reflexivity | discriminate | lia ].
Qed.

Lemma leb_ltb_trans (a b c : float) :
  (a <=? b) = true -> (b <? c) = true -> (a <? c) = true.
Proof.
  rewrite FloatAxioms.leb_spec, !FloatAxioms.ltb_spec.
  apply SFcompare_le_lt_trans.
Qed.

Lemma Prim2SF_nan (x : float) : is_nan x = true <-> Prim2SF x = S754_nan.
Proof.
  unfold Prim2SF. destruct (is_nan x); [ tauto | ].
  split; [ discriminate | ].
  destruct (is_zero x); [ discriminate | ].
  destruct (is_infinity x); [ discriminate | ].
  destruct (Z.frexp x) as [r e].
  destruct (shr_fexp _ _ _ _ _) as [mrs e'].
  destruct (shr_m mrs); discriminate.
Qed.

Lemma is_zero_not_nan (x : float) : is_zero x = true -> is_nan x = false.
Proof.
  intros Hz. destruct (is_nan x) eqn:Hn; [ | reflexivity ].
  apply Prim2SF_nan in Hn. unfold is_zero in Hz.
  rewrite FloatAxioms.eqb_spec, Hn in Hz. discriminate.
Qed.

Lemma Prim2SF_zero (x : float) :
  is_zero x = true -> Prim2SF x = S754_zero (get_sign x).
Proof.
  intros Hz. unfold Prim2SF.
  rewrite (is_zero_not_nan x Hz), Hz. reflexivity.
Qed.

Lemma Prim2SF_neg_zero (x : float) :
  Prim2SF x = S754_zero true -> is_zero x = true /\ get_sign x = true.
Proof.
  unfold Prim2SF. destruct (is_nan x); [ discriminate | ].
  destruct (is_zero x).
  - intros H. injection H as H. split; [ reflexivity | exact H ].
  - destruct (is_infinity x); [ discriminate | ].
    destruct (Z.frexp x) as [r e].
    destruct (shr_fexp _ _ _ _ _) as [mrs e'].
    destruct (shr_m mrs); discriminate.
Qed.

(** Adding to a zero gives the other operand, unless that is [-0]. *)
Lemma add_zero_l (z v : float) :
  is_zero z = true -> (is_zero v && get_sign v) = false -> z + v = v.
Proof.
  intros Hz Hv. apply Prim2SF_inj. rewrite add_spec, (Prim2SF_zero z Hz).
  unfold SF64add, SFadd.
  destruct (Prim2SF v) as [sv | sv | | sv mv ev] eqn:E; try reflexivity.
  destruct sv.
  - apply Prim2SF_neg_zero in E. destruct E as [E1 E2].
    rewrite E1, E2 in Hv. discriminate.
  - destruct (get_sign z); reflexivity.
Qed.

Lemma Prim2SF_finite_cases (x : float) :
  is_finite x = true ->
  (exists s, Prim2SF x = S754_zero s) \/ (exists s m e, Prim2SF x = S754_finite s m e).
Proof.
  unfold is_finite, Prim2SF. destruct (is_nan x); [ discriminate | ].
  destruct (is_infinity x); [ discriminate | ]. intros _.
  destruct (is_zero x); [ left; eauto | ].
  destruct (Z.frexp x) as [r e].
  destruct (shr_fexp _ _ _ _ _) as [mrs e'].
  destruct (shr_m mrs); [ left | right | left ]; eauto.
Qed.

Lemma shr_1_nonneg mrs : (0 <= shr_m mrs)%Z -> (0 <= shr_m (shr_1 mrs))%Z.
Proof.
  destruct mrs as [m r t]. cbn [shr_m shr_1].
  destruct m as [| p | p]; [ | destruct p | ]; cbn; lia.
Qed.

Lemma iter_shr_1_nonneg (p : positive) : forall mrs,
  (0 <= shr_m mrs)%Z -> (0 <= shr_m (SpecFloat.iter_pos shr_1 p mrs))%Z.
Proof.
  induction p as [p IH | p IH |]; intros mrs H; cbn [SpecFloat.iter_pos].
  - apply IH, IH, shr_1_nonneg, H.
  - apply IH, IH, H.
  - apply shr_1_nonneg, H.
Qed.

Lemma shr_fexp_nonneg m e l :
  (0 <= m)%Z -> (0 <= shr_m (fst (shr_fexp prec emax m e l)))%Z.
Proof.
  intros Hm. unfold shr_fexp, shr.
  assert (H0 : (0 <= shr_m (shr_record_of_loc m l))%Z).
  { destruct l as [| []]; exact Hm. }
  destruct (_ - e)%Z as [| p | p]; cbn [fst]; try exact H0.
  apply iter_shr_1_nonneg, H0.
Qed.

Lemma binary_round_aux_not_nan sx mx ex lx :
  (0 <= mx)%Z -> binary_round_aux prec emax sx mx ex lx <> S754_nan.
Proof.
  intros Hm. unfold binary_round_aux.
  pose proof (shr_fexp_nonneg mx ex lx Hm) as H1.
  destruct (shr_fexp prec emax mx ex lx) as [mrs' e']. cbn [fst] in H1.
  assert (H2 : (0 <= round_nearest_even (shr_m mrs') (loc_of_shr_record mrs'))%Z).
  { unfold round_nearest_even.
    destruct (loc_of_shr_record mrs') as [| []]; try lia.
    destruct (Z.even (shr_m mrs')); lia. }
  pose proof (shr_fexp_nonneg _ e' loc_Exact H2) as H3.
  destruct (shr_fexp prec emax _ e' loc_Exact) as [mrs'' e'']. cbn [fst] in H3.
  destruct (shr_m mrs'') as [| p | p]; [ discriminate | | lia ].
  destruct (e'' <=? emax - prec)%Z; discriminate.
Qed.

Lemma binary_normalize_not_nan m e szero :
  binary_normalize prec emax m e szero <> S754_nan.
Proof.
  unfold binary_normalize, binary_round.
  destruct m as [| p | p]; [ discriminate | | ];
    destruct (shl_align _ _ _) as [mz ez];
    apply binary_round_aux_not_nan; lia.
Qed.


(** A sum is [NaN] only from a [NaN] or from opposite infinities. *)
Lemma add_not_nan (a v : float) :
  is_nan a = false -> is_finite v = true -> is_nan (a + v) = false.
Proof.
  intros Ha Hv. destruct (is_nan (a + v)) eqn:E; [ exfalso | reflexivity ].
  apply Prim2SF_nan in E. rewrite add_spec in E.
  assert (Ha' : Prim2SF a <> S754_nan).
  { intros H. apply Prim2SF_nan in H. congruence. }
  unfold SF64add, SFadd in E.
  destruct (Prim2SF_finite_cases v Hv) as [[sv Hsv] | [sv [mv [ev Hsv]]]];
    rewrite Hsv in E;
    destruct (Prim2SF a) as [sa | sa | | sa ma ea]; try congruence;
    try (destruct sa, sv; discriminate).
  revert E. apply binary_normalize_not_nan.
Qed.

End FloatFacts.

(** ** Cartesian series *)
Module SeriesTheory.
Import JS Schema Synth.
Open Scope float_scope.

Lemma filter_map_swap {A B : Type} (f : A -> B) (p : B -> bool) (l : list A) :
  filter p (map f l) = map f (filter (fun a => p (f a)) l).
Proof.
  induction l as [| a l IH]; cbn [map filter]; [ reflexivity | ].
  destruct (p (f a)); cbn [map]; rewrite IH; reflexivity.
Qed.

(** C4, at the failing input: a row whose y cell is empty ([null]) is
    not dropped from the series of a line, bar, area or scatter chart;
    it is plotted with the value 0. *)
Theorem xyValid_keeps_empty_cell :
  map (fun d => prop d "y") (chartData Samples.gap_rows) = [VNull; VNum 5]
  /\ xyValid (chartData Samples.gap_rows) "x" "y" = [(VNum 1, 0); (VNum 2, 5)]
  /\ option_map data
       (renderPlotlyChart "line" (chartData Samples.gap_rows) "x" "y"
          (geoColumns Samples.gap_rows))
     = Some [Cartesian "scatter" "lines+markers" "" [VNum 1; VNum 2] [0; 5]].
Proof. repeat split. Qed.

(** What the filter of the cartesian series does: it keeps, in order,
    the pairs of the rows whose y value coerces to a finite number.  A
    number is kept when finite; an absent field and a text that is no
    numeric literal are dropped; [null] and the booleans coerce to 0 and
    1 and are kept. *)
Theorem xyValid_characterised (rows : list record) (xAxis yAxis : string) :
  xyValid rows xAxis yAxis
  = map (fun d => (prop d xAxis, ToNumber (prop d yAxis)))
        (filter (fun d => is_finite (ToNumber (prop d yAxis))) rows)
  /\ (forall d, In d rows ->
        is_finite (ToNumber (prop d yAxis)) = false ->
        forall x, ~ In (x, ToNumber (prop d yAxis)) (xyValid rows xAxis yAxis))
  /\ (forall plotType,
        In plotType ["line"; "bar"; "area"; "scatter"] ->
        exists type mode fill layout,
          renderPlotlyChart plotType rows xAxis yAxis (geoColumns rows)
          = Some {| data := [Cartesian type mode fill
                               (map fst (xyValid rows xAxis yAxis))
                               (map snd (xyValid rows xAxis yAxis))];
                    layout := layout |})
  /\ ToNumber VUndefined = nan /\ ToNumber VNull = 0
  /\ ToNumber (VBool true) = 1 /\ ToNumber (VStr "n/a") = nan.
Proof.
  split.
  { unfold xyValid. rewrite filter_map_swap. reflexivity. }
  split.
  { intros d _ Hd x Hin. unfold xyValid in Hin.
    apply filter_In in Hin. destruct Hin as [_ Hfin].
    cbn [snd] in Hfin. unfold Number_isFinite in Hfin. congruence. }
  split.
  { intros plotType Hp. cbn [In] in Hp.
    destruct Hp as [<- | [<- | [<- | [<- | []]]]];
      do 4 eexists; reflexivity. }
  repeat split.
Qed.

End SeriesTheory.

(** ** The geograph descriptor *)
Module GeoTheory.
Import JS Schema Synth View FloatFacts.
Open Scope float_scope.

(** C5, at the failing input: a latitude that reached the rows as text
    (["+40.5"]) passes the geograph filter, and the sum that should give
    the mean concatenates strings, so the center is [NaN] and not the
    mean 41 of the latitudes 40.5 and 41.5. *)
Theorem center_of_text_latitude :
  validGeoData (chartData Samples.signed_geo_rows) "lat" "lon"
  = chartData Samples.signed_geo_rows
  /\ map (fun d => ToNumber (prop d "lat")) (chartData Samples.signed_geo_rows)
     = [40.5; 41.5]
  /\ fold_left plus
       (map (fun d => prop d "lat") (chartData Samples.signed_geo_rows))
       (VNum 0)
     = VStr "0+40.541.5"
  /\ center_lat (geo_mapbox (chartData Samples.signed_geo_rows) "lat" "lon")
     = nan
  /\ center_lon (geo_mapbox (chartData Samples.signed_geo_rows) "lat" "lon")
     = (-73.5).
Proof. vm_compute. repeat split. Qed.

Lemma fold_plus_numbers (xs : list float) : forall acc,
  fold_left plus (map VNum xs) (VNum acc) = VNum (fold_left PrimFloat.add xs acc).
Proof.
  induction xs as [| x xs IH]; intros acc; cbn [map fold_left];
    [ reflexivity | ].
  cbn [plus ToNumber]. apply IH.
Qed.

(** On numbers the center is the mean as binary64 arithmetic computes
    it: the sum from the left, divided by the count. *)
Theorem center_of_numbers (xs : list float) :
  center (map VNum xs)
  = fold_left PrimFloat.add xs 0 / float_of_nat (len xs).
Proof.
  unfold center. rewrite fold_plus_numbers, length_map. reflexivity.
Qed.

(** The zoom level falls as the range grows, with steps at 1, 5, 20
    and 50. *)
Theorem zoom_of_monotone (r1 r2 : float) :
  ((r1 <=? r2) = true -> (zoom_of r2 <= zoom_of r1)%Z)
  /\ zoom_of 0.5 = 8%Z /\ zoom_of 4 = 6%Z /\ zoom_of 10 = 4%Z
  /\ zoom_of 40 = 3%Z /\ zoom_of 100 = 2%Z
  /\ zoom_of 1 = 6%Z /\ zoom_of 5 = 4%Z /\ zoom_of 20 = 3%Z
  /\ zoom_of 50 = 2%Z.
Proof.
  split; [ | repeat split ].
  intros H. unfold zoom_of.
  destruct (r2 <? 1) eqn:A1.
  { rewrite (leb_ltb_trans _ _ _ H A1). lia. }
  destruct (r2 <? 5) eqn:A2.
  { rewrite (leb_ltb_trans _ _ _ H A2). destruct (r1 <? 1); lia. }
  destruct (r2 <? 20) eqn:A3.
  { rewrite (leb_ltb_trans _ _ _ H A3).
    destruct (r1 <? 1), (r1 <? 5); lia. }
  destruct (r2 <? 50) eqn:A4.
  { rewrite (leb_ltb_trans _ _ _ H A4).
    destruct (r1 <? 1), (r1 <? 5), (r1 <? 20); lia. }
  destruct (r1 <? 1), (r1 <? 5), (r1 <? 20), (r1 <? 50); lia.
Qed.

Example geo_mapbox_of_numbers :
  geo_mapbox [ [("lat", VNum 40.5); ("lon", VNum (-74))];
               [("lat", VNum 41.5); ("lon", VNum (-70))] ] "lat" "lon"
  = {| center_lat := 41; center_lon := -72; zoom := 6 |}.
Proof. reflexivity. Qed.

Lemma resolved_Some col : resolved col = true -> exists c, col = Some c.
Proof. destruct col; [ eauto | discriminate ]. Qed.

(** C6, the claim as stated fails: with geo columns resolved by name
    and no row holding coordinates, the chart is still drawn, with one
    series of zero points, and geography is reported available; and a
    latitude that is not finite passes the filter. *)
Lemma geograph_without_coordinates :
  validGeoData (chartData Samples.no_fix_rows) "lat" "lon" = []
  /\ option_map data
       (chart_effect
          (loadData (initial "geograph") (ParseComplete Samples.no_fix_rows [])))
     = Some [ScatterMapbox [] [] []]
  /\ footer_geo_available
       (loadData (initial "geograph") (ParseComplete Samples.no_fix_rows []))
     = true
  /\ placeholder
       (loadData (initial "geograph") (ParseComplete Samples.no_fix_rows []))
     = None
  /\ geo_valid "lat" "lon" [("lat", VStr "Infinity"); ("lon", VNum 0)] = true
  /\ isFinite (VStr "Infinity") = false.
Proof. vm_compute. repeat split. Qed.

(** C6, amended.  For the geograph plot type with both geo columns
    resolved, the series holds exactly the rows, in their order, whose
    latitude and longitude values are both neither [null] nor absent and
    do not coerce to [NaN]; values that are not finite pass.  When a geo
    column is unresolved the descriptor has no data and the effect does
    not draw.  Geography is reported unavailable only when a geo column
    is unresolved, never because no row qualifies: then one series of
    zero points is drawn and geography is reported available. *)
Theorem geograph_series (s : State) (rows : list record) (xAxis yAxis : string)
        (geo : GeoColumns) :
  (geo_available geo = true ->
   exists latCol lonCol layout,
     lat geo = Some latCol /\ lon geo = Some lonCol
     /\ renderPlotlyChart "geograph" rows xAxis yAxis geo
        = Some {| data :=
                    [ScatterMapbox
                       (map (fun d => prop d latCol)
                            (validGeoData rows latCol lonCol))
                       (map (fun d => prop d lonCol)
                            (validGeoData rows latCol lonCol))
                       (map (geo_text latCol lonCol)
                            (validGeoData rows latCol lonCol))];
                  layout := layout |})
  /\ (forall latCol lonCol,
        validGeoData rows latCol lonCol = filter (geo_valid latCol lonCol) rows
        /\ forall d,
             In d (validGeoData rows latCol lonCol) <->
             In d rows
             /\ not_nullish (prop d latCol) = true
             /\ not_nullish (prop d lonCol) = true
             /\ isNaN (prop d latCol) = false
             /\ isNaN (prop d lonCol) = false)
  /\ (geo_available geo = false ->
      option_map data (renderPlotlyChart "geograph" rows xAxis yAxis geo)
      = Some [])
  /\ (plotType s = "geograph" ->
      geo_available (geoColumns (csvData s)) = false ->
      chart_effect s = None /\ footer_geo_available s = false)
  /\ (placeholder s
      = Some "Geographic data not available - need latitude and longitude columns"
      -> plotType s = "geograph"
         /\ geo_available (geoColumns (csvData s)) = false)
  /\ (settings_geo_warning s = true ->
      plotType s = "geograph"
      /\ geo_available (geoColumns (csvData s)) = false)
  /\ (plotType s = "geograph" ->
      geo_available (geoColumns (csvData s)) = true ->
      footer_geo_available s = true /\ placeholder s = None
      /\ settings_geo_warning s = false).
Proof.
  split.
  { intros Hg. pose proof Hg as Hg'. unfold geo_available in Hg'.
    apply andb_true_iff in Hg'. destruct Hg' as [Ha Hb].
    destruct (resolved_Some _ Ha) as [latCol Hlat].
    destruct (resolved_Some _ Hb) as [lonCol Hlon].
    exists latCol, lonCol. eexists. split; [ exact Hlat | ].
    split; [ exact Hlon | ].
    unfold renderPlotlyChart. cbn [String.eqb Ascii.eqb Bool.eqb].
    rewrite Hlat, Hlon, Hg. reflexivity. }
  split.
  { intros latCol lonCol. split; [ reflexivity | ].
    intros d. unfold validGeoData. rewrite filter_In. unfold geo_valid.
    rewrite !andb_true_iff, !negb_true_iff. tauto. }
  split.
  { intros Hg. unfold renderPlotlyChart. cbn [String.eqb Ascii.eqb Bool.eqb].
    rewrite Hg. destruct (lat geo), (lon geo); reflexivity. }
  split.
  { intros Hp Hg. unfold chart_effect, footer_geo_available.
    rewrite Hp, Hg. cbn [String.eqb Ascii.eqb Bool.eqb].
    split; [ | reflexivity ].
    destruct (is_ready s && _); reflexivity. }
  split.
  { unfold placeholder.
    destruct (truthy_string (View.xAxis s) && truthy_string (View.yAxis s));
      cbn [orb]; [ discriminate | ].
    destruct (plotType s =? "geograph")%string eqn:Hp; cbn [andb].
    - apply String.eqb_eq in Hp.
      destruct (geo_available (geoColumns (csvData s)));
        [ discriminate | intros _; split; [ exact Hp | reflexivity ] ].
    - discriminate. }
  split.
  { unfold settings_geo_warning. rewrite !andb_true_iff, negb_true_iff.
    intros [[_ Hp] Hg]. apply String.eqb_eq in Hp. split; assumption. }
  intros Hp Hg. unfold footer_geo_available, placeholder, settings_geo_warning.
  rewrite Hp, Hg. cbn [String.eqb Ascii.eqb Bool.eqb negb andb].
  rewrite orb_true_r, andb_false_r. repeat split.
Qed.

End GeoTheory.

(** ** The pie aggregation *)
Module PieTheory.
Import JS Schema Synth PieSpec ObjectTheory FloatFacts.
Open Scope float_scope.

Lemma distinct_snoc (labels : list string) (l : string) :
  distinct (labels ++ [l])
  = if existsb (String.eqb l) labels then distinct labels
    else distinct labels ++ [l].
Proof.
  induction labels as [| a labels IH]; cbn [app distinct existsb];
    [ reflexivity | ].
  rewrite IH. destruct (l =? a)%string eqn:E; cbn [orb].
  - apply String.eqb_eq in E. subst a.
    destruct (existsb (String.eqb l) labels); [ reflexivity | ].
    rewrite filter_app. cbn [filter]. rewrite String.eqb_refl. cbn [negb].
    rewrite app_nil_r. reflexivity.
  - destruct (existsb (String.eqb l) labels); [ reflexivity | ].
    rewrite filter_app. cbn [filter]. rewrite E. reflexivity.
Qed.

Lemma In_distinct (labels : list string) (l : string) :
  In l (distinct labels) -> In l labels.
Proof.
  induction labels as [| a labels IH]; cbn [distinct In]; [ tauto | ].
  intros [H | H]; [ left; exact H | ].
  apply filter_In in H. right. apply IH, H.
Qed.

Lemma existsb_eqb_In (labels : list string) (l : string) :
  existsb (String.eqb l) labels = true <-> In l labels.
Proof.
  rewrite existsb_exists. split.
  - intros [x [Hx E]]. apply String.eqb_eq in E. subst x. exact Hx.
  - intros H. exists l. split; [ exact H | apply String.eqb_refl ].
Qed.

Lemma group_sum_snoc label pairs l v :
  group_sum label (pairs ++ [(l, v)])
  = if (l =? label)%string then group_sum label pairs + v
    else group_sum label pairs.
Proof.
  unfold group_sum. rewrite filter_app. cbn [filter fst].
  destruct (l =? label)%string.
  - rewrite map_app, fold_left_app. reflexivity.
  - rewrite app_nil_r. reflexivity.
Qed.

Lemma group_sum_absent label pairs :
  existsb (String.eqb label) (map fst pairs) = false ->
  group_sum label pairs = 0.
Proof.
  unfold group_sum. induction pairs as [| [l v] pairs IH];
    cbn [map fst existsb filter]; [ reflexivity | ].
  intros H. apply orb_false_iff in H. destruct H as [H1 H2].
  rewrite String.eqb_sym, H1. apply IH, H2.
Qed.

Lemma or_zero_shape (x : float) :
  is_nan (or_zero x) = false
  /\ (is_zero (or_zero x) && get_sign (or_zero x)) = false
  /\ (is_nan x = true -> or_zero x = 0)
  /\ (is_infinity x = false -> is_finite (or_zero x) = true).
Proof.
  unfold or_zero, truthy_number, is_finite.
  destruct (is_nan x) eqn:Hn, (is_zero x) eqn:Hz; cbn [orb negb];
    repeat split; try reflexivity; try discriminate.
  - exact Hn.
  - rewrite Hz. reflexivity.
  - intros ->. rewrite Hn. reflexivity.
Qed.

(** One row folded into the accumulator. *)
Lemma pie_reducer_step xAxis yAxis pairs acc d :
  pie_invariant pairs acc ->
  inherited (ToString (prop d xAxis)) = false ->
  is_infinity (ToNumber (prop d yAxis)) = false ->
  exists acc',
    pie_reducer xAxis yAxis (Some acc) d = Some acc'
    /\ pie_invariant (pairs ++ [pie_pair xAxis yAxis d]) acc'.
Proof.
  intros [Hwf [Hget [Hkeys Hnan]]] Hinh Hinf.
  unfold pie_reducer, pie_pair. rewrite Hinh.
  set (l := ToString (prop d xAxis)).
  set (v := or_zero (ToNumber (prop d yAxis))).
  destruct (or_zero_shape (ToNumber (prop d yAxis)))
    as [Hv1 [Hv2 [_ Hv3]]]. specialize (Hv3 Hinf). fold v in Hv1, Hv2, Hv3.
  assert (Htotal :
    match get_own acc l with
    | Some total =>
        if truthy_number total
        then Some (set_property acc l (total + v))
        else Some (set_property acc l v)
    | None => Some (set_property acc l v)
    end = Some (set_property acc l (group_sum l pairs + v))).
  { rewrite (Hget l).
    destruct (existsb (String.eqb l) (map fst pairs)) eqn:E.
    - destruct (truthy_number (group_sum l pairs)) eqn:T; [ reflexivity | ].
      unfold truthy_number in T. rewrite (Hnan l) in T. cbn [orb] in T.
      apply negb_false_iff in T. rewrite (add_zero_l _ v T Hv2). reflexivity.
    - rewrite (group_sum_absent l pairs E).
      rewrite (add_zero_l 0 v eq_refl Hv2). reflexivity. }
  rewrite Htotal. eexists. split; [ reflexivity | ].
  split; [ apply wf_set_property, Hwf | ].
  split.
  { intros label. rewrite map_app, existsb_app. cbn [map fst existsb].
    rewrite orb_false_r, group_sum_snoc.
    destruct (String.eqb_spec label l) as [-> | Hne].
    - rewrite get_own_set_same, orb_true_r, String.eqb_refl. reflexivity.
    - rewrite get_own_set_other by exact Hne. rewrite orb_false_r.
      apply not_eq_sym, String.eqb_neq in Hne. rewrite Hne. apply Hget. }
  split.
  { rewrite map_app. cbn [map fst]. rewrite distinct_snoc.
    unfold set_property. specialize (Hget l).
    destruct (existsb (String.eqb l) (map fst pairs)).
    - rewrite Hget, keys_update. exact Hkeys.
    - rewrite Hget. destruct (array_index l) as [i |] eqn:Ei.
      + rewrite (plain_keys_insert _ _ _ _ Ei), filter_app, Hkeys.
        cbn [filter]. unfold plain_key at 3. rewrite Ei, app_nil_r.
        reflexivity.
      + rewrite keys_app, !filter_app, Hkeys. reflexivity. }
  intros label. rewrite group_sum_snoc.
  destruct (l =? label)%string eqn:E; [ | apply Hnan ].
  apply add_not_nan; [ apply Hnan | exact Hv3 ].
Qed.

Lemma pie_invariant_nil : pie_invariant [] [].
Proof.
  repeat split; try reflexivity; constructor.
Qed.

Lemma pieData_invariant xAxis yAxis (rows : list record) :
  Forall (fun d => inherited (ToString (prop d xAxis)) = false) rows ->
  Forall (fun d => is_infinity (ToNumber (prop d yAxis)) = false) rows ->
  exists groups,
    pieData rows xAxis yAxis = Some groups
    /\ pie_invariant (pie_pairs rows xAxis yAxis) groups.
Proof.
  unfold pieData, pie_pairs.
  induction rows as [| d rows IH] using rev_ind; intros Hinh Hinf.
  - exists []. split; [ reflexivity | apply pie_invariant_nil ].
  - apply Forall_app in Hinh. destruct Hinh as [Hinh Hd1].
    apply Forall_app in Hinf. destruct Hinf as [Hinf Hd2].
    inversion Hd1; subst. inversion Hd2; subst.
    destruct (IH Hinh Hinf) as [acc [E Hinv]].
    rewrite fold_left_app, E, map_app. cbn [fold_left map].
    apply pie_reducer_step; assumption.
Qed.

Lemma filter_all {A : Type} (p : A -> bool) (l : list A) :
  (forall a, In a l -> p a = true) -> filter p l = l.
Proof.
  induction l as [| a l IH]; cbn [filter]; intros H; [ reflexivity | ].
  rewrite (H a (or_introl eq_refl)). f_equal. apply IH.
  intros b Hb. apply H. right. exact Hb.
Qed.

(** C3, the claim as stated fails: with the nine labels 9, 8, ..., 1 in
    that order the pie keeps the groups 1 to 8 in ascending order; the
    first 8 labels in first-encountered order are 9 down to 2. *)
Lemma pie_keeps_lowest_indices :
  pieEntries (chartData Samples.countdown_rows) "k" "v"
  = Some [("1", 1); ("2", 1); ("3", 1); ("4", 1);
          ("5", 1); ("6", 1); ("7", 1); ("8", 1)]
  /\ first_seen_entries (chartData Samples.countdown_rows) "k" "v"
     = [("9", 1); ("8", 1); ("7", 1); ("6", 1);
        ("5", 1); ("4", 1); ("3", 1); ("2", 1)].
Proof. vm_compute. split; reflexivity. Qed.

(** C3, amended.  Pie synthesis groups the rows by the string form of
    their x value and adds up, per group and in row order, the y values
    coerced to numbers, a y value that coerces to [NaN] counting as 0
    and no row being filtered out.  The groups are listed in the own
    property order of a JavaScript object: the labels that are array
    indices first, in ascending numeric order, then the other labels in
    first-encountered order; the first 8 of that list are kept and the
    later ones discarded.  When no label is an array index this is
    first-encountered order, so the x values [A, A, B, C, C, C] with the
    y values [1 .. 6] give [A: 3, B: 3, C: 15].  (Stated for labels that
    name no member of [Object.prototype] and y values that do not coerce
    to an infinity.) *)
Theorem pie_groups_in_key_order
        (rows : list record) (xAxis yAxis : string) :
  Forall (fun d => inherited (ToString (prop d xAxis)) = false) rows ->
  Forall (fun d => is_infinity (ToNumber (prop d yAxis)) = false) rows ->
  exists groups,
    pieData rows xAxis yAxis = Some groups
    /\ pieEntries rows xAxis yAxis = Some (firstn 8 groups)
    /\ (forall label,
          get_own groups label
          = if existsb (String.eqb label) (map fst (pie_pairs rows xAxis yAxis))
            then Some (group_sum label (pie_pairs rows xAxis yAxis)) else None)
    /\ wf_object groups
    /\ filter plain_key (keys groups)
       = filter plain_key (distinct (map fst (pie_pairs rows xAxis yAxis)))
    /\ (Forall (fun d => array_index (ToString (prop d xAxis)) = None) rows ->
        groups = pie_groups (pie_pairs rows xAxis yAxis)
        /\ pieEntries rows xAxis yAxis = Some (first_seen_entries rows xAxis yAxis))
    /\ (forall d, isNaN (prop d yAxis) = true -> snd (pie_pair xAxis yAxis d) = 0)
    /\ pieEntries (chartData Samples.letters_rows) "k" "v"
       = Some [("A", 3); ("B", 3); ("C", 15)].
Proof.
  intros Hinh Hinf.
  destruct (pieData_invariant xAxis yAxis rows Hinh Hinf)
    as [groups [E [Hwf [Hget [Hkeys Hnan]]]]].
  exists groups. split; [ exact E | ].
  assert (Hentries : pieEntries rows xAxis yAxis = Some (firstn 8 groups)).
  { unfold pieEntries. rewrite E. reflexivity. }
  split; [ exact Hentries | ].
  split; [ exact Hget | ].
  split; [ exact Hwf | ].
  split; [ exact Hkeys | ].
  split.
  { intros Hplain.
    assert (Hlabels : forall l, In l (map fst (pie_pairs rows xAxis yAxis)) ->
                                plain_key l = true).
    { intros l Hl. unfold pie_pairs in Hl. rewrite map_map in Hl.
      apply in_map_iff in Hl. destruct Hl as [d [<- Hd]].
      rewrite Forall_forall in Hplain. unfold plain_key. cbn [pie_pair fst].
      rewrite (Hplain d Hd). reflexivity. }
    assert (Hin : forall k, In k (keys groups) ->
                            In k (map fst (pie_pairs rows xAxis yAxis))).
    { intros k Hk. apply get_own_In in Hk. rewrite (Hget k) in Hk.
      apply existsb_eqb_In.
      destruct (existsb _ _); [ reflexivity | congruence ]. }
    assert (Hk : keys groups = distinct (map fst (pie_pairs rows xAxis yAxis))).
    { rewrite <- (filter_all plain_key (keys groups)).
      - rewrite Hkeys. apply filter_all.
        intros l Hl. apply Hlabels, In_distinct, Hl.
      - intros k Hk. apply Hlabels, Hin, Hk. }
    assert (Hg : groups = pie_groups (pie_pairs rows xAxis yAxis)).
    { unfold pie_groups. rewrite <- Hk.
      apply object_from_lookup; [ apply Hwf | ].
      intros k Hk'. rewrite (Hget k).
      apply Hin, existsb_eqb_In in Hk'. rewrite Hk'. reflexivity. }
    split; [ exact Hg | ].
    rewrite Hentries. unfold first_seen_entries. rewrite <- Hg. reflexivity. }
  split.
  { intros d Hd. cbn [pie_pair snd]. apply or_zero_shape. exact Hd. }
  vm_compute. reflexivity.
Qed.

Lemma pie_groups_in_key_order_witness :
  Forall (fun d => inherited (ToString (prop d "k")) = false)
         (chartData Samples.letters_rows)
  /\ Forall (fun d => is_infinity (ToNumber (prop d "v")) = false)
            (chartData Samples.letters_rows)
  /\ exists groups,
       pieData (chartData Samples.letters_rows) "k" "v" = Some groups
       /\ pieEntries (chartData Samples.letters_rows) "k" "v"
          = Some (firstn 8 groups)
       /\ (forall label,
             get_own groups label
             = if existsb (String.eqb label)
                    (map fst (pie_pairs (chartData Samples.letters_rows) "k" "v"))
               then Some (group_sum label
                            (pie_pairs (chartData Samples.letters_rows) "k" "v"))
               else None)
       /\ wf_object groups
       /\ filter plain_key (keys groups)
          = filter plain_key
              (distinct
                 (map fst (pie_pairs (chartData Samples.letters_rows) "k" "v")))
       /\ (Forall (fun d => array_index (ToString (prop d "k")) = None)
                  (chartData Samples.letters_rows) ->
           groups = pie_groups (pie_pairs (chartData Samples.letters_rows) "k" "v")
           /\ pieEntries (chartData Samples.letters_rows) "k" "v"
              = Some (first_seen_entries (chartData Samples.letters_rows) "k" "v"))
       /\ (forall d, isNaN (prop d "v") = true -> snd (pie_pair "k" "v" d) = 0)
       /\ pieEntries (chartData Samples.letters_rows) "k" "v"
          = Some [("A", 3); ("B", 3); ("C", 15)].
Proof.
  assert (H1 : Forall (fun d => inherited (ToString (prop d "k")) = false)
                      (chartData Samples.letters_rows))
    by (repeat constructor).
  assert (H2 : Forall (fun d => is_infinity (ToNumber (prop d "v")) = false)
                      (chartData Samples.letters_rows))
    by (repeat constructor).
  split; [ exact H1 | ].
  split; [ exact H2 | ].
  exact (pie_groups_in_key_order (chartData Samples.letters_rows) "k" "v" H1 H2).
Defined.

(** Labels that are array indices come first, in ascending order, ahead
    of labels seen earlier. *)
Example pie_mixed_labels :
  pieEntries
    [ [("k", VStr "north"); ("v", VNum 1)]; [("k", VNum 10); ("v", VNum 2)];
      [("k", VNum 2); ("v", VNum 3)]; [("k", VStr "north"); ("v", VStr "n/a")];
      [("k", VNum 2.5); ("v", VNum 4)]; [("k", VNum 10); ("v", VNull)] ]
    "k" "v"
  = Some [("2", 3); ("10", 2); ("north", 1); ("2.5", 4)].
Proof. vm_compute. reflexivity. Qed.

(** A label naming a member of [Object.prototype] is outside the
    model. *)
Example pie_inherited_label :
  pieData [ [("k", VStr "constructor"); ("v", VNum 1)] ] "k" "v" = None.
Proof. reflexivity. Qed.

End PieTheory.

(** ** More on the sampler *)
Module SamplerBounds.
Import Sampler SamplerSpec SamplerTheory.

Lemma at_indices_In (A : Type) (D : list A) (indices : list nat) (x : A) :
  In x (at_indices D indices) -> In x D.
Proof.
  unfold at_indices. rewrite in_flat_map. intros [i [_ Hx]].
  destruct (nth_error D i) as [y |] eqn:E; [ | destruct Hx ].
  destruct Hx as [<- | []]. apply (nth_error_In D i E).
Qed.

Lemma stride_count_le n step : 0 < step -> stride_count n step <= n.
Proof.
  intros Hs. unfold stride_count.
  apply Nat.lt_succ_r, Nat.Div0.div_lt_upper_bound. nia.
Qed.

Lemma stride_count_ge n step m :
  0 < step -> step * m <= n -> 0 < n -> m <= stride_count n step.
Proof.
  intros Hs Hm Hn. unfold stride_count.
  apply Nat.div_le_lower_bound; lia.
Qed.

Lemma at_indices_length (A : Type) (D : list A) (indices : list nat) :
  Forall (fun i => i < len D) indices ->
  len (at_indices D indices) = len indices.
Proof.
  intros H. apply (picks_length D), picks_at_indices, H.
Qed.

Lemma picks_unique (A : Type) (D out1 out2 : list A) (indices : list nat) :
  picks D out1 indices -> picks D out2 indices -> out1 = out2.
Proof.
  unfold picks. intros H1. revert out2.
  induction H1 as [| x i out1 indices Hx _ IH]; intros out2 H2;
    inversion H2; subst; [ reflexivity | ].
  f_equal; [ congruence | apply IH; assumption ].
Qed.

Lemma sampleData_bound (A : Type) (D : list A) (maxPoints : nat) :
  exists out, sampleData D maxPoints = Some out /\ len out <= maxPoints.
Proof.
  destruct (le_lt_dec (len D) maxPoints) as [Hle | Hgt].
  - exists D. split; [ apply sampleData_small, Hle | exact Hle ].
  - destruct maxPoints as [| m].
    + exists []. split; [ | cbn; lia ].
      unfold sampleData. destruct (len D <=? 0) eqn:E; [ | reflexivity ].
      apply Nat.leb_le in E. lia.
    + eexists. split; [ apply sampleData_large; lia | apply firstn_le_length ].
Qed.

(** The sampler always returns, never returns more records than it got
    and never a record that is not in the input; for an empty input, and
    for the bound 0, the result is empty. *)
Theorem sampleData_never_invents (A : Type) (D : list A) (maxPoints : nat) :
  exists out,
    sampleData D maxPoints = Some out
    /\ len out <= len D
    /\ incl out D
    /\ (D = [] -> out = [])
    /\ (maxPoints = 0 -> out = []).
Proof.
  destruct (le_lt_dec (len D) maxPoints) as [Hle | Hgt].
  - exists D. split; [ apply sampleData_small, Hle | ].
    split; [ lia | ]. split; [ apply incl_refl | ].
    split; [ auto | ]. intros ->. destruct D; [ reflexivity | cbn in Hle; lia ].
  - destruct maxPoints as [| m].
    + exists []. split.
      { unfold sampleData. destruct (len D <=? 0) eqn:E; [ | reflexivity ].
        apply Nat.leb_le in E. lia. }
      split; [ cbn; lia | ]. split; [ intros x [] | auto ].
    + assert (Hstep : 0 < len D / S m) by (apply Nat.div_str_pos; lia).
      eexists. split; [ apply sampleData_large; lia | ].
      split.
      { rewrite length_firstn. etransitivity; [ apply Nat.le_min_r | ].
        rewrite at_indices_length by (apply stride_indices_in_range, Hstep).
        unfold stride_indices. rewrite length_map, length_seq.
        apply stride_count_le, Hstep. }
      split.
      { intros x Hx. apply (at_indices_In A D (stride_indices (len D) (len D / S m))).
        rewrite <- (firstn_skipn (S m)). apply in_or_app. left. exact Hx. }
      split; [ intros ->; cbn in Hgt; lia | discriminate ].
Qed.

Lemma picks_nth (A : Type) (D out : list A) (indices : list nat) :
  picks D out indices ->
  forall k i, nth_error indices k = Some i -> nth_error out k = nth_error D i.
Proof.
  unfold picks. induction 1 as [| x j out indices Hx _ IH]; intros [| k] i Hk;
    cbn [nth_error] in *; try discriminate.
  - injection Hk as <-. symmetry. exact Hx.
  - apply IH, Hk.
Qed.

Lemma at_indices_all (A : Type) (D : list A) :
  at_indices D (stride_indices (len D) 1) = D.
Proof.
  apply (picks_unique A D _ _ (seq 0 (len D))); [ | apply picks_all ].
  replace (seq 0 (len D)) with (stride_indices (len D) 1).
  - apply picks_at_indices, stride_indices_in_range. lia.
  - unfold stride_indices, stride_count.
    replace (len D + 1 - 1) with (len D) by lia. rewrite Nat.div_1_r.
    rewrite <- (map_id (seq 0 (len D))) at 2. apply map_ext. intros k. lia.
Qed.

(** Above the bound the sample has exactly [maxPoints] records, the
    record at position [k] being the input record at index
    [k * stride]; nothing beyond index [(maxPoints - 1) * stride] is
    ever taken.  In particular an input of fewer than twice the bound
    has stride 1 and the sample is its first [maxPoints] records. *)
Theorem sample_size_exact (A : Type) (D : list A) (maxPoints : nat) :
  0 < maxPoints -> maxPoints < len D ->
  exists out,
    sampleData D maxPoints = Some out
    /\ len out = maxPoints
    /\ (forall k, k < maxPoints ->
          nth_error out k = nth_error D (k * (len D / maxPoints)))
    /\ (len D < 2 * maxPoints -> out = firstn maxPoints D).
Proof.
  intros Hm Hgt.
  set (stride := len D / maxPoints).
  assert (Hstride : 0 < stride) by (apply Nat.div_str_pos; lia).
  assert (Hcount : maxPoints <= stride_count (len D) stride).
  { apply stride_count_ge; [ exact Hstride | | lia ].
    subst stride. rewrite Nat.mul_comm. apply Nat.Div0.mul_div_le. }
  assert (Hpicks : picks D (firstn maxPoints
                              (at_indices D (stride_indices (len D) stride)))
                         (firstn maxPoints (stride_indices (len D) stride))).
  { apply picks_firstn, picks_at_indices, stride_indices_in_range, Hstride. }
  eexists. split; [ apply sampleData_large; assumption | ]. fold stride.
  split.
  { rewrite (picks_length _ _ _ Hpicks), length_firstn.
    unfold stride_indices. rewrite length_map, length_seq. lia. }
  split.
  { intros k Hk. apply (picks_nth _ _ _ _ Hpicks).
    rewrite nth_error_firstn.
    destruct (k <? maxPoints) eqn:E; [ | apply Nat.ltb_ge in E; lia ].
    unfold stride_indices. rewrite nth_error_map, nth_error_seq.
    destruct (k <? stride_count (len D) stride) eqn:E';
      [ reflexivity | apply Nat.ltb_ge in E'; lia ]. }
  intros H2.
  assert (Hs1 : stride = 1).
  { subst stride. symmetry.
    apply (Nat.div_unique (len D) maxPoints 1 (len D - maxPoints)); lia. }
  rewrite Hs1, at_indices_all. reflexivity.
Qed.

Lemma sample_size_exact_witness :
  0 < 2 /\ 2 < len [10; 11; 12] /\
  exists out,
    sampleData [10; 11; 12] 2 = Some out
    /\ len out = 2
    /\ (forall k, k < 2 ->
          nth_error out k = nth_error [10; 11; 12] (k * (len [10; 11; 12] / 2)))
    /\ (len [10; 11; 12] < 2 * 2 -> out = firstn 2 [10; 11; 12]).
Proof.
  split; [ lia | ]. split; [ cbn; lia | ].
  apply (sample_size_exact nat [10; 11; 12] 2); cbn; lia.
Defined.

End SamplerBounds.

(** ** More on the view-state machine *)
Module ViewExtras.
Import JS Schema Synth View ViewSpec.

(** Sampling leaves the schema alone: the numeric and the geographic
    columns of the sample are those of the input, and the sample is
    empty only for an empty input. *)
Theorem sampling_keeps_schema (rows : list record) (maxPoints : nat) :
  0 < maxPoints ->
  exists sampled,
    Sampler.sampleData rows maxPoints = Some sampled
    /\ numericColumns sampled = numericColumns rows
    /\ geoColumns sampled = geoColumns rows
    /\ (sampled = [] <-> rows = []).
Proof.
  intros Hm.
  destruct (SamplerTheory.sampleData_head _ rows maxPoints Hm) as [out [E Hhd]].
  exists out. split; [ exact E | ].
  destruct rows as [| r rows], out as [| r' out]; try discriminate.
  - repeat split; reflexivity.
  - injection Hhd as ->. repeat split; discriminate.
Qed.

Lemma sampling_keeps_schema_witness :
  0 < 1 /\
  exists sampled,
    Sampler.sampleData Samples.sales_rows 1 = Some sampled
    /\ numericColumns sampled = numericColumns Samples.sales_rows
    /\ geoColumns sampled = geoColumns Samples.sales_rows
    /\ (sampled = [] <-> Samples.sales_rows = []).
Proof.
  split; [ lia | apply (sampling_keeps_schema Samples.sales_rows 1); lia ].
Defined.

Lemma loadData_csvData_bound s o :
  len (csvData s) <= Sampler.MAX_POINTS ->
  len (csvData (loadData s o)) <= Sampler.MAX_POINTS.
Proof.
  intros Hs. unfold loadData. destruct (fetchCSVData o) as [err | rows];
    [ exact Hs | ].
  destruct (SamplerBounds.sampleData_bound _ rows Sampler.MAX_POINTS)
    as [out [-> Hout]].
  cbn [setLoading csvData].
  destruct (ViewTheory.seed_axes_frame s (setCsvData (fetch_start s) out) out)
    as [_ [-> _]].
  exact Hout.
Qed.

Lemma handleRefresh_csvData_bound s o :
  len (csvData s) <= Sampler.MAX_POINTS ->
  len (csvData (handleRefresh s o)) <= Sampler.MAX_POINTS.
Proof.
  intros Hs. unfold handleRefresh. destruct (fetchCSVData o) as [err | rows];
    [ exact Hs | ].
  destruct (SamplerBounds.sampleData_bound _ rows Sampler.MAX_POINTS)
    as [out [-> Hout]].
  exact Hout.
Qed.

Lemma handleRefresh_plotType s o : plotType (handleRefresh s o) = plotType s.
Proof.
  unfold handleRefresh. destruct (fetchCSVData o) as [err | rows];
    [ reflexivity | ].
  destruct (Sampler.sampleData rows Sampler.MAX_POINTS); reflexivity.
Qed.

Lemma loadData_plotType s o : plotType (loadData s o) = plotType s.
Proof.
  unfold loadData. destruct (fetchCSVData o) as [err | rows];
    [ reflexivity | ].
  destruct (Sampler.sampleData rows Sampler.MAX_POINTS) as [out |];
    [ | reflexivity ].
  cbn [setLoading plotType].
  destruct (ViewTheory.seed_axes_frame s (setCsvData (fetch_start s) out) out)
    as [-> _].
  reflexivity.
Qed.

Lemma ready_inv s :
  is_ready s = true ->
  phase s = Ready /\ loading s = false /\ error_shown s = None
  /\ csvData s <> [].
Proof.
  unfold is_ready, phase.
  destruct (loading s); [ discriminate | ].
  destruct (error_shown s); [ discriminate | ].
  destruct (csvData s) as [| d rest]; [ discriminate | ].
  cbn [Datatypes.length Nat.eqb].
  destruct (_ && _); [ discriminate | ].
  intros _. repeat split. discriminate.
Qed.

Lemma step_has_refresh s s' : step s s' -> has_refresh (phase s) = true.
Proof.
  assert (R : forall s0, is_ready s0 = true -> has_refresh (phase s0) = true).
  { intros s0 H. destruct (ready_inv s0 H) as [-> _]. reflexivity. }
  destruct 1; auto.
Qed.

(** The size of the dataset and the plot type are kept in bounds.  In
    every state the component settles in (after the initial load, after
    a refresh, after a user action), and in the state it shows while the
    fetch of a refresh from there is pending, the dataset holds at most
    2000 records and the plot type is the initial one or one of the
    seven offered. *)
Theorem reachable_invariants (initialPlotType : string) (s : State) :
  reachable initialPlotType s ->
  forall s',
    s' = s \/ s' = fetch_start (setLoading s true) ->
    len (csvData s') <= 2000
    /\ (plotType s' = initialPlotType \/ In (plotType s') CHART_TYPES).
Proof.
  intros Hreach.
  assert (Hs : len (csvData s) <= Sampler.MAX_POINTS
               /\ (plotType s = initialPlotType
                   \/ In (plotType s) CHART_TYPES)).
  { induction Hreach as [o | s s' _ [Hd Hp] Hstep].
    - split; [ apply loadData_csvData_bound; cbn; lia | ].
      left. apply loadData_plotType.
    - destruct Hstep as [s o _ | s v _ Hv | s v _ _ _ | s v _ _ _
                         | s _ | s _ | s b _ | s _ _];
        try (split; assumption).
      + split; [ apply handleRefresh_csvData_bound, Hd | ].
        rewrite handleRefresh_plotType. exact Hp.
      + split; [ exact Hd | ]. right. exact Hv. }
  intros s' [-> | ->]; exact Hs.
Qed.

Lemma reachable_invariants_witness :
  reachable "line"
    (loadData (initial "line") (ParseComplete Samples.sales_rows []))
  /\ len (csvData
            (fetch_start
               (setLoading
                  (loadData (initial "line")
                     (ParseComplete Samples.sales_rows [])) true))) <= 2000
  /\ (plotType
        (fetch_start
           (setLoading
              (loadData (initial "line")
                 (ParseComplete Samples.sales_rows [])) true)) = "line"
      \/ In (plotType
               (fetch_start
                  (setLoading
                     (loadData (initial "line")
                        (ParseComplete Samples.sales_rows [])) true)))
            CHART_TYPES).
Proof.
  split; [ apply reach_mount | ].
  apply (reachable_invariants "line"
           (loadData (initial "line") (ParseComplete Samples.sales_rows [])));
    [ apply reach_mount | right; reflexivity ].
Defined.

(** A dataset without numeric columns is shown only as a geograph:
    choosing any other chart type there leads to the no-numeric-data
    screen, which offers no transition at all, not even back. *)
Theorem leaving_geograph_is_final (s : State) (v : string) :
  is_ready s = true -> numericColumns (csvData s) = [] ->
  In v CHART_TYPES -> v <> "geograph" ->
  plotType s = "geograph"
  /\ step s (setPlotType s v)
  /\ phase (setPlotType s v) = NoNumericData
  /\ forall s', ~ step (setPlotType s v) s'.
Proof.
  intros Hr Hn Hv Hg.
  assert (Hphase : phase (setPlotType s v) = NoNumericData).
  { destruct (ready_inv s Hr) as [_ [Hl [He Hd]]].
    unfold phase, error_shown in *. cbn [setPlotType loading error csvData plotType].
    rewrite Hl. destruct (error s) as [m |].
    - destruct (truthy_string m); [ discriminate | ].
      destruct (csvData s); [ congruence | ]. rewrite Hn.
      apply String.eqb_neq in Hg. cbn. rewrite Hg. reflexivity.
    - destruct (csvData s); [ congruence | ]. rewrite Hn.
      apply String.eqb_neq in Hg. cbn. rewrite Hg. reflexivity. }
  split.
  { pose proof Hr as Hr'. unfold is_ready, phase in Hr'.
    destruct (loading s); [ discriminate | ].
    destruct (error_shown s); [ discriminate | ].
    destruct (len (csvData s) =? 0); [ discriminate | ].
    rewrite Hn in Hr'. cbn [Datatypes.length Nat.eqb andb] in Hr'.
    destruct (plotType s =? "geograph")%string eqn:E; [ | discriminate ].
    apply String.eqb_eq, E. }
  split; [ apply step_plot_type; assumption | ].
  split; [ exact Hphase | ].
  intros s' Hstep. apply step_has_refresh in Hstep.
  rewrite Hphase in Hstep. discriminate.
Qed.

Lemma leaving_geograph_is_final_witness :
  is_ready (loadData (initial "geograph")
              (ParseComplete MoreSamples.names_rows [])) = true
  /\ numericColumns
       (csvData (loadData (initial "geograph")
                   (ParseComplete MoreSamples.names_rows []))) = []
  /\ In "bar" CHART_TYPES /\ "bar" <> "geograph"
  /\ plotType (loadData (initial "geograph")
                 (ParseComplete MoreSamples.names_rows [])) = "geograph"
  /\ step (loadData (initial "geograph")
             (ParseComplete MoreSamples.names_rows []))
          (setPlotType (loadData (initial "geograph")
                          (ParseComplete MoreSamples.names_rows [])) "bar")
  /\ phase (setPlotType (loadData (initial "geograph")
                           (ParseComplete MoreSamples.names_rows [])) "bar")
     = NoNumericData
  /\ forall s',
       ~ step (setPlotType (loadData (initial "geograph")
                              (ParseComplete MoreSamples.names_rows [])) "bar")
              s'.
Proof.
  assert (H1 : is_ready (loadData (initial "geograph")
                 (ParseComplete MoreSamples.names_rows [])) = true)
    by reflexivity.
  assert (H2 : numericColumns
                 (csvData (loadData (initial "geograph")
                             (ParseComplete MoreSamples.names_rows []))) = [])
    by reflexivity.
  assert (H3 : In "bar" CHART_TYPES) by (right; left; reflexivity).
  assert (H4 : "bar" <> "geograph") by discriminate.
  split; [ exact H1 | ]. split; [ exact H2 | ].
  split; [ exact H3 | ]. split; [ exact H4 | ].
  exact (leaving_geograph_is_final _ "bar" H1 H2 H3 H4).
Defined.

(** Refreshing twice with the same outcome is the same as refreshing
    once; a refresh that fails keeps the dataset, the axes, the plot
    type and the three flags; one that delivers rows clears the error
    and leaves no trace of any refresh before it. *)
Theorem handleRefresh_idempotent (s : State) (o : Outcome) :
  handleRefresh (handleRefresh s o) o = handleRefresh s o
  /\ (forall err, fetchCSVData o = inl err ->
        csvData (handleRefresh s o) = csvData s
        /\ xAxis (handleRefresh s o) = xAxis s
        /\ yAxis (handleRefresh s o) = yAxis s
        /\ plotType (handleRefresh s o) = plotType s
        /\ isFullscreen (handleRefresh s o) = isFullscreen s
        /\ showSettings (handleRefresh s o) = showSettings s
        /\ isZoomedIn (handleRefresh s o) = isZoomedIn s)
  /\ (forall rows, fetchCSVData o = inr rows ->
        error (handleRefresh s o) = None
        /\ forall o', handleRefresh (handleRefresh s o') o = handleRefresh s o).
Proof.
  split.
  { unfold handleRefresh. destruct (fetchCSVData o) as [err | rows];
      [ reflexivity | ].
    destruct (Sampler.sampleData rows Sampler.MAX_POINTS); reflexivity. }
  split.
  { intros err E. unfold handleRefresh. rewrite E. repeat split. }
  intros rows E. unfold handleRefresh. rewrite E.
  destruct (SamplerBounds.sampleData_bound _ rows Sampler.MAX_POINTS)
    as [out [Hout _]].
  rewrite Hout. split; [ reflexivity | ].
  intros o'. destruct (fetchCSVData o') as [err' | rows']; [ reflexivity | ].
  destruct (Sampler.sampleData rows' Sampler.MAX_POINTS); reflexivity.
Qed.

(** When the initial load fails, no later refresh seeds the axes: after
    a retry, whatever it delivers, both axes are still unset, so for a
    plot type other than geograph no chart is drawn and the ready screen
    asks for the axes. *)
Theorem retry_never_seeds_axes
        (initialPlotType : string) (o1 o2 : Outcome) (err : Thrown) :
  fetchCSVData o1 = inl err ->
  xAxis (handleRefresh (loadData (initial initialPlotType) o1) o2) = ""
  /\ yAxis (handleRefresh (loadData (initial initialPlotType) o1) o2) = ""
  /\ (initialPlotType <> "geograph" ->
      chart_effect (handleRefresh (loadData (initial initialPlotType) o1) o2)
      = None
      /\ placeholder (handleRefresh (loadData (initial initialPlotType) o1) o2)
         = Some "Please select both X and Y axes to display the chart").
Proof.
  intros E.
  assert (Hload : loadData (initial initialPlotType) o1
                  = setLoading
                      (setError (fetch_start (initial initialPlotType))
                         (Some (message_of err "Failed to load CSV data")))
                      false).
  { unfold loadData. rewrite E. reflexivity. }
  rewrite Hload.
  destruct (AxesTheory.handleRefresh_axes
              (setLoading
                 (setError (fetch_start (initial initialPlotType))
                    (Some (message_of err "Failed to load CSV data"))) false) o2)
    as [Hx Hy].
  split; [ rewrite Hx; reflexivity | ].
  split; [ rewrite Hy; reflexivity | ].
  intros Hg. apply String.eqb_neq in Hg.
  unfold chart_effect, placeholder.
  rewrite Hx, Hy, handleRefresh_plotType.
  cbn [setLoading setError fetch_start initial plotType xAxis yAxis
       truthy_string String.eqb negb andb orb].
  rewrite Hg. split; [ | reflexivity ].
  destruct (is_ready _ && _); reflexivity.
Qed.

Lemma retry_never_seeds_axes_witness :
  fetchCSVData (NotOk 503) = inl (ErrorObject "HTTP error! status: 503")
  /\ xAxis (handleRefresh (loadData (initial "line") (NotOk 503))
              (ParseComplete Samples.sales_rows [])) = ""
  /\ yAxis (handleRefresh (loadData (initial "line") (NotOk 503))
              (ParseComplete Samples.sales_rows [])) = ""
  /\ ("line" <> "geograph" ->
      chart_effect (handleRefresh (loadData (initial "line") (NotOk 503))
                      (ParseComplete Samples.sales_rows []))
      = None
      /\ placeholder (handleRefresh (loadData (initial "line") (NotOk 503))
                        (ParseComplete Samples.sales_rows []))
         = Some "Please select both X and Y axes to display the chart").
Proof.
  assert (H : fetchCSVData (NotOk 503)
              = inl (ErrorObject "HTTP error! status: 503"))
    by (vm_compute; reflexivity).
  split; [ exact H | ].
  exact (retry_never_seeds_axes "line" (NotOk 503)
           (ParseComplete Samples.sales_rows []) _ H).
Defined.




End ViewExtras.

(** ** The shape of a descriptor *)
Module DescriptorShape.
Import JS Schema Synth Measures ObjectTheory.
Open Scope float_scope.

Section Sizes.
Context {V : Type}.
Implicit Types (o : object V) (k : string) (v : V).

Lemma length_update o k v : len (update o k v) = len o.
Proof.
  induction o as [| [k' v'] o IH]; cbn [update Datatypes.length];
    [ reflexivity | ].
  destruct (k' =? k)%string; cbn [Datatypes.length]; congruence.
Qed.

Lemma length_insert_index o i k v : len (insert_index o i k v) = S (len o).
Proof.
  induction o as [| [k' v'] o IH]; cbn [insert_index Datatypes.length];
    [ reflexivity | ].
  destruct (array_index k') as [j |]; [ | reflexivity ].
  destruct (j <? i)%Z; cbn [Datatypes.length]; congruence.
Qed.

Lemma length_set_property o k v : len (set_property o k v) <= S (len o).
Proof.
  unfold set_property. destruct (get_own o k).
  - rewrite length_update. lia.
  - destruct (array_index k).
    + rewrite length_insert_index. lia.
    + rewrite length_app. cbn. lia.
Qed.

Lemma keys_set_property o k v k' :
  In k' (keys (set_property o k v)) -> k' = k \/ In k' (keys o).
Proof.
  intros H. destruct (String.eqb_spec k' k) as [-> | Hne]; [ left; reflexivity | ].
  right. apply get_own_In. apply get_own_In in H.
  rewrite get_own_set_other in H by exact Hne. exact H.
Qed.
End Sizes.

Lemma NoDup_firstn {A : Type} (n : nat) (l : list A) :
  NoDup l -> NoDup (firstn n l).
Proof.
  intros H. rewrite <- (firstn_skipn n l) in H.
  apply (NoDup_app_remove_r _ _ H).
Qed.

Lemma pie_reducer_Some xAxis yAxis acc d o :
  pie_reducer xAxis yAxis acc d = Some o ->
  exists acc0 v,
    acc = Some acc0
    /\ inherited (ToString (prop d xAxis)) = false
    /\ o = set_property acc0 (ToString (prop d xAxis)) v.
Proof.
  unfold pie_reducer. destruct acc as [acc0 |]; [ | discriminate ].
  destruct (inherited (ToString (prop d xAxis))); [ discriminate | ].
  destruct (get_own acc0 (ToString (prop d xAxis))) as [total |].
  - destruct (truthy_number total); intros H; injection H as <-; eauto.
  - intros H; injection H as <-; eauto.
Qed.

Lemma pieData_shape xAxis yAxis (rows : list record) : forall o,
  pieData rows xAxis yAxis = Some o ->
  wf_object o
  /\ len o <= len rows
  /\ forall k, In k (keys o) ->
       inherited k = false
       /\ exists d, In d rows /\ k = ToString (prop d xAxis).
Proof.
  unfold pieData. induction rows as [| d rows IH] using rev_ind; intros o.
  - cbn [fold_left]. intros H. injection H as <-.
    split; [ split; constructor | ]. split; [ cbn; lia | intros k [] ].
  - rewrite fold_left_app. cbn [fold_left]. intros H.
    apply pie_reducer_Some in H. destruct H as [acc [v [E [Hinh ->]]]].
    destruct (IH acc E) as [Hwf [Hlen Hkeys]].
    split; [ apply wf_set_property, Hwf | ].
    split.
    { rewrite length_app. cbn [Datatypes.length].
      pose proof (length_set_property acc (ToString (prop d xAxis)) v). lia. }
    intros k Hk. apply keys_set_property in Hk. destruct Hk as [-> | Hk].
    + split; [ exact Hinh | ]. exists d. split; [ | reflexivity ].
      apply in_or_app. right. left. reflexivity.
    + destruct (Hkeys k Hk) as [Hi [d' [Hd' ->]]].
      split; [ exact Hi | ]. exists d'. split; [ | reflexivity ].
      apply in_or_app. left. exact Hd'.
Qed.

(** The reducer gives a result for every row whose label names no
    member of [Object.prototype]. *)
Lemma pieData_produced xAxis yAxis (rows : list record) :
  Forall (fun d => inherited (ToString (prop d xAxis)) = false) rows ->
  exists o, pieData rows xAxis yAxis = Some o.
Proof.
  unfold pieData. induction rows as [| d rows IH] using rev_ind; intros H.
  - exists []. reflexivity.
  - apply Forall_app in H. destruct H as [Hrows Hd].
    inversion Hd as [| d' l' Hinh _]; subst.
    destruct (IH Hrows) as [acc E].
    rewrite fold_left_app, E. cbn [fold_left]. unfold pie_reducer.
    rewrite Hinh.
    destruct (get_own acc (ToString (prop d xAxis))) as [total |];
      [ destruct (truthy_number total) | ]; eexists; reflexivity.
Qed.

Lemma no_inherited_check xAxis (rows : list record) :
  forallb (fun d => negb (inherited (ToString (prop d xAxis)))) rows = true ->
  Forall (fun d => inherited (ToString (prop d xAxis)) = false) rows.
Proof.
  intros H. apply Forall_forall. intros d Hd.
  rewrite forallb_forall in H. apply negb_true_iff, H, Hd.
Qed.

Lemma pieEntries_shape (rows : list record) (xAxis yAxis : string)
      (es : list (string * float)) :
  pieEntries rows xAxis yAxis = Some es ->
  len es <= 8 /\ len es <= len rows
  /\ NoDup (map fst es)
  /\ forall label value, In (label, value) es ->
       exists d, In d rows /\ label = ToString (prop d xAxis).
Proof.
  unfold pieEntries. destruct (pieData rows xAxis yAxis) as [o |] eqn:E;
    [ | discriminate ].
  intros H.
  assert (Hes : es = firstn 8 o) by (injection H as H; symmetry; exact H).
  clear H. subst es.
  destruct (pieData_shape xAxis yAxis rows o E) as [[Hnd _] [Hlen Hkeys]].
  split; [ apply firstn_le_length | ].
  split; [ rewrite length_firstn; lia | ].
  split.
  { rewrite <- firstn_map. apply NoDup_firstn. exact Hnd. }
  intros label value Hin.
  assert (Hk : In label (keys o)).
  { unfold keys. apply in_map_iff. exists (label, value). split; [ reflexivity | ].
    rewrite <- (firstn_skipn 8 o). apply in_or_app. left. exact Hin. }
  apply (Hkeys label Hk).
Qed.

Lemma pieEntries_produced xAxis yAxis (rows : list record) :
  Forall (fun d => inherited (ToString (prop d xAxis)) = false) rows ->
  exists es, pieEntries rows xAxis yAxis = Some es.
Proof.
  intros H. destruct (pieData_produced xAxis yAxis rows H) as [o E].
  unfold pieEntries. rewrite E. eexists. reflexivity.
Qed.

(** For rows none of whose labels names a member of [Object.prototype]
    (on such a label the running total is no number, which the model
    leaves out) the pie is produced; it has at most 8 slices and at most
    one per row, its labels are pairwise distinct, and each label is the
    string form of the x value of some row. *)
Theorem pie_entries_shape (rows : list record) (xAxis yAxis : string) :
  Forall (fun d => inherited (ToString (prop d xAxis)) = false) rows ->
  exists es,
    pieEntries rows xAxis yAxis = Some es
    /\ len es <= 8 /\ len es <= len rows
    /\ NoDup (map fst es)
    /\ forall label value, In (label, value) es ->
         exists d, In d rows /\ label = ToString (prop d xAxis).
Proof.
  intros H. destruct (pieEntries_produced xAxis yAxis rows H) as [es E].
  exists es. split; [ exact E | ].
  apply (pieEntries_shape rows xAxis yAxis es E).
Qed.

Lemma pie_entries_shape_witness :
  Forall (fun d => inherited (ToString (prop d "k")) = false)
         (chartData Samples.letters_rows)
  /\ exists es,
       pieEntries (chartData Samples.letters_rows) "k" "v" = Some es
       /\ len es <= 8 /\ len es <= len (chartData Samples.letters_rows)
       /\ NoDup (map fst es)
       /\ forall label value, In (label, value) es ->
            exists d, In d (chartData Samples.letters_rows)
                      /\ label = ToString (prop d "k").
Proof.
  assert (H : Forall (fun d => inherited (ToString (prop d "k")) = false)
                     (chartData Samples.letters_rows))
    by (apply no_inherited_check; vm_compute; reflexivity).
  split; [ exact H | ].
  exact (pie_entries_shape (chartData Samples.letters_rows) "k" "v" H).
Defined.

Lemma xyValid_length (rows : list record) (xAxis yAxis : string) :
  len (xyValid rows xAxis yAxis) <= len rows.
Proof.
  unfold xyValid. etransitivity; [ apply filter_length_le | ].
  rewrite length_map. lia.
Qed.

Lemma pieEntries_length xAxis yAxis (rows : list record) es :
  pieEntries rows xAxis yAxis = Some es -> len es <= 8 /\ len es <= len rows.
Proof.
  unfold pieEntries. destruct (pieData rows xAxis yAxis) as [o |] eqn:E;
    [ | discriminate ].
  intros H.
  assert (Hes : es = firstn 8 o) by (injection H as H; symmetry; exact H).
  subst es. destruct (pieData_shape xAxis yAxis rows o E) as [_ [Hlen _]].
  split; [ apply firstn_le_length | rewrite length_firstn; lia ].
Qed.

(** Splits a goal on the plot type, literal by literal. *)
Ltac by_plot_type p :=
  destruct (String.eqb_spec p "line") as [-> | ?];
  [ | destruct (String.eqb_spec p "bar") as [-> | ?];
  [ | destruct (String.eqb_spec p "area") as [-> | ?];
  [ | destruct (String.eqb_spec p "scatter") as [-> | ?];
  [ | destruct (String.eqb_spec p "pie") as [-> | ?];
  [ | destruct (String.eqb_spec p "radar") as [-> | ?];
  [ | destruct (String.eqb_spec p "geograph") as [-> | ?] ] ] ] ] ] ].

Lemma render_unknown plotType rows xAxis yAxis geo :
  plotType <> "line" -> plotType <> "bar" -> plotType <> "area" ->
  plotType <> "scatter" -> plotType <> "pie" -> plotType <> "radar" ->
  plotType <> "geograph" ->
  renderPlotlyChart plotType rows xAxis yAxis geo
  = Some {| data := [];
            layout := {| xaxis := Some xAxis; yaxis := Some yAxis;
                         polar := false; mapbox := None |} |}.
Proof.
  intros H1 H2 H3 H4 H5 H6 H7.
  apply String.eqb_neq in H1, H2, H3, H4, H5, H6, H7.
  unfold renderPlotlyChart, cartesian_layout.
  rewrite H1, H2, H3, H4, H5, H6, H7. reflexivity.
Qed.

Lemma render_geograph rows xAxis yAxis geo :
  renderPlotlyChart "geograph" rows xAxis yAxis geo
  = match lat geo, lon geo with
    | Some latCol, Some lonCol =>
        if geo_available geo then
          Some {| data := [ScatterMapbox
                             (map (fun d => prop d latCol)
                                  (validGeoData rows latCol lonCol))
                             (map (fun d => prop d lonCol)
                                  (validGeoData rows latCol lonCol))
                             (map (geo_text latCol lonCol)
                                  (validGeoData rows latCol lonCol))];
                  layout := {| xaxis := None; yaxis := None; polar := false;
                               mapbox :=
                                 Some (geo_mapbox
                                         (validGeoData rows latCol lonCol)
                                         latCol lonCol) |} |}
        else Some {| data := [];
                     layout := {| xaxis := None; yaxis := None;
                                  polar := false; mapbox := None |} |}
    | _, _ => Some {| data := [];
                      layout := {| xaxis := None; yaxis := None;
                                   polar := false; mapbox := None |} |}
    end.
Proof. reflexivity. Qed.

Lemma render_radar rows xAxis yAxis geo :
  renderPlotlyChart "radar" rows xAxis yAxis geo
  = Some {| data := [ScatterPolar
                       (map (fun d => prop d yAxis) (firstn 6 rows))
                       (map (fun d => ToString (prop d xAxis))
                            (firstn 6 rows))];
            layout := {| xaxis := Some xAxis; yaxis := Some yAxis;
                         polar := true; mapbox := None |} |}.
Proof. reflexivity. Qed.

(** Every plot type yields a descriptor; for a pie this is stated for
    rows none of whose labels names a member of [Object.prototype]. *)
Lemma render_produced plotType (rows : list record) xAxis yAxis geo :
  (plotType = "pie" ->
   Forall (fun d => inherited (ToString (prop d xAxis)) = false) rows) ->
  exists d, renderPlotlyChart plotType rows xAxis yAxis geo = Some d.
Proof.
  by_plot_type plotType; intros Hpie.
  1-4: eexists; reflexivity.
  - destruct (pieEntries_produced xAxis yAxis rows (Hpie eq_refl)) as [es E].
    unfold renderPlotlyChart. cbn [String.eqb Ascii.eqb Bool.eqb].
    rewrite E. eexists. reflexivity.
  - rewrite render_radar. eexists. reflexivity.
  - rewrite render_geograph.
    destruct (lat geo), (lon geo); try destruct (geo_available geo);
      eexists; reflexivity.
  - rewrite render_unknown by assumption. eexists. reflexivity.
Qed.

Lemma bounds_of_descriptor
        (plotType : string) (rows : list record) (xAxis yAxis : string)
        (geo : GeoColumns) (d : Descriptor) :
  renderPlotlyChart plotType rows xAxis yAxis geo = Some d ->
  len (data d) <= 1
  /\ Forall (fun t => trace_points t <= len rows) (data d)
  /\ (plotType = "pie" -> Forall (fun t => trace_points t <= 8) (data d))
  /\ (plotType = "radar" ->
      data d = [ScatterPolar
                  (map (fun r => prop r yAxis) (firstn 6 rows))
                  (map (fun r => ToString (prop r xAxis)) (firstn 6 rows))]
      /\ Forall (fun t => trace_points t = Nat.min 6 (len rows)) (data d))
  /\ (~ In plotType View.CHART_TYPES -> data d = []).
Proof.
  pose proof (xyValid_length rows xAxis yAxis) as Hxy.
  by_plot_type plotType.
  - intros H. injection H as <-. cbn [data Datatypes.length].
    split; [ lia | ].
    split; [ constructor; [ | constructor ]; cbn [trace_points]; rewrite length_map;
             exact Hxy | ].
    split; [ discriminate | ]. split; [ discriminate | ].
    intros H. exfalso. apply H. cbn. tauto.
  - intros H. injection H as <-. cbn [data Datatypes.length].
    split; [ lia | ].
    split; [ constructor; [ | constructor ]; cbn [trace_points]; rewrite length_map;
             exact Hxy | ].
    split; [ discriminate | ]. split; [ discriminate | ].
    intros H. exfalso. apply H. cbn. tauto.
  - intros H. injection H as <-. cbn [data Datatypes.length].
    split; [ lia | ].
    split; [ constructor; [ | constructor ]; cbn [trace_points]; rewrite length_map;
             exact Hxy | ].
    split; [ discriminate | ]. split; [ discriminate | ].
    intros H. exfalso. apply H. cbn. tauto.
  - intros H. injection H as <-. cbn [data Datatypes.length].
    split; [ lia | ].
    split; [ constructor; [ | constructor ]; cbn [trace_points]; rewrite length_map;
             exact Hxy | ].
    split; [ discriminate | ]. split; [ discriminate | ].
    intros H. exfalso. apply H. cbn. tauto.
  - unfold renderPlotlyChart. cbn [String.eqb Ascii.eqb Bool.eqb].
    destruct (pieEntries rows xAxis yAxis) as [es |] eqn:E; [ | discriminate ].
    destruct (pieEntries_length _ _ _ _ E) as [H8 Hn].
    intros H. injection H as <-. cbn [data Datatypes.length].
    split; [ lia | ].
    split; [ constructor; [ | constructor ]; cbn [trace_points]; rewrite length_map;
             exact Hn | ].
    split; [ intros _; constructor; [ | constructor ]; cbn [trace_points];
             rewrite length_map; exact H8 | ].
    split; [ discriminate | ].
    intros H. exfalso. apply H. cbn. tauto.
  - rewrite render_radar.
    intros H.
    assert (Hd : data d
                 = [ScatterPolar
                      (map (fun r => prop r yAxis) (firstn 6 rows))
                      (map (fun r => ToString (prop r xAxis)) (firstn 6 rows))])
      by (injection H as H; rewrite <- H; reflexivity).
    clear H. rewrite Hd. cbn [Datatypes.length].
    assert (Hlen : len (map (fun r => prop r yAxis) (firstn 6 rows))
                   = Nat.min 6 (len rows))
      by (rewrite length_map; apply length_firstn).
    split; [ lia | ].
    split; [ apply Forall_cons; [ | apply Forall_nil ];
             cbn [trace_points]; rewrite Hlen; apply Nat.le_min_r | ].
    split; [ discriminate | ].
    split.
    + intros _. split; [ reflexivity | ].
      apply Forall_cons; [ | apply Forall_nil ].
      cbn [trace_points]. exact Hlen.
    + intros H. exfalso. apply H. cbn. tauto.
  - rewrite render_geograph.
    assert (Hgeo : ~ In "geograph" View.CHART_TYPES -> data d = []).
    { intros H. exfalso. apply H. cbn. tauto. }
    destruct (lat geo) as [latCol |], (lon geo) as [lonCol |];
      try destruct (geo_available geo);
      intros H; injection H as <-; cbn [data Datatypes.length] in *;
      (split; [ lia | ]);
      (split; [ first [ constructor; [ | constructor ]; cbn [trace_points];
                        rewrite length_map; apply filter_length_le
                      | constructor ] | ]);
      (split; [ discriminate | ]); (split; [ discriminate | ]); exact Hgeo.
  - rewrite render_unknown by assumption.
    intros H. injection H as <-. cbn [data Datatypes.length].
    split; [ lia | ]. split; [ constructor | ].
    split; [ intros ->; congruence | ]. split; [ intros ->; congruence | ].
    reflexivity.
Qed.

(** Every plot type yields a descriptor (for a pie: when no label of
    the rows names a member of [Object.prototype], the case the model
    leaves out).  The descriptor holds at most one series, and the
    series never has more points than there are rows: at most 8 for a
    pie, exactly the first 6 rows (or all, if fewer), unfiltered, for a
    radar; a plot type that is none of the seven gets no series at
    all. *)
Theorem descriptor_bounds
        (plotType : string) (rows : list record) (xAxis yAxis : string)
        (geo : GeoColumns) :
  (plotType = "pie" ->
   Forall (fun d => inherited (ToString (prop d xAxis)) = false) rows) ->
  exists d,
    renderPlotlyChart plotType rows xAxis yAxis geo = Some d
    /\ len (data d) <= 1
    /\ Forall (fun t => trace_points t <= len rows) (data d)
    /\ (plotType = "pie" -> Forall (fun t => trace_points t <= 8) (data d))
    /\ (plotType = "radar" ->
        data d = [ScatterPolar
                    (map (fun r => prop r yAxis) (firstn 6 rows))
                    (map (fun r => ToString (prop r xAxis)) (firstn 6 rows))]
        /\ Forall (fun t => trace_points t = Nat.min 6 (len rows)) (data d))
    /\ (~ In plotType View.CHART_TYPES -> data d = []).
Proof.
  intros Hpie.
  destruct (render_produced plotType rows xAxis yAxis geo Hpie) as [d E].
  exists d. split; [ exact E | ].
  apply (bounds_of_descriptor plotType rows xAxis yAxis geo d E).
Qed.

Lemma descriptor_bounds_witness :
  ("pie" = "pie" ->
   Forall (fun d => inherited (ToString (prop d "k")) = false)
          (chartData Samples.letters_rows))
  /\ exists d,
       renderPlotlyChart "pie" (chartData Samples.letters_rows) "k" "v"
         (geoColumns Samples.letters_rows) = Some d
       /\ len (data d) <= 1
       /\ Forall (fun t => trace_points t
                           <= len (chartData Samples.letters_rows)) (data d)
       /\ ("pie" = "pie" -> Forall (fun t => trace_points t <= 8) (data d))
       /\ ("pie" = "radar" ->
           data d = [ScatterPolar
                       (map (fun r => prop r "v")
                            (firstn 6 (chartData Samples.letters_rows)))
                       (map (fun r => ToString (prop r "k"))
                            (firstn 6 (chartData Samples.letters_rows)))]
           /\ Forall (fun t => trace_points t
                               = Nat.min 6 (len (chartData Samples.letters_rows)))
                     (data d))
       /\ (~ In "pie" View.CHART_TYPES -> data d = []).
Proof.
  assert (H : "pie" = "pie" ->
              Forall (fun d => inherited (ToString (prop d "k")) = false)
                     (chartData Samples.letters_rows))
    by (intros _; apply no_inherited_check; vm_compute; reflexivity).
  split; [ exact H | ].
  exact (descriptor_bounds "pie" (chartData Samples.letters_rows) "k" "v"
           (geoColumns Samples.letters_rows) H).
Defined.

End DescriptorShape.

(** ** Layout, column names and the footer *)
Module LayoutRules.
Import JS Schema Synth Measures View Footer DescriptorShape.
Open Scope nat_scope.

Lemma prefix_app_l (a b s : string) :
  prefix (a ++ b) s = true -> prefix a s = true.
Proof.
  revert s. induction a as [| c a IH]; intros s H; [ destruct s; reflexivity | ].
  destruct s as [| c' s]; [ discriminate | ].
  cbn [prefix append] in *. destruct (ascii_dec c c'); [ | discriminate ].
  apply IH, H.
Qed.

Lemma includes_app_l (s a b : string) :
  includes s (a ++ b) = true -> includes s a = true.
Proof.
  induction s as [| c s IH]; cbn [includes]; intros H;
    apply Bool.orb_true_iff in H; apply Bool.orb_true_iff;
    destruct H as [H | H].
  - left. apply (prefix_app_l a b), H.
  - discriminate.
  - left. apply (prefix_app_l a b), H.
  - right. apply IH, H.
Qed.

Lemma lower_char_idem (c : ascii) : lower_char (lower_char c) = lower_char c.
Proof.
  destruct c as [[] [] [] [] [] [] [] []]; vm_compute; reflexivity.
Qed.

Lemma toLowerCase_idem (s : string) :
  toLowerCase (toLowerCase s) = toLowerCase s.
Proof.
  induction s as [| c s IH]; cbn [toLowerCase]; [ reflexivity | ].
  rewrite lower_char_idem, IH. reflexivity.
Qed.

(** The column-name tests look at the lower-cased name only, and the
    tests for "latitude" and "longitude" never decide: a name that
    contains them contains "lat" or "lon" already. *)
Theorem geo_name_tests (col : string) :
  is_lat_name col
  = (includes (toLowerCase col) "lat" || (toLowerCase col =? "y")%string)
  /\ is_lon_name col
     = (includes (toLowerCase col) "lon" || includes (toLowerCase col) "lng"
        || (toLowerCase col =? "x")%string)
  /\ is_lat_name (toLowerCase col) = is_lat_name col
  /\ is_lon_name (toLowerCase col) = is_lon_name col.
Proof.
  unfold is_lat_name, is_lon_name. rewrite toLowerCase_idem.
  pose proof (includes_app_l (toLowerCase col) "lat" "itude") as Hlat.
  pose proof (includes_app_l (toLowerCase col) "lon" "gitude") as Hlon.
  cbn [append] in Hlat, Hlon.
  split; [ | split; [ | split; reflexivity ] ].
  - destruct (includes (toLowerCase col) "latitude");
      [ rewrite Hlat by reflexivity; reflexivity | ].
    rewrite Bool.orb_false_r. reflexivity.
  - destruct (includes (toLowerCase col) "longitude");
      [ rewrite Hlon by reflexivity; reflexivity | ].
    rewrite Bool.orb_false_r. reflexivity.
Qed.

Lemma layout_of_descriptor
        (plotType : string) (rows : list record) (xAxis yAxis : string)
        (geo : GeoColumns) (d : Descriptor) :
  renderPlotlyChart plotType rows xAxis yAxis geo = Some d ->
  (plotType <> "pie" -> plotType <> "geograph" ->
   xaxis (layout d) = Some xAxis /\ yaxis (layout d) = Some yAxis)
  /\ (plotType = "pie" \/ plotType = "geograph" ->
      xaxis (layout d) = None /\ yaxis (layout d) = None)
  /\ (polar (layout d) = true <-> plotType = "radar")
  /\ ((exists m, mapbox (layout d) = Some m)
      <-> plotType = "geograph" /\ geo_available geo = true)
  /\ ((exists m, mapbox (layout d) = Some m)
      <-> exists lats lons text, data d = [ScatterMapbox lats lons text]).
Proof.
  by_plot_type plotType.
  1-4: intros H; injection H as <-; cbn [layout data xaxis yaxis polar mapbox];
    (split; [ intros _ _; split; reflexivity | ]);
    (split; [ intros [H | H]; discriminate | ]);
    (split; [ split; discriminate | ]);
    (split; [ split; [ intros [m H] | intros [H _] ]; discriminate | ]);
    (split; [ intros [m H] | intros [a [b [c H]]] ]; discriminate).
  - unfold renderPlotlyChart. cbn [String.eqb Ascii.eqb Bool.eqb].
    destruct (pieEntries rows xAxis yAxis) as [es |]; [ | discriminate ].
    intros H; injection H as <-; cbn [layout data xaxis yaxis polar mapbox].
    split; [ intros H; exfalso; apply H; reflexivity | ].
    split; [ intros _; split; reflexivity | ].
    split; [ split; discriminate | ].
    split; [ split; [ intros [m H] | intros [H _] ]; discriminate | ].
    split; [ intros [m H] | intros [a [b [c H]]] ]; discriminate.
  - rewrite render_radar.
    intros H; injection H as <-; cbn [layout data xaxis yaxis polar mapbox].
    split; [ intros _ _; split; reflexivity | ].
    split; [ intros [H | H]; discriminate | ].
    split; [ split; reflexivity | ].
    split; [ split; [ intros [m H] | intros [H _] ]; discriminate | ].
    split; [ intros [m H] | intros [a [b [c H]]] ]; discriminate.
  - rewrite render_geograph. unfold geo_available.
    destruct (lat geo) as [latCol |], (lon geo) as [lonCol |];
      cbn [resolved andb]; rewrite ?Bool.andb_false_r;
      try destruct (truthy_string latCol && truthy_string lonCol);
      intros H; injection H as <-; cbn [layout data xaxis yaxis polar mapbox];
      (split; [ intros _ H; exfalso; apply H; reflexivity | ]);
      (split; [ intros _; split; reflexivity | ]);
      (split; [ split; discriminate | ]);
      (split;
       [ split; [ intros [m H]; first [ discriminate | split; reflexivity ]
                | intros [_ H];
                  first [ discriminate | eexists; reflexivity ] ] | ]);
      (split; [ intros [m H];
                first [ discriminate | do 3 eexists; reflexivity ]
              | intros [a [b [c H]]];
                first [ discriminate | eexists; reflexivity ] ]).
  - rewrite render_unknown by assumption.
    intros H; injection H as <-; cbn [layout data xaxis yaxis polar mapbox].
    split; [ intros _ _; split; reflexivity | ].
    split; [ intros [H | H]; congruence | ].
    split; [ split; [ discriminate | congruence ] | ].
    split; [ split; [ intros [m H]; discriminate | intros [H _]; congruence ] | ].
    split; [ intros [m H] | intros [a [b [c H]]] ]; discriminate.
Qed.

(** The layout follows the plot type: axis titles for every type but
    pie and geograph (the radar keeps them beside its polar axes), polar
    axes for the radar only, and a map exactly when a geograph has both
    coordinate columns, which is also exactly when the descriptor holds
    a map series.  (For a pie the descriptor is stated for rows none of
    whose labels names a member of [Object.prototype].) *)
Theorem layout_rule
        (plotType : string) (rows : list record) (xAxis yAxis : string)
        (geo : GeoColumns) :
  (plotType = "pie" ->
   Forall (fun d => inherited (ToString (prop d xAxis)) = false) rows) ->
  exists d,
    renderPlotlyChart plotType rows xAxis yAxis geo = Some d
    /\ (plotType <> "pie" -> plotType <> "geograph" ->
        xaxis (layout d) = Some xAxis /\ yaxis (layout d) = Some yAxis)
    /\ (plotType = "pie" \/ plotType = "geograph" ->
        xaxis (layout d) = None /\ yaxis (layout d) = None)
    /\ (polar (layout d) = true <-> plotType = "radar")
    /\ ((exists m, mapbox (layout d) = Some m)
        <-> plotType = "geograph" /\ geo_available geo = true)
    /\ ((exists m, mapbox (layout d) = Some m)
        <-> exists lats lons text, data d = [ScatterMapbox lats lons text]).
Proof.
  intros Hpie.
  destruct (render_produced plotType rows xAxis yAxis geo Hpie) as [d E].
  exists d. split; [ exact E | ].
  apply (layout_of_descriptor plotType rows xAxis yAxis geo d E).
Qed.

Lemma layout_rule_witness :
  ("pie" = "pie" ->
   Forall (fun d => inherited (ToString (prop d "k")) = false)
          (chartData Samples.letters_rows))
  /\ exists d,
       renderPlotlyChart "pie" (chartData Samples.letters_rows) "k" "v"
         (geoColumns Samples.letters_rows) = Some d
       /\ ("pie" <> "pie" -> "pie" <> "geograph" ->
           xaxis (layout d) = Some "k" /\ yaxis (layout d) = Some "v")
       /\ ("pie" = "pie" \/ "pie" = "geograph" ->
           xaxis (layout d) = None /\ yaxis (layout d) = None)
       /\ (polar (layout d) = true <-> "pie" = "radar")
       /\ ((exists m, mapbox (layout d) = Some m)
           <-> "pie" = "geograph"
               /\ geo_available (geoColumns Samples.letters_rows) = true)
       /\ ((exists m, mapbox (layout d) = Some m)
           <-> exists lats lons text, data d = [ScatterMapbox lats lons text]).
Proof.
  assert (H : "pie" = "pie" ->
              Forall (fun d => inherited (ToString (prop d "k")) = false)
                     (chartData Samples.letters_rows))
    by (intros _; apply no_inherited_check; vm_compute; reflexivity).
  split; [ exact H | ].
  exact (layout_rule "pie" (chartData Samples.letters_rows) "k" "v"
           (geoColumns Samples.letters_rows) H).
Defined.

Lemma filter_none (A : Type) (f : A -> bool) (l : list A) :
  (forall x, In x l -> f x = false) -> filter f l = [].
Proof.
  induction l as [| a l IH]; intros H; [ reflexivity | ].
  cbn [filter]. rewrite (H a (or_introl eq_refl)).
  apply IH. intros x Hx. apply H. right. exact Hx.
Qed.

(** A geograph over rows none of which has usable coordinates still
    draws: a map series without points, centred at (NaN, NaN) with the
    closest zoom, 8. *)
Theorem geograph_without_points
        (rows : list record) (xAxis yAxis : string) (geo : GeoColumns)
        (latCol lonCol : string) :
  lat geo = Some latCol -> lon geo = Some lonCol ->
  geo_available geo = true ->
  (forall d, In d rows -> geo_valid latCol lonCol d = false) ->
  renderPlotlyChart "geograph" rows xAxis yAxis geo
  = Some {| data := [ScatterMapbox [] [] []];
            layout := {| xaxis := None; yaxis := None; polar := false;
                         mapbox := Some {| center_lat := nan;
                                           center_lon := nan;
                                           zoom := 8 |} |} |}.
Proof.
  intros Hlat Hlon Hgeo Hrows.
  rewrite render_geograph, Hlat, Hlon, Hgeo.
  unfold validGeoData. rewrite (filter_none _ _ _ Hrows).
  reflexivity.
Qed.

Lemma geograph_without_points_witness :
  lat (geoColumns MoreSamples.names_rows) = Some "lat"
  /\ lon (geoColumns MoreSamples.names_rows) = Some "lon"
  /\ geo_available (geoColumns MoreSamples.names_rows) = true
  /\ renderPlotlyChart "geograph" (chartData MoreSamples.names_rows) "" ""
       (geoColumns MoreSamples.names_rows)
     = Some {| data := [ScatterMapbox [] [] []];
               layout := {| xaxis := None; yaxis := None; polar := false;
                            mapbox := Some {| center_lat := nan;
                                              center_lon := nan;
                                              zoom := 8 |} |} |}.
Proof.
  split; [ reflexivity | ]. split; [ reflexivity | ].
  split; [ reflexivity | ].
  apply (geograph_without_points (chartData MoreSamples.names_rows) "" ""
           (geoColumns MoreSamples.names_rows) "lat" "lon");
    try reflexivity.
  intros d [<- | []]. reflexivity.
Defined.

Lemma sampleData_length (A : Type) (D : list A) (maxPoints : nat) :
  0 < maxPoints ->
  exists out,
    Sampler.sampleData D maxPoints = Some out
    /\ len out = Nat.min (len D) maxPoints
    /\ (len D <= maxPoints -> out = D).
Proof.
  intros Hm. destruct (le_lt_dec (len D) maxPoints) as [Hle | Hgt].
  - exists D. split; [ apply SamplerTheory.sampleData_small, Hle | ].
    split; [ lia | reflexivity ].
  - destruct (SamplerBounds.sampleData_bound A D maxPoints) as [out [E Hout]].
    exists out. split; [ exact E | ]. split; [ | lia ].
    rewrite SamplerTheory.sampleData_large in E by assumption.
    injection E as <-.
    assert (Hstride : 0 < len D / maxPoints) by (apply Nat.div_str_pos; lia).
    rewrite length_firstn,
      SamplerBounds.at_indices_length
      by (apply SamplerTheory.stride_indices_in_range, Hstride).
    unfold SamplerSpec.stride_indices. rewrite length_map, length_seq.
    assert (maxPoints <= SamplerSpec.stride_count (len D) (len D / maxPoints)).
    { apply SamplerBounds.stride_count_ge; [ exact Hstride | | lia ].
      rewrite Nat.mul_comm. apply Nat.Div0.mul_div_le. }
    lia.
Qed.

Lemma loadData_csvData s rows errors out :
  Sampler.sampleData rows Sampler.MAX_POINTS = Some out ->
  csvData (loadData s (ParseComplete rows errors)) = out.
Proof.
  intros E. unfold loadData. cbn [fetchCSVData]. rewrite E.
  cbn [setLoading csvData].
  destruct (ViewTheory.seed_axes_frame s (setCsvData (fetch_start s) out) out)
    as [_ [-> _]].
  reflexivity.
Qed.

Lemma handleRefresh_csvData s rows errors out :
  Sampler.sampleData rows Sampler.MAX_POINTS = Some out ->
  csvData (handleRefresh s (ParseComplete rows errors)) = out.
Proof.
  intros E. unfold handleRefresh. cbn [fetchCSVData]. rewrite E. reflexivity.
Qed.

(** After a load or a refresh that delivers rows the footer says
    "(sampled)" exactly when the file had at least 2000 rows.  That
    includes a file of exactly 2000 rows, of which none is dropped. *)
Theorem footer_sampled_rule
        (s : State) (rows : list record) (errors : list string) :
  (footer_sampled (loadData s (ParseComplete rows errors)) = true
   <-> 2000 <= len rows)
  /\ (footer_sampled (handleRefresh s (ParseComplete rows errors)) = true
      <-> 2000 <= len rows)
  /\ (len rows = 2000 ->
      csvData (loadData s (ParseComplete rows errors)) = rows
      /\ csvData (handleRefresh s (ParseComplete rows errors)) = rows).
Proof.
  destruct (sampleData_length _ rows Sampler.MAX_POINTS) as [out [E [Hl Hs]]];
    [ unfold Sampler.MAX_POINTS; lia | ].
  unfold footer_sampled.
  rewrite (loadData_csvData s rows errors out E),
    (handleRefresh_csvData s rows errors out E).
  unfold Sampler.MAX_POINTS in Hl, Hs.
  split; [ rewrite Nat.leb_le; lia | ].
  split; [ rewrite Nat.leb_le; lia | ].
  intros H. rewrite Hs by lia. split; reflexivity.
Qed.

(** On the ready screen the redraw effect and the placeholder agree:
    when the effect draws there is no placeholder, and when there is no
    placeholder the effect draws what [renderPlotlyChart] returns, but
    for one case: for a geograph without coordinate columns while both
    axes are selected the effect draws nothing and no placeholder is
    rendered either.  (Whatever an earlier run of the effect drew is not
    cleared by this code; what the chart area then holds is not part of
    the statement.) *)
Theorem effect_and_placeholder (s : State) :
  is_ready s = true ->
  (forall d, chart_effect s = Some d -> placeholder s = None)
  /\ (placeholder s = None ->
      chart_effect s
      = renderPlotlyChart (plotType s) (chartData (csvData s))
          (xAxis s) (yAxis s) (geoColumns (csvData s))
      \/ (plotType s = "geograph"
          /\ geo_available (geoColumns (csvData s)) = false
          /\ truthy_string (xAxis s) && truthy_string (yAxis s) = true
          /\ chart_effect s = None)).
Proof.
  intros Hr. destruct (ViewExtras.ready_inv s Hr) as [_ [_ [_ Hrows]]].
  assert (Hlen : (0 <? len (chartData (csvData s))) = true).
  { unfold chartData. rewrite ChartDataTheory.map_index_length.
    destruct (csvData s); [ contradiction | reflexivity ]. }
  unfold chart_effect, placeholder. rewrite Hr, Hlen. cbn [andb].
  destruct (String.eqb_spec (plotType s) "geograph") as [Hg | Hg];
    destruct (geo_available (geoColumns (csvData s)));
    destruct (truthy_string (xAxis s) && truthy_string (yAxis s));
    cbn [andb orb]; split;
      try (intros d H; first [ reflexivity | discriminate ]);
      intros H; first [ discriminate | left; reflexivity | right ].
  repeat split. exact Hg.
Qed.

Lemma effect_and_placeholder_witness :
  is_ready (loadData (initial "line") (ParseComplete Samples.abc_rows []))
  = true
  /\ forall d,
       chart_effect (loadData (initial "line")
                       (ParseComplete Samples.abc_rows [])) = Some d ->
       placeholder (loadData (initial "line")
                      (ParseComplete Samples.abc_rows [])) = None.
Proof.
  split; [ reflexivity | ].
  apply (effect_and_placeholder
           (loadData (initial "line") (ParseComplete Samples.abc_rows []))).
  reflexivity.
Defined.

End LayoutRules.
